(** * Tado X integration: API client and polling coordinator

    A shallow embedding of [custom_components/tado_x/api.py] and
    [custom_components/tado_x/coordinator.py].

    - Python values that come out of [response.json()] are kept dynamically
      typed ([json]); attribute and item access on them can raise, as in
      Python.
    - [dict] is an insertion-ordered association list ([dict_set] replaces in
      place or appends), because the coordinator iterates [data.rooms].
    - floats are the binary64 primitives; [round(x, 1)] follows CPython.
    - the HTTP session is an oracle that answers a request given the events
      that came before it; the client threads its own mutable fields and that
      world through a state-and-exception monad. *)

From Stdlib Require Import ZArith List String Ascii Bool Lia Floats DecimalString.
Import ListNotations.

Set Implicit Arguments.
Set Warnings "-register-all,-inexact-float".
Open Scope string_scope.
Open Scope Z_scope.

Infix "+++" := String.append (right associativity, at level 60).

(** ** Python exceptions and outcomes *)

Inductive exn : Type :=
  | TadoXAuthError (msg : string)
  | TadoXApiError (msg : string)
  | UpdateFailed (msg : string)
  | ClientError (msg : string)          (* aiohttp.ClientError and subclasses *)
  | PyError (cls : string) (msg : string). (* built-in subclasses of Exception *)

(** [str(err)] *)
Definition exn_str (e : exn) : string :=
  match e with
  | TadoXAuthError m | TadoXApiError m | UpdateFailed m | ClientError m => m
  | PyError _ m => m
  end.

(** What evaluating a Python expression can give.  [Beyond] marks an input on
    which this development does not say what Python does (a float used as a
    dictionary key, the [repr] of a container inside an f-string, a loop that
    outlives its fuel); no handler catches it. *)
Inductive outcome (A : Type) : Type :=
  | Ok (a : A)
  | Raise (e : exn)
  | Beyond (why : string).
Arguments Ok {A} a.
Arguments Raise {A} e.
Arguments Beyond {A} why.

Definition obind {A B} (m : outcome A) (k : A -> outcome B) : outcome B :=
  match m with
  | Ok a => k a
  | Raise e => Raise e
  | Beyond w => Beyond w
  end.

Notation "'let*' x ':=' m 'in' k" := (obind m (fun x => k))
  (at level 10, x pattern, m at level 100, k at level 200).

(** [for x in xs: acc = body(x, acc)], stopping at the first exception. *)
Fixpoint for_each {A S} (xs : list A) (body : A -> S -> outcome S) (s : S)
  : outcome S :=
  match xs with
  | [] => Ok s
  | x :: rest => let* s' := body x s in for_each rest body s'
  end.

(** ** Python values *)

Inductive json : Type :=
  | JNull
  | JBool (b : bool)
  | JInt (n : Z)
  | JFloat (f : float)
  | JStr (s : string)
  | JList (l : list json)
  | JDict (kv : list (string * json)).

Definition type_name (v : json) : string :=
  match v with
  | JNull => "NoneType"
  | JBool _ => "bool"
  | JInt _ => "int"
  | JFloat _ => "float"
  | JStr _ => "str"
  | JList _ => "list"
  | JDict _ => "dict"
  end.

(** [bool(v)] *)
Definition truthy (v : json) : bool :=
  match v with
  | JNull => false
  | JBool b => b
  | JInt n => negb (n =? 0)
  | JFloat f => negb (PrimFloat.eqb f 0%float)
  | JStr s => negb (String.eqb s "")
  | JList l => match l with [] => false | _ => true end
  | JDict kv => match kv with [] => false | _ => true end
  end.

(** [a or b] *)
Definition py_or (a b : json) : json := if truthy a then a else b.

Definition is_none (v : json) : bool :=
  match v with JNull => true | _ => false end.

Fixpoint assoc {V} (k : string) (kv : list (string * V)) : option V :=
  match kv with
  | [] => None
  | (k', v) :: rest => if String.eqb k k' then Some v else assoc k rest
  end.

Definition no_attribute (v : json) (attr : string) : exn :=
  PyError "AttributeError"
    ("'" +++ type_name v +++ "' object has no attribute '" +++ attr +++ "'").

(** [v.get(k, default)]; only a dict has [get]. *)
Definition py_get_or (v : json) (k : string) (default : json) : outcome json :=
  match v with
  | JDict kv => Ok (match assoc k kv with Some x => x | None => default end)
  | _ => Raise (no_attribute v "get")
  end.

(** [v.get(k)] *)
Definition py_get (v : json) (k : string) : outcome json := py_get_or v k JNull.

(** [v[k]] with a string key *)
Definition py_item (v : json) (k : string) : outcome json :=
  match v with
  | JDict kv =>
      match assoc k kv with
      | Some x => Ok x
      | None => Raise (PyError "KeyError" ("'" +++ k +++ "'"))
      end
  | JStr _ => Raise (PyError "TypeError" "string indices must be integers, not 'str'")
  | JList _ => Raise (PyError "TypeError" "list indices must be integers or slices, not str")
  | _ => Raise (PyError "TypeError" ("'" +++ type_name v +++ "' object is not subscriptable"))
  end.

Fixpoint chars (s : string) : list json :=
  match s with
  | EmptyString => []
  | String c rest => JStr (String c EmptyString) :: chars rest
  end.

(** [for x in v] *)
Definition py_iter (v : json) : outcome (list json) :=
  match v with
  | JList l => Ok l
  | JDict kv => Ok (map (fun p => JStr (fst p)) kv)
  | JStr s => Ok (chars s)
  | _ => Raise (PyError "TypeError" ("'" +++ type_name v +++ "' object is not iterable"))
  end.

Definition dec (n : Z) : string := NilZero.string_of_int (Z.to_int n).

(** [str(v)] as an f-string interpolates it. *)
Definition py_str (v : json) : outcome string :=
  match v with
  | JNull => Ok "None"
  | JBool true => Ok "True"
  | JBool false => Ok "False"
  | JInt n => Ok (dec n)
  | JStr s => Ok s
  | JFloat _ => Beyond "repr of a float"
  | JList _ | JDict _ => Beyond "repr of a container"
  end.

(** [v == "literal"] *)
Definition eq_str (v : json) (lit : string) : bool :=
  match v with JStr s => String.eqb s lit | _ => false end.

(** ** Dictionary keys and insertion-ordered dictionaries *)

Inductive pykey : Type := KNone | KInt (n : Z) | KStr (s : string).

Definition pykey_eqb (a b : pykey) : bool :=
  match a, b with
  | KNone, KNone => true
  | KInt x, KInt y => x =? y
  | KStr x, KStr y => String.eqb x y
  | _, _ => false
  end.

(** [hash(v)]: lists and dicts are unhashable. *)
Definition key_of (v : json) : outcome pykey :=
  match v with
  | JNull => Ok KNone
  | JInt n => Ok (KInt n)
  | JStr s => Ok (KStr s)
  | JBool _ => Beyond "bool as a dictionary key"
  | JFloat _ => Beyond "float as a dictionary key"
  | JList _ | JDict _ =>
      Raise (PyError "TypeError" ("unhashable type: '" +++ type_name v +++ "'"))
  end.

Definition json_of_key (k : pykey) : json :=
  match k with KNone => JNull | KInt n => JInt n | KStr s => JStr s end.

Module Dict.
Section Dict.
Variable V : Type.

Definition t := list (pykey * V).

Fixpoint get (k : pykey) (d : t) : option V :=
  match d with
  | [] => None
  | (k', v) :: rest => if pykey_eqb k k' then Some v else get k rest
  end.

(** [d[k] = v]: an existing key keeps its position. *)
Fixpoint set (k : pykey) (v : V) (d : t) : t :=
  match d with
  | [] => [(k, v)]
  | (k', v') :: rest =>
      if pykey_eqb k k' then (k', v) :: rest else (k', v') :: set k v rest
  end.

Definition mem (k : pykey) (d : t) : bool :=
  match get k d with Some _ => true | None => false end.

End Dict.
End Dict.

(** ** Floats

    Python's [float] is IEEE binary64, as Rocq's primitive [float] is.  The
    exact value of a finite float is read off its [Prim2SF] decomposition
    (sign, mantissa, binary exponent). *)

Module PyFloat.

Definition of_sf (x : spec_float) : float := SF2Prim x.

(** Nearest integer to [a / b], ties to even ([b > 0]). *)
Definition round_half_even (a b : Z) : Z :=
  let q := a / b in
  let r := a mod b in
  match 2 * r ?= b with
  | Lt => q
  | Gt => q + 1
  | Eq => if Z.even q then q else q + 1
  end.

(** [int.__float__]: correctly rounded, [OverflowError] past the range. *)
Definition of_int (n : Z) : outcome float :=
  match binary_normalize prec emax n 0 false with
  | S754_infinity _ =>
      Raise (PyError "OverflowError" "int too large to convert to float")
  | x => Ok (of_sf x)
  end.

(** The float an arithmetic operand stands for ([float - int] converts the
  int; [bool] is an [int]); [None] when the operand is not a number. *)
Definition operand (v : json) : option (outcome float) :=
  match v with
  | JFloat f => Some (Ok f)
  | JInt n => Some (of_int n)
  | JBool b => Some (Ok (if b then 1%float else 0%float))
  | _ => None
  end.

(** [a - v] for a float [a] *)
Definition sub (a : float) (v : json) : outcome float :=
  match operand v with
  | Some b => let* b := b in Ok (a - b)%float
  | None =>
      Raise (PyError "TypeError"
        ("unsupported operand type(s) for -: 'float' and '" +++ type_name v +++ "'"))
  end.

(** [round(x, 1)] (CPython [float.__round__] with [ndigits = 1]): a NaN or
  an infinity rounds to itself; otherwise the exact value is rounded to
  one decimal place, ties to even, and the decimal [n / 10] is converted
  back to the nearest float, the sign kept on a zero. *)
Definition round1 (x : float) : float :=
  match Prim2SF x with
  | S754_finite s m e =>
      if 0 <=? e then x
      else
        let n := round_half_even (10 * Zpos m) (2 ^ (- e)) in
        match n with
        | Zpos p => of_sf (SFdiv prec emax (S754_finite s p 0) (S754_finite false 10 0))
        | _ => of_sf (S754_zero s)
        end
  | _ => x
  end.

(** [min(a, b)] and [max(a, b)] on two arguments: the first one wins unless
  the second is strictly smaller (larger). *)
Definition min2 (a b : float) : float := if (b <? a)%float then b else a.
Definition max2 (a b : float) : float := if (a <? b)%float then b else a.

End PyFloat.

(** ** Dates and durations

    Instants and durations are counted in microseconds.  A [datetime] is
    either naive (wall-clock fields only) or aware (wall-clock fields and a
    UTC offset); its wall-clock value is kept as microseconds since
    1970-01-01T00:00:00 and has to stay within years 1..9999. *)

Module Time.

Inductive datetime : Type :=
  | Naive (wall : Z)
  | Aware (wall : Z) (utcoffset : Z).

Definition second : Z := 1000000.

Definition min_wall : Z := -62135596800 * second.       (* 0001-01-01T00:00:00 *)
Definition max_wall : Z := 253402300800 * second - 1.   (* 9999-12-31T23:59:59.999999 *)

Definition wall_of (d : datetime) : Z :=
  match d with Naive w => w | Aware w _ => w end.

Definition is_aware (d : datetime) : bool :=
  match d with Naive _ => false | Aware _ _ => true end.

(** What orders two datetimes of the same kind. *)
Definition instant (d : datetime) : Z :=
  match d with Naive w => w | Aware w off => w - off end.

(** [d + delta] *)
Definition add (d : datetime) (delta : Z) : outcome datetime :=
  let w := wall_of d + delta in
  if (min_wall <=? w) && (w <=? max_wall) then
    Ok (match d with Naive _ => Naive w | Aware _ off => Aware w off end)
  else Raise (PyError "OverflowError" "date value out of range").

(** [timedelta(seconds=v)] as microseconds; a timedelta holds at most
  999999999 days either way, and the days are first made a C int. *)
Definition timedelta_seconds (v : json) : outcome Z :=
  let of_seconds (n : Z) :=
    if (-999999999 <=? n / 86400) && (n / 86400 <=? 999999999) then Ok (n * second)
    else if (-2147483648 <=? n / 86400) && (n / 86400 <=? 2147483647) then
      Raise (PyError "OverflowError"
               ("days=" +++ dec (n / 86400) +++ "; must have magnitude <= 999999999"))
    else Raise (PyError "OverflowError" "Python int too large to convert to C int") in
  match v with
  | JInt n => of_seconds n
  | JBool b => of_seconds (if b then 1 else 0)
  | JFloat _ => Beyond "timedelta of float seconds"
  | _ => Raise (PyError "TypeError"
                  ("unsupported type for timedelta seconds component: " +++ type_name v))
  end.

(** [(a - b).seconds] for two datetimes of the same kind: the seconds field
  of the normalised difference, always within [0, 86400). *)
Definition seconds_between (a b : datetime) : Z :=
  ((instant a - instant b) / second) mod 86400.

End Time.
Import Time.

(** ** The HTTP session and the clock *)

Record Request : Type := {
    rq_method : string;
    rq_url : string;
    rq_headers : list (string * string);
    rq_data : list (string * json);     (* form fields, [data=] *)
    rq_json : option json               (* [json=] *)
  }.

Record Response : Type := {
    status : Z;
    content_length : option Z;
    text : outcome string;              (* [await response.text()] *)
    body_json : outcome json            (* [await response.json()] *)
  }.

Inductive Reply : Type :=
  | Answer (r : Response)
  | Fails (e : exn).                    (* the request itself raises *)

(** What the client did, newest first.  [Refreshing] is logged on entry to
    [refresh_access_token]. *)
Inductive Event : Type :=
  | Sent (r : Request)
  | Refreshing
  | Slept (seconds : Z).

Record World : Type := {
    server : list Event -> Request -> Reply * Z;  (* the reply and how long it took *)
    events : list Event;
    utc_now : Z;
    utc_offset : Z                                (* local wall clock = UTC + offset *)
  }.

(** The constants of [const.py]. *)
Record Const : Type := {
    TADO_AUTH_URL : string;
    TADO_CLIENT_ID : string;
    TADO_HOPS_API_URL : string;
    TADO_MY_API_URL : string;
    TADO_TOKEN_URL : string;
    DOMAIN : string;
    DEFAULT_SCAN_INTERVAL : Z;
    DEFAULT_OFFSET_HYSTERESIS : float
  }.

(** The mutable fields of a [TadoXApi] object. *)
Record TadoXApi : Type := {
    _access_token : json;
    _refresh_token : json;
    _token_expiry : option datetime;
    _home_id : json
  }.

Record St : Type := { api : TadoXApi; world : World }.

(** ** Stateful computations that can raise *)

Definition M (A : Type) : Type := St -> outcome A * St.

Definition ret {A} (a : A) : M A := fun s => (Ok a, s).
Definition raise {A} (e : exn) : M A := fun s => (Raise e, s).
Definition lift {A} (o : outcome A) : M A := fun s => (o, s).

Definition bind {A B} (m : M A) (k : A -> M B) : M B :=
  fun s =>
    match m s with
    | (Ok a, s') => k a s'
    | (Raise e, s') => (Raise e, s')
    | (Beyond w, s') => (Beyond w, s')
    end.

Notation "x <- m ;; k" := (bind m (fun x => k))
  (at level 61, m at next level, right associativity).
Notation "m ;;; k" := (bind m (fun _ => k))
  (at level 61, right associativity).

(** [try: m  except <those e with h e = Some _>: h e] *)
Definition try_except {A} (m : M A) (h : exn -> option (M A)) : M A :=
  fun s =>
    match m s with
    | (Raise e, s') => match h e with Some k => k s' | None => (Raise e, s') end
    | r => r
    end.

Definition is_client_error (e : exn) : bool :=
  match e with ClientError _ => true | _ => false end.

(** [except Exception]: every exception of the model derives from it. *)
Definition except_Exception {A} (k : exn -> M A) : exn -> option (M A) :=
  fun e => Some (k e).

Definition except_ClientError {A} (k : exn -> M A) : exn -> option (M A) :=
  fun e => if is_client_error e then Some (k e) else None.

Definition get_api : M TadoXApi := fun s => (Ok (api s), s).
Definition set_api (a : TadoXApi) : M unit :=
  fun s => (Ok tt, {| api := a; world := world s |}).

Definition log (ev : Event) (w : World) : World :=
  {| server := server w; events := ev :: events w;
     utc_now := utc_now w; utc_offset := utc_offset w |}.

Definition advance (us : Z) (w : World) : World :=
  {| server := server w; events := events w;
     utc_now := utc_now w + us; utc_offset := utc_offset w |}.

Definition note (ev : Event) : M unit :=
  fun s => (Ok tt, {| api := api s; world := log ev (world s) |}).

(** [session.request(...)] / [session.post(...)] *)
Definition send (r : Request) : M Response :=
  fun s =>
    let w := world s in
    let '(reply, took) := server w (events w) r in
    let s' := {| api := api s; world := advance took (log (Sent r) w) |} in
    match reply with
    | Answer resp => (Ok resp, s')
    | Fails e => (Raise e, s')
    end.

(** [asyncio.sleep(seconds)] *)
Definition sleep (seconds : Z) : M unit :=
  fun s => (Ok tt, {| api := api s;
                      world := advance (Z.max 0 seconds * second) (log (Slept seconds) (world s)) |}).

(** [datetime.now(timezone.utc)] and [datetime.now()] *)
Definition now_utc : M datetime :=
  fun s => (Ok (Aware (utc_now (world s)) 0), s).
Definition now_local : M datetime :=
  fun s => (Ok (Naive (utc_now (world s) + utc_offset (world s))), s).

Definition with_access_token (v : json) (a : TadoXApi) : TadoXApi :=
  {| _access_token := v; _refresh_token := _refresh_token a;
     _token_expiry := _token_expiry a; _home_id := _home_id a |}.
Definition with_refresh_token (v : json) (a : TadoXApi) : TadoXApi :=
  {| _access_token := _access_token a; _refresh_token := v;
     _token_expiry := _token_expiry a; _home_id := _home_id a |}.
Definition with_token_expiry (d : datetime) (a : TadoXApi) : TadoXApi :=
  {| _access_token := _access_token a; _refresh_token := _refresh_token a;
     _token_expiry := Some d; _home_id := _home_id a |}.
Definition with_home_id (v : json) (a : TadoXApi) : TadoXApi :=
  {| _access_token := _access_token a; _refresh_token := _refresh_token a;
     _token_expiry := _token_expiry a; _home_id := v |}.

(** [self.<field> = v] *)
Definition assign (upd : TadoXApi -> TadoXApi) : M unit :=
  a <- get_api ;; set_api (upd a).

(** ** Coroutines that run side by side

    [asyncio.gather] makes a task of each coroutine it is given, and the tasks
    share the client object.  A task runs until it has to wait for the
    session; the others run meanwhile, and the task goes on when its answer
    has arrived.  A coroutine that may be run so is a [Co]: a segment runs
    from the state the task is resumed in until the coroutine finishes or
    parks, to be woken at [wake]: the time its answer arrives and, to tell
    apart tasks that wake at the same time, how many events the log held
    when it parked. *)
Inductive Co (A : Type) : Type :=
  | Seg (run : St -> Step A)
with Step (A : Type) : Type :=
  | Finished (r : outcome A) (s : St)
  | Parked (wake : Z * nat) (k : Co A) (s : St).
Arguments Seg {A} run.
Arguments Finished {A} r s.
Arguments Parked {A} wake k s.

Definition resume {A} (c : Co A) : St -> Step A :=
  match c with Seg run => run end.

Definition at_time (t : Z) (s : St) : St :=
  {| api := api s;
     world := {| server := server (world s); events := events (world s);
                 utc_now := t; utc_offset := utc_offset (world s) |} |}.

(** [await c] where nothing else runs: each time [c] parks, the clock moves
    to the time it wakes and [c] goes on. *)
Fixpoint await {A} (c : Co A) (s : St) : outcome A * St :=
  match c with
  | Seg run =>
      match run s with
      | Finished r s' => (r, s')
      | Parked wake k s' => await k (at_time (fst wake) s')
      end
  end.

(** Code that awaits nothing runs in the segment it is in. *)
Definition atomic {A} (m : M A) : Co A :=
  Seg (fun s => let (r, s') := m s in Finished r s').

Fixpoint co_bind {A B} (c : Co A) (k : A -> Co B) : Co B :=
  match c with
  | Seg run =>
      Seg (fun s =>
        match run s with
        | Finished (Ok a) s' => resume (k a) s'
        | Finished (Raise e) s' => Finished (Raise e) s'
        | Finished (Beyond w) s' => Finished (Beyond w) s'
        | Parked wake c' s' => Parked wake (co_bind c' k) s'
        end)
  end.

Notation "x <~ c ;; k" := (co_bind c (fun x => k))
  (at level 61, c at next level, right associativity).

(** [try: c  except <those e with h e = Some _>: h e] *)
Fixpoint co_try {A} (c : Co A) (h : exn -> option (Co A)) : Co A :=
  match c with
  | Seg run =>
      Seg (fun s =>
        match run s with
        | Finished (Raise e) s' =>
            match h e with Some k => resume k s' | None => Finished (Raise e) s' end
        | Finished r s' => Finished r s'
        | Parked wake c' s' => Parked wake (co_try c' h) s'
        end)
  end.

Definition co_except_Exception {A} (k : exn -> Co A) : exn -> option (Co A) :=
  fun e => Some (k e).

Definition co_except_ClientError {A} (k : exn -> Co A) : exn -> option (Co A) :=
  fun e => if is_client_error e then Some (k e) else None.

(** [session.request(...)] / [session.post(...)] in a task: the request goes
    out and the task parks until the answer, which takes [took], is there;
    what the answer is was settled when the request went out.  The wait of
    [response.json()] and [response.text()] for the rest of the body is part
    of [took]. *)
Definition co_send (r : Request) : Co Response :=
  Seg (fun s =>
    let w := world s in
    let '(reply, took) := server w (events w) r in
    Parked (utc_now w + took, List.length (events w))
      (Seg (fun s' =>
         Finished (match reply with Answer resp => Ok resp | Fails e => Raise e end) s'))
      {| api := api s; world := log (Sent r) w |}).

Fixpoint co_map {A B} (f : outcome A -> outcome B) (c : Co A) : Co B :=
  match c with
  | Seg run =>
      Seg (fun s =>
        match run s with
        | Finished r s' => Finished (f r) s'
        | Parked wake k s' => Parked wake (co_map f k) s'
        end)
  end.

Definition push {A} (r : outcome A) (rs : outcome (list (outcome A)))
  : outcome (list (outcome A)) :=
  match rs with Ok l => Ok (r :: l) | other => other end.

(** Of two parked tasks the one whose answer arrives first wakes first; when
    the answers arrive at the same time, the one that parked first. *)
Definition sooner (a b : Z * nat) : bool :=
  (fst a <? fst b) || ((fst a =? fst b) && (snd a <=? snd b)%nat).

Definition soonest (a b : Z * nat) : Z * nat := if sooner a b then a else b.

(** Two parked tasks side by side, the second one being the gathered rest:
    the pair wakes when the first of them does, and that one is resumed
    while the other stays parked.  When one has finished the other goes on
    alone. *)
Fixpoint beside {A} (wake1 : Z * nat) (c1 : Co A) {struct c1}
  : Z * nat -> Co (list (outcome A)) -> Co (list (outcome A)) :=
  match c1 with
  | Seg run1 =>
      fix beside_rest (wake2 : Z * nat) (c2 : Co (list (outcome A))) {struct c2}
        : Co (list (outcome A)) :=
        match c2 with
        | Seg run2 =>
            Seg (fun s =>
              if sooner wake1 wake2 then
                match run1 s with
                | Finished r1 s' => Parked wake2 (co_map (push r1) c2) s'
                | Parked wake1' k1 s' =>
                    Parked (soonest wake1' wake2) (beside wake1' k1 wake2 c2) s'
                end
              else
                match run2 s with
                | Finished rs s' => Parked wake1 (co_map (fun r1 => push r1 rs) c1) s'
                | Parked wake2' k2 s' =>
                    Parked (soonest wake1 wake2') (beside_rest wake2' k2) s'
                end)
        end
  end.

(** [asyncio.gather] over the tasks, with [return_exceptions=True]: the
    tasks are started in the order listed, each running until it first
    parks, before any of them is resumed; from then on the task that wakes
    first goes first.  The result lists what each task returned or raised,
    in the order of the tasks; no task is cancelled. *)
Fixpoint gather {A} (tasks : list (Co A)) : Co (list (outcome A)) :=
  match tasks with
  | [] => Seg (fun s => Finished (Ok []) s)
  | t :: rest =>
      Seg (fun s =>
        match resume t s with
        | Finished r s1 => resume (co_map (push r) (gather rest)) s1
        | Parked wake k s1 =>
            match resume (gather rest) s1 with
            | Finished rs s2 => Parked wake (co_map (fun r => push r rs) k) s2
            | Parked wake' k' s2 => Parked (soonest wake wake') (beside wake k wake' k') s2
            end
        end)
  end.

(** ** api.py *)

Section Api.
Variable C : Const.

Definition form_headers : list (string * string) :=
  [("Content-Type", "application/x-www-form-urlencoded")].

Definition device_code_request (device_code : string) : Request :=
  {| rq_method := "POST"; rq_url := TADO_TOKEN_URL C; rq_headers := form_headers;
     rq_data := [("client_id", JStr (TADO_CLIENT_ID C));
                 ("device_code", JStr device_code);
                 ("grant_type", JStr "urn:ietf:params:oauth:grant-type:device_code")];
     rq_json := None |}.

Definition refresh_request (refresh_token : json) : Request :=
  {| rq_method := "POST"; rq_url := TADO_TOKEN_URL C; rq_headers := form_headers;
     rq_data := [("client_id", JStr (TADO_CLIENT_ID C));
                 ("grant_type", JStr "refresh_token");
                 ("refresh_token", refresh_token)];
     rq_json := None |}.

(** Lines 137-141: the token response is stored. *)
Definition issue_token (data : json) : M unit :=
  tok <- lift (py_item data "access_token") ;;
  assign (with_access_token tok) ;;;
  rt <- lift (py_get data "refresh_token") ;;
  assign (with_refresh_token rt) ;;;
  expires_in <- lift (py_get_or data "expires_in" (JInt 600)) ;;
  now <- now_local ;;
  delta <- lift (timedelta_seconds expires_in) ;;
  expiry <- lift (Time.add now delta) ;;
  assign (with_token_expiry expiry).

(** Lines 134-150: what one token response leads to; [Some b] is
  [return b], [None] goes round the [while] loop again. *)
Definition poll_response (interval : Z) (response : Response) : M (option bool) :=
  data <- lift (body_json response) ;;
  if status response =? 200 then
    issue_token data ;;; ret (Some true)
  else
    err <- lift (py_get data "error") ;;
    if eq_str err "authorization_pending" then
      sleep interval ;;; ret None
    else
      description <- lift (py_get_or data "error_description" err) ;;
      shown <- lift (py_str description) ;;
      raise (TadoXAuthError ("Token error: " +++ shown)).

(** Lines 124-154: one turn of the [while] loop. *)
Definition poll_once (device_code : string) (interval : Z) : M (option bool) :=
  try_except
    (response <- send (device_code_request device_code) ;;
     poll_response interval response)
    (except_ClientError (fun _ => sleep interval ;;; ret None)).

Fixpoint poll_loop (fuel : nat) (device_code : string) (interval timeout : Z)
         (start_time : datetime) : M bool :=
  match fuel with
  | O => lift (Beyond "poll_for_token: out of fuel")
  | S fuel' =>
      now <- now_local ;;
      if seconds_between now start_time <? timeout then
        r <- poll_once device_code interval ;;
        match r with
        | Some b => ret b
        | None => poll_loop fuel' device_code interval timeout start_time
        end
      else ret false
  end.

(** Lines 117-156; [fuel] bounds the turns of the loop. *)
Definition poll_for_token (fuel : nat) (device_code : string)
           (interval timeout : Z) : M bool :=
  start_time <- now_local ;;
  poll_loop fuel device_code interval timeout start_time.

(** Lines 173-184: the token response is checked and stored. *)
Definition store_tokens (response : Response) : M bool :=
  if negb (status response =? 200) then
    _ <- lift (text response) ;;
    raise (TadoXAuthError ("Failed to refresh token: " +++ dec (status response)))
  else
    data <- lift (body_json response) ;;
    tok <- lift (py_item data "access_token") ;;
    assign (with_access_token tok) ;;;
    held <- get_api ;;
    rt <- lift (py_get_or data "refresh_token" (_refresh_token held)) ;;
    assign (with_refresh_token rt) ;;;
    expires_in <- lift (py_get_or data "expires_in" (JInt 600)) ;;
    now <- now_utc ;;
    delta <- lift (timedelta_seconds expires_in) ;;
    expiry <- lift (Time.add now delta) ;;
    assign (with_token_expiry expiry) ;;;
    ret true.

(** Lines 158-187 *)
Definition refresh_access_token : M bool :=
  note Refreshing ;;;
  a <- get_api ;;
  if negb (truthy (_refresh_token a)) then
    raise (TadoXAuthError "No refresh token available")
  else
    try_except
      (response <- send (refresh_request (_refresh_token a)) ;;
       store_tokens response)
      (except_ClientError (fun err =>
         raise (TadoXAuthError ("Network error during token refresh: " +++ exn_str err)))).

(** Lines 189-206 *)
Definition ensure_valid_token : M unit :=
  a <- get_api ;;
  if negb (truthy (_access_token a)) then raise (TadoXAuthError "Not authenticated")
  else
    match _token_expiry a with
    | None => ret tt
    | Some expiry =>
        now <- now_utc ;;
        now <- (if is_aware expiry then ret now else now_local) ;;
        threshold <- lift (Time.add expiry (- (60 * second))) ;;
        if instant threshold <=? instant now then
          _ <- refresh_access_token ;; ret tt
        else ret tt
    end.

Definition api_request (method url : string) (token : json)
           (json_data : option json) : outcome Request :=
  let* bearer := py_str token in
  Ok {| rq_method := method; rq_url := url;
        rq_headers := [("Authorization", "Bearer " +++ bearer);
                       ("Content-Type", "application/json")];
        rq_data := []; rq_json := json_data |}.

Definition api_error (st : Z) (body : string) : exn :=
  TadoXApiError ("API error: " +++ dec st +++ " - " +++ body).

Definition zero_length (r : Response) : bool :=
  match content_length r with Some n => n =? 0 | None => false end.

(** Lines 246-252: what a response that is not a 401 gives. *)
Definition answer (response : Response) : M json :=
  if negb ((status response =? 200) || (status response =? 204)) then
    body <- lift (text response) ;;
    raise (api_error (status response) body)
  else if zero_length response || (status response =? 204) then ret JNull
  else lift (body_json response).

(** Lines 230-244: the branch taken on a 401. *)
Definition retry_after_refresh (method url : string) (json_data : option json)
  : M json :=
  _ <- refresh_access_token ;;
  a <- get_api ;;
  retry <- lift (api_request method url (_access_token a) json_data) ;;
  retry_response <- send retry ;;
  if negb (status retry_response =? 200) then
    body <- lift (text retry_response) ;;
    raise (api_error (status retry_response) body)
  else if zero_length retry_response then ret JNull
  else lift (body_json retry_response).

(** Lines 223-252: the body of the [try]. *)
Definition exchange (method url : string) (json_data : option json)
           (request : Request) : M json :=
  response <- send request ;;
  if status response =? 401 then retry_after_refresh method url json_data
  else answer response.

(** Lines 254-255 *)
Definition network_error : exn -> option (M json) :=
  except_ClientError (fun err => raise (TadoXApiError ("Network error: " +++ exn_str err))).

(** Lines 208-255 *)
Definition _request (method url : string) (json_data : option json) : M json :=
  ensure_valid_token ;;;
  a <- get_api ;;
  request <- lift (api_request method url (_access_token a) json_data) ;;
  try_except (exchange method url json_data request) network_error.

(** The guard every home-scoped operation starts with, and the URL it then
  formats. *)
Definition home_url (base rest : string) : M string :=
  a <- get_api ;;
  if negb (truthy (_home_id a)) then raise (TadoXApiError "Home ID not set")
  else
    home <- lift (py_str (_home_id a)) ;;
    ret (base +++ "/homes/" +++ home +++ rest).

Definition dict_or_empty (v : json) : json :=
  match v with JDict _ => v | _ => JDict [] end.
Definition list_or_empty (v : json) : json :=
  match v with JList _ => v | _ => JList [] end.

Definition get_home_state : M json :=
  url <- home_url (TADO_MY_API_URL C) "/state" ;;
  result <- _request "GET" url None ;;
  ret (dict_or_empty result).

Definition get_mobile_devices : M json :=
  url <- home_url (TADO_MY_API_URL C) "/mobileDevices" ;;
  result <- _request "GET" url None ;;
  ret (list_or_empty result).

Definition set_presence (presence : string) : M unit :=
  url <- home_url (TADO_MY_API_URL C) "/presence" ;;
  _ <- _request "PUT" url (Some (JDict [("presence", JStr presence)])) ;;
  ret tt.

Definition get_rooms : M json :=
  url <- home_url (TADO_HOPS_API_URL C) "/rooms" ;;
  result <- _request "GET" url None ;;
  ret (list_or_empty result).

Definition get_rooms_and_devices : M json :=
  url <- home_url (TADO_HOPS_API_URL C) "/roomsAndDevices" ;;
  result <- _request "GET" url None ;;
  ret (dict_or_empty result).

(** *** The same operations as tasks

    [refresh_access_token], [ensure_valid_token] and [_request] once more, as
    the coroutines a task of [asyncio.gather] runs: the code is the same and
    each use of the session is a place where the task parks. *)

(** Lines 158-187 *)
Definition refresh_access_token_co : Co bool :=
  _ <~ atomic (note Refreshing) ;;
  a <~ atomic get_api ;;
  if negb (truthy (_refresh_token a)) then
    atomic (raise (TadoXAuthError "No refresh token available"))
  else
    co_try
      (response <~ co_send (refresh_request (_refresh_token a)) ;;
       atomic (store_tokens response))
      (co_except_ClientError (fun err =>
         atomic (raise (TadoXAuthError
                          ("Network error during token refresh: " +++ exn_str err))))).

(** Lines 189-206 *)
Definition ensure_valid_token_co : Co unit :=
  a <~ atomic get_api ;;
  if negb (truthy (_access_token a)) then atomic (raise (TadoXAuthError "Not authenticated"))
  else
    match _token_expiry a with
    | None => atomic (ret tt)
    | Some expiry =>
        now <~ atomic now_utc ;;
        now <~ atomic (if is_aware expiry then ret now else now_local) ;;
        threshold <~ atomic (lift (Time.add expiry (- (60 * second)))) ;;
        if instant threshold <=? instant now then
          _ <~ refresh_access_token_co ;; atomic (ret tt)
        else atomic (ret tt)
    end.

(** Lines 230-244 *)
Definition retry_after_refresh_co (method url : string) (json_data : option json)
  : Co json :=
  _ <~ refresh_access_token_co ;;
  a <~ atomic get_api ;;
  retry <~ atomic (lift (api_request method url (_access_token a) json_data)) ;;
  retry_response <~ co_send retry ;;
  atomic (if negb (status retry_response =? 200) then
            body <- lift (text retry_response) ;;
            raise (api_error (status retry_response) body)
          else if zero_length retry_response then ret JNull
          else lift (body_json retry_response)).

(** Lines 223-252 *)
Definition exchange_co (method url : string) (json_data : option json)
           (request : Request) : Co json :=
  response <~ co_send request ;;
  if status response =? 401 then retry_after_refresh_co method url json_data
  else atomic (answer response).

(** Lines 208-255 *)
Definition _request_co (method url : string) (json_data : option json) : Co json :=
  _ <~ ensure_valid_token_co ;;
  a <~ atomic get_api ;;
  request <~ atomic (lift (api_request method url (_access_token a) json_data)) ;;
  co_try (exchange_co method url json_data request)
         (co_except_ClientError (fun err =>
            atomic (raise (TadoXApiError ("Network error: " +++ exn_str err))))).

(** Lines 449-453: the PATCH one offset write sends; [serial] is a key of the
  offsets dict, formatted into the URL. *)
Definition offset_write (serial : pykey) (offset : float) : Co json :=
  a <~ atomic get_api ;;
  home <~ atomic (lift (py_str (_home_id a))) ;;
  device <~ atomic (lift (py_str (json_of_key serial))) ;;
  _request_co "PATCH"
    (TADO_HOPS_API_URL C +++ "/homes/" +++ home +++ "/roomsAndDevices/devices/" +++ device)
    (Some (JDict [("temperatureOffset", JFloat offset)])).

(** Lines 446-457 *)
Definition set_single_offset (serial : pykey) (offset : float) : Co (pykey * string) :=
  co_try
    (_ <~ offset_write serial offset ;;
     atomic (ret (serial, "success")))
    (co_except_Exception (fun err => atomic (ret (serial, "error: " +++ exn_str err)))).

(** Line 460: one task per item of [offsets], in the dict's order. *)
Definition tasks (offsets : Dict.t float) : list (Co (pykey * string)) :=
  map (fun so => set_single_offset (fst so) (snd so)) offsets.

(** Lines 464-469: a result that is a tuple is entered, one that is an
  exception is logged. *)
Fixpoint collect (task_results : list (outcome (pykey * string)))
         (results : Dict.t string) : outcome (Dict.t string) :=
  match task_results with
  | [] => Ok results
  | Ok (serial, status) :: rest => collect rest (Dict.set serial status results)
  | Raise _ :: rest => collect rest results
  | Beyond w :: _ => Beyond w
  end.

(** Lines 425-471 *)
Definition set_multiple_device_temperature_offsets (offsets : Dict.t float)
  : M (Dict.t string) :=
  a <- get_api ;;
  if negb (truthy (_home_id a)) then raise (TadoXApiError "Home ID not set")
  else
    task_results <- await (gather (tasks offsets)) ;;
    lift (collect task_results []).

(** *** The operations the claims leave out *)

(** Lines 84-93.  The [timeout] the call passes bounds how long the session
  waits before it raises [TimeoutError]; when it does is the session's to
  say. *)
Definition device_auth_request : Request :=
  {| rq_method := "POST"; rq_url := TADO_AUTH_URL C;
     rq_headers := [("Content-Type", "application/x-www-form-urlencoded");
                    ("Connection", "close")];
     rq_data := [("client_id", JStr (TADO_CLIENT_ID C));
                 ("scope", JStr "offline_access")];
     rq_json := None |}.

(** [asyncio.TimeoutError], the built-in [TimeoutError]. *)
Definition is_timeout_error (e : exn) : bool :=
  match e with PyError cls _ => String.eqb cls "TimeoutError" | _ => false end.

(** [ssl.SSLError] and its subclasses. *)
Definition ssl_error_classes : list string :=
  ["SSLError"; "SSLZeroReturnError"; "SSLWantReadError"; "SSLWantWriteError";
   "SSLSyscallError"; "SSLEOFError"; "SSLCertVerificationError"].

Definition is_ssl_error (e : exn) : bool :=
  match e with PyError cls _ => existsb (String.eqb cls) ssl_error_classes | _ => false end.

(** Lines 104-115: the four handlers, in the order they are tried. *)
Definition device_auth_failed (err : exn) : M json :=
  if is_timeout_error err then raise (TadoXAuthError "Timeout during device auth request")
  else if is_client_error err then raise (TadoXAuthError ("Network error: " +++ exn_str err))
  else if is_ssl_error err then raise (TadoXAuthError ("SSL error: " +++ exn_str err))
  else raise (TadoXAuthError ("Unexpected error: " +++ exn_str err)).

(** Lines 73-115.  The [raise] of line 100 sits inside the [try], and so
  does the [result.get] the log line of line 102 evaluates. *)
Definition start_device_auth : M json :=
  try_except
    (response <- send device_auth_request ;;
     if negb (status response =? 200) then
       _ <- lift (text response) ;;
       raise (TadoXAuthError ("Failed to start device auth: " +++ dec (status response)))
     else
       result <- lift (body_json response) ;;
       _ <- lift (py_get result "user_code") ;;
       ret result)
    (except_Exception device_auth_failed).

(** Lines 258-261 *)
Definition get_me : M json :=
  result <- _request "GET" (TADO_MY_API_URL C +++ "/me") None ;;
  ret (dict_or_empty result).

(** Lines 263-266 *)
Definition get_homes : M json :=
  me <- get_me ;;
  lift (py_get_or me "homes" (JList [])).

(** [if not self._home_id: raise TadoXApiError("Home ID not set")] *)
Definition home_guard : M unit :=
  a <- get_api ;;
  if negb (truthy (_home_id a)) then raise (TadoXApiError "Home ID not set")
  else ret tt.

(** [f"{TADO_HOPS_API_URL}/homes/{self._home_id}/rooms/{room_id}<rest>"] *)
Definition room_url (room_id : json) (rest : string) : M string :=
  a <- get_api ;;
  home <- lift (py_str (_home_id a)) ;;
  room <- lift (py_str room_id) ;;
  ret (TADO_HOPS_API_URL C +++ "/homes/" +++ home +++ "/rooms/" +++ room +++ rest).

(** Lines 320-324: [{"type": termination_type}], with the duration added
  for a timer. *)
Definition termination (termination_type duration_seconds : json) : json :=
  JDict (("type", termination_type)
         :: (if eq_str termination_type "TIMER"
             then [("durationInSeconds", duration_seconds)] else [])).

(** Lines 303-330 *)
Definition set_room_temperature (room_id temperature power termination_type
                                 duration_seconds : json) : M unit :=
  home_guard ;;;
  let data :=
    JDict [("setting", JDict [("power", power);
                              ("temperature", JDict [("value", temperature)])]);
           ("termination", termination termination_type duration_seconds)] in
  url <- room_url room_id "/manualControl" ;;
  _ <- _request "POST" url (Some data) ;;
  ret tt.

(** Lines 332-360 *)
Definition set_room_off (room_id termination_type duration_seconds : json) : M unit :=
  home_guard ;;;
  let data :=
    JDict [("setting", JDict [("power", JStr "OFF")]);
           ("termination", termination termination_type duration_seconds)] in
  url <- room_url room_id "/manualControl" ;;
  _ <- _request "POST" url (Some data) ;;
  ret tt.

(** Lines 362-370 *)
Definition resume_schedule (room_id : json) : M unit :=
  home_guard ;;;
  url <- room_url room_id "/manualControl" ;;
  _ <- _request "DELETE" url None ;;
  ret tt.

(** Lines 372-386 *)
Definition set_boost_mode (room_id : json) : M unit :=
  home_guard ;;;
  url <- (if truthy room_id then room_url room_id "/boost"
          else home_url (TADO_HOPS_API_URL C) "/quickActions/boost") ;;
  _ <- _request "POST" url None ;;
  ret tt.

(** Lines 388-396 *)
Definition resume_all_schedules : M unit :=
  url <- home_url (TADO_HOPS_API_URL C) "/quickActions/resumeSchedule" ;;
  _ <- _request "POST" url None ;;
  ret tt.

(** Lines 398-412 *)
Definition set_open_window_detection (room_id enabled : json) : M unit :=
  home_guard ;;;
  url <- room_url room_id "/openWindow" ;;
  _ <- _request (if truthy enabled then "POST" else "DELETE") url None ;;
  ret tt.

(** Lines 414-423 *)
Definition set_device_temperature_offset (device_serial offset : json) : M unit :=
  home_guard ;;;
  a <- get_api ;;
  home <- lift (py_str (_home_id a)) ;;
  device <- lift (py_str device_serial) ;;
  _ <- _request "PATCH"
         (TADO_HOPS_API_URL C +++ "/homes/" +++ home +++ "/roomsAndDevices/devices/"
          +++ device)
         (Some (JDict [("temperatureOffset", offset)])) ;;
  ret tt.

End Api.

(** ** coordinator.py: the data model *)

Module TadoXDevice.
Record t : Type := mk {
  serial_number : json;
  device_type : json;
  firmware_version : json;
  connection_state : json;
  battery_state : json;
  temperature_measured : json;
  temperature_offset : json;
  mounting_state : json;
  child_lock_enabled : json;
  room_id : json;
  room_name : json
  }.
End TadoXDevice.

Module TadoXRoom.
Record t : Type := mk {
  room_id : json;
  name : json;
  current_temperature : json;
  target_temperature : json;
  humidity : json;
  heating_power : json;
  power : json;
  connection_state : json;
  manual_control_active : bool;
  manual_control_remaining_seconds : json;
  manual_control_type : json;
  boost_mode : bool;
  open_window_detected : bool;
  next_schedule_change : json;
  next_schedule_temperature : json;
  devices : list TadoXDevice.t
  }.

(** [room.devices.append(device)] *)
Definition append (d : TadoXDevice.t) (r : t) : t :=
  mk (room_id r) (name r) (current_temperature r) (target_temperature r) (humidity r)
     (heating_power r) (power r) (connection_state r) (manual_control_active r)
     (manual_control_remaining_seconds r) (manual_control_type r) (boost_mode r)
     (open_window_detected r) (next_schedule_change r) (next_schedule_temperature r)
     (devices r ++ [d]).
End TadoXRoom.

Module TadoXData.
Record t : Type := mk {
  home_id : json;
  home_name : json;
  presence : json;
  rooms : Dict.t TadoXRoom.t;
  devices : Dict.t TadoXDevice.t;
  other_devices : list TadoXDevice.t
  }.

Definition with_rooms (rs : Dict.t TadoXRoom.t) (d : t) : t :=
  mk (home_id d) (home_name d) (presence d) rs (devices d) (other_devices d).
Definition with_devices (ds : Dict.t TadoXDevice.t) (d : t) : t :=
  mk (home_id d) (home_name d) (presence d) (rooms d) ds (other_devices d).
Definition with_other_devices (os : list TadoXDevice.t) (d : t) : t :=
  mk (home_id d) (home_name d) (presence d) (rooms d) (devices d) os.
End TadoXData.

(** ** coordinator.py: normalising the payloads (lines 186-324) *)

Definition empty_dict : json := JDict [].

(** Lines 189-192 *)
Definition map_room_devices (room_info : json) (room_devices_map : Dict.t json)
  : outcome (Dict.t json) :=
  let* room_id := py_get room_info "roomId" in
  if truthy room_id then
    let* listed := py_get_or room_info "devices" (JList []) in
    let* k := key_of room_id in
    Ok (Dict.set k listed room_devices_map)
  else Ok room_devices_map.

(** Lines 201-255: the room built from one room-state payload. *)
Definition build_room (room_data room_id : json) : outcome TadoXRoom.t :=
  let* sensor_points := py_get room_data "sensorDataPoints" in
  let sensor_data := py_or sensor_points empty_dict in
  let* inside := py_get sensor_data "insideTemperature" in
  let inside_temp := py_or inside empty_dict in
  let* hum := py_get sensor_data "humidity" in
  let humidity_data := py_or hum empty_dict in
  let* raw_setting := py_get room_data "setting" in
  let setting := py_or raw_setting empty_dict in
  let* temperature := py_get setting "temperature" in
  let target_temp := py_or temperature empty_dict in
  let* manual_control := py_get room_data "manualControlTermination" in
  let manual_active := negb (is_none manual_control) in
  let* manual_remaining :=
    (if truthy manual_control then py_get manual_control "remainingTimeInSeconds"
     else Ok JNull) in
  let* manual_type :=
    (if truthy manual_control then py_get manual_control "type" else Ok JNull) in
  let* raw_next := py_get room_data "nextScheduleChange" in
  let next_change := py_or raw_next empty_dict in
  let* next_change_time := py_get next_change "start" in
  let* raw_next_setting := py_get next_change "setting" in
  let next_change_setting := py_or raw_next_setting empty_dict in
  let* raw_next_temp := py_get next_change_setting "temperature" in
  let next_change_temp_obj := py_or raw_next_temp empty_dict in
  let* next_change_temp := py_get next_change_temp_obj "value" in
  let* raw_heating := py_get room_data "heatingPower" in
  let heating_power_data := py_or raw_heating empty_dict in
  let* raw_connection := py_get room_data "connection" in
  let connection_data := py_or raw_connection empty_dict in
  let* shown_id := py_str room_id in
  let* name := py_get_or room_data "name" (JStr ("Room " +++ shown_id)) in
  let* current_temperature := py_get inside_temp "value" in
  let* target_temperature := py_get target_temp "value" in
  let* humidity := py_get humidity_data "percentage" in
  let* heating_power := py_get_or heating_power_data "percentage" (JInt 0) in
  let* power := py_get_or setting "power" (JStr "OFF") in
  let* connection_state := py_get_or connection_data "state" (JStr "DISCONNECTED") in
  let* boost := py_get room_data "boostMode" in
  let* open_window := py_get room_data "openWindow" in
  Ok (TadoXRoom.mk room_id name current_temperature target_temperature humidity
        heating_power power connection_state manual_active manual_remaining manual_type
        (negb (is_none boost)) (negb (is_none open_window))
        next_change_time next_change_temp []).

(** Lines 259-272 *)
Definition build_device (device_data room_id room_name : json) : outcome TadoXDevice.t :=
  let* connection := py_get device_data "connection" in
  let device_connection := py_or connection empty_dict in
  let* serial_number := py_get_or device_data "serialNumber" (JStr "") in
  let* device_type := py_get_or device_data "type" (JStr "") in
  let* firmware_version := py_get_or device_data "firmwareVersion" (JStr "") in
  let* connection_state := py_get_or device_connection "state" (JStr "DISCONNECTED") in
  let* battery_state := py_get device_data "batteryState" in
  let* temperature_measured := py_get device_data "temperatureAsMeasured" in
  let* temperature_offset := py_get_or device_data "temperatureOffset" (JFloat 0) in
  let* mounting_state := py_get device_data "mountingState" in
  let* child_lock_enabled := py_get_or device_data "childLockEnabled" (JBool false) in
  Ok (TadoXDevice.mk serial_number device_type firmware_version connection_state
        battery_state temperature_measured temperature_offset mounting_state
        child_lock_enabled room_id room_name).

(** [data.devices[device.serial_number] = device] *)
Definition index_device (device : TadoXDevice.t) (index : Dict.t TadoXDevice.t)
  : outcome (Dict.t TadoXDevice.t) :=
  let* k := key_of (TadoXDevice.serial_number device) in
  Ok (Dict.set k device index).

(** Lines 258-274: one turn of the loop over a room's devices; the state is
    the room under construction and the flat index. *)
Definition add_room_device (device_data : json)
           (acc : TadoXRoom.t * Dict.t TadoXDevice.t)
  : outcome (TadoXRoom.t * Dict.t TadoXDevice.t) :=
  let room := fst acc in
  let* device := build_device device_data (TadoXRoom.room_id room) (TadoXRoom.name room) in
  let* index := index_device device (snd acc) in
  Ok (TadoXRoom.append device room, index).

(** Lines 195-276: one turn of the loop over the room states. *)
Definition process_room (room_devices_map : Dict.t json) (room_data : json)
           (data : TadoXData.t) : outcome TadoXData.t :=
  let* room_id := py_get room_data "id" in
  if negb (truthy room_id) then Ok data
  else
    let* room := build_room room_data room_id in
    let* k := key_of room_id in
    let* listed :=
      py_iter (match Dict.get k room_devices_map with Some l => l | None => JList [] end) in
    let* filled := for_each listed add_room_device (room, TadoXData.devices data) in
    Ok (TadoXData.with_rooms (Dict.set k (fst filled) (TadoXData.rooms data))
          (TadoXData.with_devices (snd filled) data)).

(** Lines 280-286: the first room, in the dict's order, whose device count
    exceeds every count before it; [None] and 0 to start with. *)
Definition most_devices_step (best : json * Z) (entry : pykey * TadoXRoom.t) : json * Z :=
  let device_count := Z.of_nat (List.length (TadoXRoom.devices (snd entry))) in
  if snd best <? device_count then (json_of_key (fst entry), device_count) else best.

Definition most_devices (rooms : Dict.t TadoXRoom.t) : json * Z :=
  fold_left most_devices_step rooms (JNull, 0).

(** [v and v in data.rooms], giving the room when it holds. *)
Definition room_named (v : json) (rooms : Dict.t TadoXRoom.t)
  : outcome (option (pykey * TadoXRoom.t)) :=
  if truthy v then
    let* k := key_of v in
    Ok (match Dict.get k rooms with Some r => Some (k, r) | None => None end)
  else Ok None.

(** [data.rooms[v]] *)
Definition room_at (v : json) (rooms : Dict.t TadoXRoom.t) : outcome TadoXRoom.t :=
  let* k := key_of v in
  match Dict.get k rooms with
  | Some r => Ok r
  | None => Raise (PyError "KeyError" (match k with
                                        | KStr s => "'" +++ s +++ "'"
                                        | KInt n => dec n
                                        | KNone => "None"
                                        end))
  end.

(** Lines 289-308: the room id and room name an other-device ends up with. *)
Definition associate (room_with_most_devices raw_room_id device_type : json)
           (rooms : Dict.t TadoXRoom.t) : outcome (json * json) :=
  let* named := room_named raw_room_id rooms in
  match named with
  | Some (_, r) => Ok (raw_room_id, TadoXRoom.name r)
  | None =>
      if eq_str device_type "TR04" && truthy room_with_most_devices then
        let* r := room_at room_with_most_devices rooms in
        Ok (room_with_most_devices, TadoXRoom.name r)
      else Ok (raw_room_id, JNull)
  end.

(** Lines 288-324: one turn of the loop over the other devices. *)
Definition process_other_device (room_with_most_devices : json) (device_data : json)
           (data : TadoXData.t) : outcome TadoXData.t :=
  let* connection := py_get device_data "connection" in
  let other_device_connection := py_or connection empty_dict in
  let* raw_room_id := py_get device_data "roomId" in
  let* device_type := py_get_or device_data "type" (JStr "") in
  let* assoc_room := associate room_with_most_devices raw_room_id device_type
                       (TadoXData.rooms data) in
  let other_room_id := fst assoc_room in
  let* serial_number := py_get_or device_data "serialNumber" (JStr "") in
  let* firmware_version := py_get_or device_data "firmwareVersion" (JStr "") in
  let* connection_state := py_get_or other_device_connection "state" (JStr "DISCONNECTED") in
  let device :=
    TadoXDevice.mk serial_number device_type firmware_version connection_state
      JNull JNull (JFloat 0) JNull (JBool false) other_room_id (snd assoc_room) in
  let* home := room_named other_room_id (TadoXData.rooms data) in
  let rooms :=
    match home with
    | Some (k, r) => Dict.set k (TadoXRoom.append device r) (TadoXData.rooms data)
    | None => TadoXData.rooms data
    end in
  let* index := index_device device (TadoXData.devices data) in
  Ok (TadoXData.mk (TadoXData.home_id data) (TadoXData.home_name data)
        (TadoXData.presence data) rooms index
        (TadoXData.other_devices data ++ [device])).

(** Lines 179-276: the rooms, with the devices the topology lists for them. *)
Definition build_rooms (home_id home_name presence rooms_data rooms_devices_data : json)
  : outcome TadoXData.t :=
  let data := TadoXData.mk home_id home_name presence [] [] [] in
  let* rooms_info := py_get_or rooms_devices_data "rooms" (JList []) in
  let* room_infos := py_iter rooms_info in
  let* room_devices_map := for_each room_infos map_room_devices [] in
  let* room_states := py_iter rooms_data in
  for_each room_states (process_room room_devices_map) data.

(** [rooms_devices_data.get("otherDevices") or []] *)
Definition other_device_payloads (rooms_devices_data : json) : outcome (list json) :=
  let* raw_others := py_get rooms_devices_data "otherDevices" in
  py_iter (py_or raw_others (JList [])).

(** Lines 278-324: the other devices, once every room is built. *)
Definition attach_other_devices (rooms_devices_data : json) (data : TadoXData.t)
  : outcome TadoXData.t :=
  let room_with_most_devices := fst (most_devices (TadoXData.rooms data)) in
  let* others := other_device_payloads rooms_devices_data in
  for_each others (process_other_device room_with_most_devices) data.

(** Lines 179-324: from the two payloads to the snapshot. *)
Definition normalize (home_id home_name presence rooms_data rooms_devices_data : json)
  : outcome TadoXData.t :=
  let* data := build_rooms home_id home_name presence rooms_data rooms_devices_data in
  attach_other_devices rooms_devices_data data.

(** ** coordinator.py: the coordinator *)

(** What the coordinator reads from Home Assistant: the entity registry, the
    device registry and the state machine. *)
Record RegistryEntry : Type := { device_id : option string }.
Record DeviceEntry : Type := { identifiers : list (list string); id : string }.
Record Hass : Type := {
    entity_registry : string -> option RegistryEntry;
    device_registry : string -> option DeviceEntry;
    states : string -> option string      (* the [state] of the State object *)
  }.

(** The attributes [TadoXDataUpdateCoordinator.__init__] assigns (lines
    93-103); [api] is the client threaded through [St]. *)
Record Coordinator : Type := {
    home_id : json;
    home_name : json;
    geofencing_enabled : bool;
    min_temp : json;
    max_temp : json;
    auto_offset_sync : bool;
    room_configs : list (list (string * string));
    offset_hysteresis : float;
    _pending_offset_updates : Dict.t float
  }.

(** [bool(self.<name>)] for each attribute of the instance. *)
Definition attributes (c : Coordinator) : list (string * bool) :=
  [("api", true);
   ("home_id", truthy (home_id c));
   ("home_name", truthy (home_name c));
   ("geofencing_enabled", geofencing_enabled c);
   ("min_temp", truthy (min_temp c));
   ("max_temp", truthy (max_temp c));
   ("auto_offset_sync", auto_offset_sync c);
   ("room_configs", match room_configs c with [] => false | _ => true end);
   ("offset_hysteresis", truthy (JFloat (offset_hysteresis c)));
   ("_pending_offset_updates",
    match _pending_offset_updates c with [] => false | _ => true end)].

(** [bool(self.<name>)]; a name the instance does not have raises. *)
Definition attribute_truth (c : Coordinator) (name : string) : outcome bool :=
  match assoc name (attributes c) with
  | Some b => Ok b
  | None =>
      Raise (PyError "AttributeError"
        ("'TadoXDataUpdateCoordinator' object has no attribute '" +++ name +++ "'"))
  end.

Definition falsy_str (o : option string) : bool :=
  match o with None => true | Some s => String.eqb s "" end.

Section Coordinator.
Variable C : Const.
(** The built-in [float] on a [str]: [None] when it raises [ValueError]. *)
Variable float_of_str : string -> option float.
Variable hass : Hass.

(** [__init__] (lines 93-103); [self.api.home_id = home_id] is the one
  effect outside the new object. *)
Definition init (home_id home_name : json) (geofencing_enabled : bool)
           (min_temp max_temp : json) (auto_offset_sync : bool)
           (room_configs : list (list (string * string)))
           (offset_hysteresis : float) : M Coordinator :=
  assign (with_home_id home_id) ;;;
  ret {| home_id := home_id; home_name := home_name;
         geofencing_enabled := geofencing_enabled;
         min_temp := min_temp; max_temp := max_temp;
         auto_offset_sync := auto_offset_sync; room_configs := room_configs;
         offset_hysteresis := offset_hysteresis; _pending_offset_updates := [] |}.

(** Lines 376-381 *)
Fixpoint find_serial (ids : list (list string)) : outcome (option string) :=
  match ids with
  | [] => Ok None
  | identifier :: rest =>
      match identifier with
      | [] => Raise (PyError "IndexError" "tuple index out of range")
      | first :: others =>
          if String.eqb first (DOMAIN C) then
            match others with
            | second :: _ => Ok (Some second)
            | [] => find_serial rest
            end
          else find_serial rest
      end
  end.

(** Lines 415-419 *)
Definition desired_offset (room_temp : float) (valve_temp : json) : outcome float :=
  let* difference := PyFloat.sub room_temp valve_temp in
  let calculated_offset := PyFloat.round1 difference in
  Ok (PyFloat.max2 (-3) (PyFloat.min2 3 calculated_offset)).

(** Lines 421-424 *)
Definition queue_if_needed (hysteresis : float) (device_serial : string)
           (new_offset : float) (current_offset : json)
           (offsets_to_update : Dict.t float) : outcome (Dict.t float) :=
  let* difference := PyFloat.sub new_offset current_offset in
  let offset_delta := PrimFloat.abs difference in
  if (hysteresis <? offset_delta)%float then
    Ok (Dict.set (KStr device_serial) new_offset offsets_to_update)
  else Ok offsets_to_update.

(** Lines 353-435: one turn of the loop over the room configs; every
  [continue] hands the queue on unchanged. *)
Definition sync_mapping (hysteresis : float) (data : TadoXData.t)
           (room_config : list (string * string))
           (offsets_to_update : Dict.t float) : outcome (Dict.t float) :=
  let skip := Ok offsets_to_update in
  let offset_entity_id := assoc "offset_entity" room_config in
  let temp_sensor_entity_id := assoc "temperature_sensor" room_config in
  match offset_entity_id, temp_sensor_entity_id with
  | Some offset_entity_id, Some temp_sensor_entity_id =>
    if String.eqb offset_entity_id "" || String.eqb temp_sensor_entity_id "" then skip
    else
    match entity_registry hass offset_entity_id with
    | None => skip
    | Some offset_entity =>
      if falsy_str (device_id offset_entity) then skip
      else
      match device_registry hass (match device_id offset_entity with
                                  | Some d => d | None => "" end) with
      | None => skip
      | Some device =>
        let* device_serial := find_serial (identifiers device) in
        match device_serial with
        | None => skip
        | Some device_serial =>
          if String.eqb device_serial "" then skip
          else
          match Dict.get (KStr device_serial) (TadoXData.devices data) with
          | None => skip
          | Some device_data =>
            let valve_temp := TadoXDevice.temperature_measured device_data in
            if is_none valve_temp then skip
            else
            let current_offset := TadoXDevice.temperature_offset device_data in
            match states hass temp_sensor_entity_id with
            | None => skip
            | Some state =>
              if String.eqb state "unknown" || String.eqb state "unavailable" then skip
              else
              match float_of_str state with
              | None => skip
              | Some room_temp =>
                let* new_offset := desired_offset room_temp valve_temp in
                queue_if_needed hysteresis device_serial new_offset current_offset
                  offsets_to_update
              end
            end
          end
        end
      end
    end
  | _, _ => skip
  end.

(** Lines 340-457 *)
Definition _auto_sync_temperature_offsets (self : Coordinator) (data : TadoXData.t)
  : M unit :=
  offsets_to_update <-
    lift (for_each (room_configs self) (sync_mapping (offset_hysteresis self) data) []) ;;
  match offsets_to_update with
  | [] => ret tt
  | _ =>
      try_except
        (_ <- set_multiple_device_temperature_offsets C offsets_to_update ;; ret tt)
        (except_Exception (fun _ => ret tt))
  end.

(** Lines 142-146: one turn of the loop over the mobile devices. *)
Definition note_device_home (device : json) (devices_home : list json)
  : outcome (list json) :=
  let* settings := py_get_or device "settings" empty_dict in
  let* geo_enabled := py_get_or settings "geoTrackingEnabled" (JBool false) in
  let* location := py_get device "location" in
  if truthy geo_enabled && truthy location then
    let* at_home := py_get location "atHome" in
    if truthy at_home then
      let* name := py_get device "name" in Ok (devices_home ++ [name])%list
    else Ok devices_home
  else Ok devices_home.

(** Lines 137-157, once [home_state] is known. *)
Definition geofencing_body (home_state : json) : M json :=
  presence <- lift (py_get home_state "presence") ;;
  mobile_devices <- get_mobile_devices C ;;
  devices <- lift (py_iter mobile_devices) ;;
  devices_home <- lift (for_each devices note_device_home []) ;;
  (match devices_home with
   | _ :: _ => if eq_str presence "AWAY" then set_presence C "HOME" else ret tt
   | [] => if eq_str presence "HOME" then set_presence C "AWAY" else ret tt
   end) ;;;
  ret presence.

(** Line 160 *)
Definition presence_or_none (home_state : json) : M json :=
  if truthy home_state then lift (py_get home_state "presence") else ret JNull.

(** Lines 128-160.  The handler reads [home_state] as the [try] body left
  it: still [None] when fetching it raised. *)
Definition async_geofencing_check (home_state : json) : M json :=
  if is_none home_state then
    fetched <- try_except (hs <- get_home_state C ;; ret (Some hs))
                          (except_Exception (fun _ => ret None)) ;;
    match fetched with
    | None => ret JNull
    | Some hs =>
        try_except (geofencing_body hs) (except_Exception (fun _ => presence_or_none hs))
    end
  else
    try_except (geofencing_body home_state)
               (except_Exception (fun _ => presence_or_none home_state)).

(** Lines 332-338 *)
Definition update_failed {A} (err : exn) : M A :=
  raise (UpdateFailed
    ((match err with
      | TadoXAuthError _ => "Authentication error: "
      | TadoXApiError _ => "API error: "
      | _ => "Unexpected error: "
      end) +++ exn_str err)).

(** Lines 164-330: the body of the [try]. *)
Definition update_cycle (self : Coordinator) : M TadoXData.t :=
  home_state <- get_home_state C ;;
  presence <- lift (py_get home_state "presence") ;;
  (if geofencing_enabled self
   then _ <- async_geofencing_check home_state ;; ret tt
   else ret tt) ;;;
  rooms_data <- get_rooms C ;;
  rooms_devices_data <- get_rooms_and_devices C ;;
  data <- lift (normalize (home_id self) (home_name self) presence
                  rooms_data rooms_devices_data) ;;
  sync <- (if auto_offset_sync self
           then lift (attribute_truth self "offset_mappings")
           else ret false) ;;
  (if sync then _auto_sync_temperature_offsets self data else ret tt) ;;;
  ret data.

(** Lines 162-338 *)
Definition _async_update_data (self : Coordinator) : M TadoXData.t :=
  try_except (update_cycle self) (except_Exception update_failed).

End Coordinator.


(** ** switch.py *)

(** The names an instance of [TadoXApi] answers to, beside those every
    object has: the fields [__init__] assigns (api.py lines 42-46), the
    properties (lines 48-71) and the methods (lines 73-471). *)
Definition TadoXApi_names : list string :=
  ["_session"; "_access_token"; "_refresh_token"; "_token_expiry"; "_home_id";
   "access_token"; "refresh_token"; "token_expiry"; "home_id";
   "start_device_auth"; "poll_for_token"; "refresh_access_token"; "ensure_valid_token";
   "_request"; "get_me"; "get_homes"; "get_home_state"; "get_mobile_devices";
   "set_presence"; "get_rooms"; "get_rooms_and_devices"; "set_room_temperature";
   "set_room_off"; "resume_schedule"; "set_boost_mode"; "resume_all_schedules";
   "set_open_window_detection"; "set_device_temperature_offset";
   "set_multiple_device_temperature_offsets"].

(** [self.coordinator.api.<name>]: looking up a name the client does not
    have raises. *)
Definition api_attribute (name : string) : M unit :=
  if existsb (String.eqb name) TadoXApi_names then ret tt
  else raise (PyError "AttributeError"
                ("'TadoXApi' object has no attribute '" +++ name +++ "'")).

Section Switch.
(** What calling the method [name] of the client with [args] does, and
    [coordinator.async_request_refresh], which the base class provides. *)
Variable call : string -> list json -> M unit.
Variable async_request_refresh : M unit.

(** [await self.coordinator.api.<name>(...)]: the method is looked up,
    then called. *)
Definition api_call (name : string) (args : list json) : M unit :=
  api_attribute name ;;; call name args.

(** [TadoXBoostModeSwitch.async_turn_on] and [async_turn_off] (lines 84-92) *)
Definition boost_async_turn_on (room_id : json) : M unit :=
  api_call "set_room_boost" [room_id; JBool true] ;;; async_request_refresh.

Definition boost_async_turn_off (room_id : json) : M unit :=
  api_call "set_room_boost" [room_id; JBool false] ;;; async_request_refresh.

(** [TadoXChildLockSwitch.async_turn_on] and [async_turn_off] (lines 177-185) *)
Definition child_lock_async_turn_on (serial_number : json) : M unit :=
  api_call "set_device_child_lock" [serial_number; JBool true] ;;; async_request_refresh.

Definition child_lock_async_turn_off (serial_number : json) : M unit :=
  api_call "set_device_child_lock" [serial_number; JBool false] ;;; async_request_refresh.

End Switch.

(** [TadoXBoostModeSwitch._room] (lines 59-62) *)
Definition boost_room (data : TadoXData.t) (room_id : json) : outcome (option TadoXRoom.t) :=
  let* k := key_of room_id in Ok (Dict.get k (TadoXData.rooms data)).

(** [TadoXBoostModeSwitch.is_on] (lines 78-82); an instance of the dataclass
    is truthy. *)
Definition boost_is_on (data : TadoXData.t) (room_id : json) : outcome bool :=
  let* room := boost_room data room_id in
  Ok (match room with Some r => TadoXRoom.boost_mode r | None => false end).

(** [TadoXChildLockSwitch._device] (lines 118-121) *)
Definition child_lock_device (data : TadoXData.t) (serial_number : json)
  : outcome (option TadoXDevice.t) :=
  let* k := key_of serial_number in Ok (Dict.get k (TadoXData.devices data)).

(** [TadoXChildLockSwitch.is_on] (lines 165-169) *)
Definition child_lock_is_on (data : TadoXData.t) (serial_number : json) : outcome json :=
  let* device := child_lock_device data serial_number in
  Ok (match device with Some d => TadoXDevice.child_lock_enabled d | None => JBool false end).

(** [TadoXChildLockSwitch.available] (lines 171-175) *)
Definition child_lock_available (data : TadoXData.t) (serial_number : json) : outcome bool :=
  let* device := child_lock_device data serial_number in
  Ok (match device with
      | Some d => eq_str (TadoXDevice.connection_state d) "CONNECTED"
      | None => false
      end).

(** The entities [async_setup_entry] adds (lines 28-39). *)
Inductive SwitchEntity : Type :=
  | TadoXBoostModeSwitch (room_id : json)
  | TadoXChildLockSwitch (serial_number : json).

(** [device.device_type in ("VA04", "TR04")] *)
Definition has_child_lock (device : TadoXDevice.t) : bool :=
  eq_str (TadoXDevice.device_type device) "VA04"
  || eq_str (TadoXDevice.device_type device) "TR04".

Definition switch_entities (data : TadoXData.t) : list SwitchEntity :=
  map (fun entry => TadoXBoostModeSwitch (json_of_key (fst entry))) (TadoXData.rooms data)
  ++ map (fun d => TadoXChildLockSwitch (TadoXDevice.serial_number d))
       (filter has_child_lock (map snd (TadoXData.devices data))).
(** * Vocabulary of the properties *)

(** A computation that leaves an aspect [f] of the world (the whole of it, or
    only its server) as it found it, however it ends. *)
Definition keeps {X A} (f : World -> X) (m : M A) : Prop :=
  forall s, f (world (snd (m s))) = f (world s).

Definition whole (w : World) : World := w.

(** The state right after [request] was sent and answered in [took]. *)
Definition sent (request : Request) (took : Z) (s : St) : St :=
  {| api := api s; world := advance took (log (Sent request) (world s)) |}.

(** The lifetime, in seconds, a token response declares. *)
Definition lifetime (kv : list (string * json)) : option Z :=
  match assoc "expires_in" kv with
  | None => Some 600
  | Some (JInt n) => Some n
  | Some (JBool b) => Some (if b then 1 else 0)
  | Some _ => None
  end.

(** What a successful [poll_for_token] started in [s0] has left in [s']: the
    last request logged is a token request that the server answered 200 with
    a JSON object [kv]; the stored refresh token is the [refresh_token] field
    of [kv], [None] when it has none; the stored expiry is naive, the local
    wall clock plus the lifetime [kv] declares. *)
Definition issued (C : Const) (device_code : string) (s0 s' : St) : Prop :=
  exists response took kv ttl before,
    events (world s') = Sent (device_code_request C device_code) :: before /\
    server (world s0) before (device_code_request C device_code) = (Answer response, took) /\
    status response = 200 /\
    body_json response = Ok (JDict kv) /\
    lifetime kv = Some ttl /\
    _refresh_token (api s')
    = match assoc "refresh_token" kv with Some v => v | None => JNull end /\
    _token_expiry (api s')
    = Some (Naive (utc_now (world s') + utc_offset (world s') + ttl * second)).

(** How many requests to [url] the log holds. *)
Fixpoint requests_to (url : string) (log : list Event) : nat :=
  match log with
  | [] => O
  | Sent r :: rest =>
      if String.eqb (rq_url r) url then S (requests_to url rest) else requests_to url rest
  | _ :: rest => requests_to url rest
  end.

(** How many times [refresh_access_token] was entered. *)
Fixpoint refreshes (log : list Event) : nat :=
  match log with
  | [] => O
  | Refreshing :: rest => S (refreshes rest)
  | _ :: rest => refreshes rest
  end.

(** [v.get(k, default)] read off a payload: the default when [v] is not an
    object or has no such key. *)
Definition field_or (v : json) (k : string) (default : json) : json :=
  match v with
  | JDict kv => match assoc k kv with Some x => x | None => default end
  | _ => default
  end.

(** [v.get(k)]: [JNull] when the key is missing or null. *)
Definition field (v : json) (k : string) : json := field_or v k JNull.

Definition is_object (v : json) : bool :=
  match v with JDict _ => true | _ => false end.

(** An optional sub-object as the API sends it: missing, null (or otherwise
    falsy), or an object. *)
Definition optional_object (v : json) : bool := negb (truthy v) || is_object v.

(** A room-state payload: an object whose nested optional sub-objects are
    each missing, null or an object. *)
Definition room_state_shape (room_data : json) : bool :=
  let sensor := field room_data "sensorDataPoints" in
  let setting := field room_data "setting" in
  let next := field room_data "nextScheduleChange" in
  is_object room_data
  && optional_object sensor
  && optional_object (field sensor "insideTemperature")
  && optional_object (field sensor "humidity")
  && optional_object setting
  && optional_object (field setting "temperature")
  && optional_object (field room_data "manualControlTermination")
  && optional_object next
  && optional_object (field next "setting")
  && optional_object (field (field next "setting") "temperature")
  && optional_object (field room_data "heatingPower")
  && optional_object (field room_data "connection").

(** A configured mapping that resolves: its offset entity leads, through the
    two registries, to the device [serial] of the snapshot, which has the
    measurement [measured] and the offset [current]; its temperature sensor
    has a state that reads as the float [reference]. *)
Definition available (C : Const) (float_of_str : string -> option float) (hass : Hass)
           (data : TadoXData.t) (room_config : list (string * string))
           (serial : string) (reference measured current : float) : Prop :=
  exists offset_entity_id sensor_id entity registered device device_data state,
    assoc "offset_entity" room_config = Some offset_entity_id /\
    offset_entity_id <> "" /\
    assoc "temperature_sensor" room_config = Some sensor_id /\
    sensor_id <> "" /\
    entity_registry hass offset_entity_id = Some entity /\
    device_id entity = Some registered /\
    registered <> "" /\
    device_registry hass registered = Some device /\
    find_serial C (identifiers device) = Ok (Some serial) /\
    serial <> "" /\
    Dict.get (KStr serial) (TadoXData.devices data) = Some device_data /\
    PyFloat.operand (TadoXDevice.temperature_measured device_data) = Some (Ok measured) /\
    PyFloat.operand (TadoXDevice.temperature_offset device_data) = Some (Ok current) /\
    states hass sensor_id = Some state /\
    state <> "unknown" /\
    state <> "unavailable" /\
    float_of_str state = Some reference.

(** ** The batch of offset writes *)


(** What the batch reports for the entry [so] when the write of [so] ended
    with [r]: "success" when it returned, "error: " followed by what it
    raised when it raised. *)
Definition status_of (so : pykey * float) (r : outcome json) : outcome (pykey * string) :=
  match r with
  | Ok _ => Ok (fst so, "success")
  | Raise err => Ok (fst so, "error: " +++ exn_str err)
  | Beyond w => Beyond w
  end.




(** [c'] runs as [c] does: it parks where [c] parks, for as long, and leaves
    the client and the world as [c] leaves them; where [c] finishes with [r],
    [c'] finishes with some [r'] such that [R r r']. *)
Fixpoint runs_as {A B} (R : outcome A -> outcome B -> Prop) (c : Co A) (c' : Co B)
         {struct c} : Prop :=
  match c, c' with
  | Seg run, Seg run' =>
      forall s,
        match run s, run' s with
        | Finished r s1, Finished r' s1' => R r r' /\ s1 = s1'
        | Parked wake k s1, Parked wake' k' s1' =>
            wake = wake' /\ s1 = s1' /\ runs_as R k k'
        | _, _ => False
        end
  end.



(** ** Snapshots *)

Definition device_count (r : TadoXRoom.t) : Z :=
  Z.of_nat (List.length (TadoXRoom.devices r)).

(** The greatest device count among the rooms, 0 when there is no room. *)
Definition greatest_count (rooms : Dict.t TadoXRoom.t) : Z :=
  fold_right (fun entry m => Z.max (device_count (snd entry)) m) 0 rooms.

(** The room with the greatest device count, the first one in the dict's
    order among equals; no room qualifies when no room has a device. *)
Definition densest (rooms : Dict.t TadoXRoom.t) : option (pykey * TadoXRoom.t) :=
  if greatest_count rooms =? 0 then None
  else find (fun entry => device_count (snd entry) =? greatest_count rooms) rooms.

(** [d] is in the devices list of some room of the snapshot. *)
Definition reachable (data : TadoXData.t) (d : TadoXDevice.t) : Prop :=
  exists k r, Dict.get k (TadoXData.rooms data) = Some r /\ In d (TadoXRoom.devices r).

(** [d] is one of the devices the snapshot lists, under a room or among the
    other devices. *)
Definition in_snapshot (data : TadoXData.t) (d : TadoXDevice.t) : Prop :=
  reachable data d \/ In d (TadoXData.other_devices data).


(** [room] after [devs] have been appended to its devices, in order. *)
Definition extend (room : TadoXRoom.t) (devs : list TadoXDevice.t) : TadoXRoom.t :=
  fold_left (fun r d => TadoXRoom.append d r) devs room.

(** *** What normalisation maintains *)

(** Every entry of the flat index sits under the key of its own serial. *)
Definition keyed (data : TadoXData.t) : Prop :=
  forall k d,
    Dict.get k (TadoXData.devices data) = Some d ->
    key_of (TadoXDevice.serial_number d) = Ok k.

(** The serial of every reachable device is a key of the flat index. *)
Definition rooms_indexed (data : TadoXData.t) : Prop :=
  forall d,
    reachable data d ->
    exists k d',
      key_of (TadoXDevice.serial_number d) = Ok k /\
      Dict.get k (TadoXData.devices data) = Some d'.

(** An entry of the flat index whose room id names a room of the snapshot is
    in that room's devices list. *)
Definition index_listed (data : TadoXData.t) : Prop :=
  forall k d rk r,
    Dict.get k (TadoXData.devices data) = Some d ->
    key_of (TadoXDevice.room_id d) = Ok rk ->
    Dict.get rk (TadoXData.rooms data) = Some r ->
    In d (TadoXRoom.devices r).

(** Every entry of the flat index is one of the snapshot's devices. *)
Definition index_sourced (data : TadoXData.t) : Prop :=
  forall k d, Dict.get k (TadoXData.devices data) = Some d -> in_snapshot data d.

(** No room sits under a falsy key. *)
Definition truthy_keys (rooms : Dict.t TadoXRoom.t) : Prop :=
  forall k r, Dict.get k rooms = Some r -> truthy (json_of_key k) = true.

(** A device listed under a room carries that room's id. *)
Definition rooms_own (data : TadoXData.t) : Prop :=
  forall k r d,
    Dict.get k (TadoXData.rooms data) = Some r -> In d (TadoXRoom.devices r) ->
    key_of (TadoXDevice.room_id d) = Ok k.

Record consistent (data : TadoXData.t) : Prop := {
  cons_keyed : keyed data;
  cons_rooms_indexed : rooms_indexed data;
  cons_index_listed : index_listed data;
  cons_index_sourced : index_sourced data;
  cons_truthy_keys : truthy_keys (TadoXData.rooms data);
  cons_rooms_own : rooms_own data
}.

(** What the topology lists for the room under [k]. *)
Definition listed_for (room_devices_map : Dict.t json) (k : pykey) : outcome (list json) :=
  py_iter (match Dict.get k room_devices_map with Some l => l | None => JList [] end).

(** While the rooms are being built, every entry of the flat index was made
    from a payload the topology lists for the entry's own room. *)
Definition index_from_topology (room_devices_map : Dict.t json) (data : TadoXData.t)
  : Prop :=
  forall k d,
    Dict.get k (TadoXData.devices data) = Some d ->
    exists rk listed device_data,
      key_of (TadoXDevice.room_id d) = Ok rk /\
      listed_for room_devices_map rk = Ok listed /\
      In device_data listed /\
      TadoXDevice.serial_number d = field_or device_data "serialNumber" (JStr "").

(** What holds of the snapshot while the rooms are being built. *)
Definition room_phase (room_devices_map : Dict.t json) (data : TadoXData.t) : Prop :=
  consistent data /\
  index_from_topology room_devices_map data /\
  TadoXData.other_devices data = [].

(** [rooms] has the rooms of [built], each under its key and with its name;
    their devices lists may have grown. *)
Definition same_rooms (built rooms : Dict.t TadoXRoom.t) : Prop :=
  forall k,
    option_map TadoXRoom.name (Dict.get k rooms)
    = option_map TadoXRoom.name (Dict.get k built).

(** What holds of the snapshot while the other devices are attached to the
    rooms [built]. *)
Definition other_phase (built : Dict.t TadoXRoom.t) (data : TadoXData.t) : Prop :=
  consistent data /\ same_rooms built (TadoXData.rooms data).

(** How the normaliser associates an other-device whose payload has the room
    id [raw] and the type [device_type], given the rooms [built] before any
    other device was attached and the snapshot [data] the device is in.  It
    speaks only of a [raw] that names none of the rooms. *)
Definition associated (built : Dict.t TadoXRoom.t) (data : TadoXData.t)
           (device_data : json) (device : TadoXDevice.t) : Prop :=
  forall raw device_type,
    py_get device_data "roomId" = Ok raw ->
    py_get_or device_data "type" (JStr "") = Ok device_type ->
    room_named raw built = Ok None ->
    match (if eq_str device_type "TR04" then densest built else None) with
    | Some (k, r) =>
        TadoXDevice.room_id device = json_of_key k /\
        TadoXDevice.room_name device = TadoXRoom.name r /\
        exists r', Dict.get k (TadoXData.rooms data) = Some r' /\
                   In device (TadoXRoom.devices r')
    | None =>
        TadoXDevice.room_id device = raw /\
        TadoXDevice.room_name device = JNull /\
        ~ reachable data device
    end.

(** ** The client *)

(** [m], run in [s], raises [e] and leaves the client and the world as they
    were: nothing was sent, nothing was stored. *)
Definition refuses {A} (m : M A) (e : exn) (s : St) : Prop := m s = (Raise e, s).

Definition home_id_not_set : exn := TadoXApiError "Home ID not set".

Definition is_list (v : json) : bool :=
  match v with JList _ => true | _ => false end.

(** How many requests the log holds. *)
Fixpoint requests (log : list Event) : nat :=
  match log with
  | [] => O
  | Sent _ :: rest => S (requests rest)
  | _ :: rest => requests rest
  end.

(** Fewer than 60 seconds are left of a token that expires at [expiry], or
    exactly 60: an aware expiry is set against the UTC clock, a naive one
    against the local wall clock. *)
Definition due (w : World) (expiry : datetime) : bool :=
  match expiry with
  | Aware wall off => wall - off - 60 * second <=? utc_now w
  | Naive wall => wall - 60 * second <=? utc_now w + utc_offset w
  end.

(** [expiry - timedelta(seconds=60)] is a date Python can represent. *)
Definition threshold_in_range (expiry : datetime) : Prop :=
  min_wall <= wall_of expiry - 60 * second <= max_wall.

(** The clock [now] stands at least a minute past the first date Python can
    represent. *)
Definition clock_ahead (now : Z) : Prop := min_wall + 60 * second <= now.

(** However [m] ends, it has only added to the log, and what it added holds
    at most [r] entries into [refresh_access_token] and at most [q]
    requests. *)
Definition grows {A} (m : M A) (r q : nat) : Prop :=
  forall s,
    exists added,
      events (world (snd (m s))) = (added ++ events (world s))%list /\
      (refreshes added <= r)%nat /\ (requests added <= q)%nat.

(** A log of polls, newest first, in which every poll was followed by a
    sleep of [interval] seconds. *)
Inductive paced (interval : Z) (request : Request) : list Event -> Prop :=
  | paced_nil : paced interval request []
  | paced_turn log :
      paced interval request log ->
      paced interval request (Slept interval :: Sent request :: log).

(** ** Tasks and the log *)

(** [s'] holds in its log what [s] holds, and maybe more. *)
Definition extends (s s' : St) : Prop :=
  exists added, events (world s') = (added ++ events (world s))%list.

(** Every segment of [c] only adds to the log. *)
Fixpoint adds_on {A} (c : Co A) {struct c} : Prop :=
  match c with
  | Seg run =>
      forall s,
        match run s with
        | Finished _ s' => extends s s'
        | Parked _ k s' => extends s s' /\ adds_on k
        end
  end.

(** The same client at the same time; the logs may differ. *)
Definition same_moment (s s' : St) : Prop :=
  api s' = api s /\
  utc_now (world s') = utc_now (world s) /\
  utc_offset (world s') = utc_offset (world s).

(** What [n] tasks leave in the log when each of them enters
    [refresh_access_token] and sends the token request for the refresh token
    [held], none of the requests being answered yet. *)
Definition refreshes_started (C : Const) (held : json) (n : nat) : list Event :=
  List.concat (repeat [Sent (refresh_request C held); Refreshing] n).

(** The task has parked after adding [pair] to the log, the client and the
    clock being as they were; from there on it only adds to the log. *)
Definition parks_with {A} (pair : list Event) (s : St) (st : Step A) : Prop :=
  match st with
  | Finished _ _ => False
  | Parked _ k s' =>
      events (world s') = (pair ++ events (world s))%list /\ same_moment s s' /\ adds_on k
  end.

(** ** Snapshots: where rooms and devices come from *)

(** The key a payload is filed under: the value of its [name] entry, when
    that is truthy. *)
Definition payload_key (name : string) (payload : json) : option pykey :=
  match py_get payload name with
  | Ok v => if truthy v then match key_of v with Ok k => Some k | _ => None end else None
  | _ => None
  end.

(** [ks] with [k] added at the end, unless it is there already. *)
Definition add_key (k : pykey) (ks : list pykey) : list pykey :=
  if existsb (pykey_eqb k) ks then ks else ks ++ [k].

(** The keys of the room states, each once, in the order first seen. *)
Definition room_keys (states : list json) : list pykey :=
  fold_left (fun ks room_data =>
               match payload_key "id" room_data with
               | Some k => add_key k ks
               | None => ks
               end) states [].

(** The last of [payloads] filed under [k]. *)
Definition last_under (name : string) (k : pykey) (payloads : list json) : option json :=
  fold_left (fun found payload =>
               match payload_key name payload with
               | Some k' => if pykey_eqb k k' then Some payload else found
               | None => found
               end) payloads None.

(** What the topology lists for the room [k]: the [devices] of the last
    entry of its [rooms] filed under [k], nothing when there is none. *)
Definition listed_in (room_infos : list json) (k : pykey) : json :=
  match last_under "roomId" k room_infos with
  | Some room_info => field_or room_info "devices" (JList [])
  | None => JList []
  end.

(** The entries of the topology's [rooms]. *)
Definition topology_rooms (rooms_devices_data : json) : outcome (list json) :=
  let* rooms_info := py_get_or rooms_devices_data "rooms" (JList []) in
  py_iter rooms_info.

(** Every room sits under the key of its own id. *)
Definition rooms_keyed (rooms : Dict.t TadoXRoom.t) : Prop :=
  forall k r, Dict.get k rooms = Some r -> key_of (TadoXRoom.room_id r) = Ok k.

(** A device listed under a room carries that room's id and name. *)
Definition rooms_named (rooms : Dict.t TadoXRoom.t) : Prop :=
  forall k r d,
    Dict.get k rooms = Some r -> In d (TadoXRoom.devices r) ->
    TadoXDevice.room_id d = TadoXRoom.room_id r /\
    TadoXDevice.room_name d = TadoXRoom.name r.

(** The serial of every other device is a key of the flat index. *)
Definition others_indexed (data : TadoXData.t) : Prop :=
  forall d,
    In d (TadoXData.other_devices data) ->
    exists k d',
      key_of (TadoXDevice.serial_number d) = Ok k /\
      Dict.get k (TadoXData.devices data) = Some d'.

(** The room [r] was built from [room_data], filed under [k], and has had
    [devs] appended to its devices since. *)
Definition built_from (room_data : json) (k : pykey) (devs : list TadoXDevice.t)
           (r : TadoXRoom.t) : Prop :=
  exists fresh,
    build_room room_data (json_of_key k) = Ok fresh /\ r = extend fresh devs.

(** The devices [devs] were built, in order, from the payloads the topology
    lists for the room [r] under [k]. *)
Definition from_topology (room_infos : list json) (k : pykey) (r : TadoXRoom.t)
           (devs : list TadoXDevice.t) : Prop :=
  exists listed,
    py_iter (listed_in room_infos k) = Ok listed /\
    Forall2 (fun device_data d =>
               build_device device_data (TadoXRoom.room_id r) (TadoXRoom.name r) = Ok d)
            listed devs.

(** *** Well-formed payloads *)

(** A value the API uses as an id or a serial number: null, an integer or a
    string. *)
Definition id_shape (v : json) : bool :=
  match v with JNull | JInt _ | JStr _ => true | _ => false end.

(** A device payload of the topology. *)
Definition device_shape (device_data : json) : bool :=
  is_object device_data
  && optional_object (field device_data "connection")
  && id_shape (field_or device_data "serialNumber" (JStr "")).

(** An entry of the topology's [rooms]. *)
Definition room_info_shape (room_info : json) : bool :=
  is_object room_info
  && id_shape (field room_info "roomId")
  && match field_or room_info "devices" (JList []) with
     | JList devices => forallb device_shape devices
     | _ => false
     end.

(** An entry of the topology's [otherDevices]. *)
Definition other_device_shape (device_data : json) : bool :=
  device_shape device_data && id_shape (field device_data "roomId").

(** The two payloads of a poll, as the API sends them: a list of room
    states and an object with the rooms' devices and the other devices. *)
Definition well_formed (rooms_data rooms_devices_data : json) : bool :=
  match rooms_data with
  | JList states =>
      forallb (fun room_data =>
                 room_state_shape room_data && id_shape (field room_data "id")) states
  | _ => false
  end
  && is_object rooms_devices_data
  && match field_or rooms_devices_data "rooms" (JList []) with
     | JList room_infos => forallb room_info_shape room_infos
     | _ => false
     end
  && match py_or (field rooms_devices_data "otherDevices") (JList []) with
     | JList others => forallb other_device_shape others
     | _ => false
     end.

(** The device [d] carries the id of the room under [k]. *)
Definition names_room (k : pykey) (d : TadoXDevice.t) : bool :=
  match key_of (TadoXDevice.room_id d) with
  | Ok k' => pykey_eqb k' k
  | _ => false
  end.

(** Where the room [r] under [k] comes from, given the room states, the
    entries of the topology's [rooms] and the other devices attached so far:
    it was built from the last state filed under [k]; its devices are those
    the topology lists for [k], in order, followed by the other devices that
    carry its id, in order. *)
Definition room_origin (states room_infos : list json) (others : list TadoXDevice.t)
           (k : pykey) (r : TadoXRoom.t) : Prop :=
  exists room_data devs,
    last_under "id" k states = Some room_data /\
    built_from room_data k (devs ++ filter (names_room k) others) r /\
    from_topology room_infos k r devs.

(** What holds of the snapshot from the moment the rooms are built. *)
Record rooms_settled (states room_infos : list json) (data : TadoXData.t) : Prop := {
  settled_keys : map fst (TadoXData.rooms data) = room_keys states;
  settled_truthy : truthy_keys (TadoXData.rooms data);
  settled_origin :
    forall k r,
      Dict.get k (TadoXData.rooms data) = Some r ->
      room_origin states room_infos (TadoXData.other_devices data) k r;
  settled_named : rooms_named (TadoXData.rooms data)
}.

(** The room the thermostats fall back on is one of the rooms. *)
Definition fallback_known (room_with_most_devices : json) (data : TadoXData.t) : Prop :=
  truthy room_with_most_devices = true ->
  exists k r,
    key_of room_with_most_devices = Ok k /\ Dict.get k (TadoXData.rooms data) = Some r.


(** How the normaliser attaches an other-device whose payload names, by its
    [roomId], one of the rooms [built]: the device keeps that id, gets that
    room's name and is in that room's devices list in the snapshot [data]. *)
Definition attached (built : Dict.t TadoXRoom.t) (data : TadoXData.t)
           (device_data : json) (device : TadoXDevice.t) : Prop :=
  forall raw k r,
    py_get device_data "roomId" = Ok raw ->
    room_named raw built = Ok (Some (k, r)) ->
    TadoXDevice.room_id device = raw /\
    TadoXDevice.room_name device = TadoXRoom.name r /\
    exists r', Dict.get k (TadoXData.rooms data) = Some r' /\
               In device (TadoXRoom.devices r').

(** ** The poll cycle *)

(** A mobile device counts as at home when geo tracking is enabled in its
    settings, it reports a location, and that location is at home. *)
Definition at_home (device : json) : bool :=
  truthy (field_or (field_or device "settings" empty_dict) "geoTrackingEnabled" (JBool false))
  && truthy (field device "location")
  && truthy (field (field device "location") "atHome").

(** A mobile device payload: an object whose [settings], when present, is
    an object and whose [location] is missing, null or an object. *)
Definition mobile_device_shape (device : json) : bool :=
  is_object device
  && is_object (field_or device "settings" empty_dict)
  && optional_object (field device "location").

(** What the geofencing check asks for: HOME when a device is at home while
    the home is AWAY, AWAY when none is while the home is HOME, nothing
    otherwise. *)
Definition presence_switch (presence : json) (anyone_home : bool) : option string :=
  if anyone_home
  then (if eq_str presence "AWAY" then Some "HOME" else None)
  else (if eq_str presence "HOME" then Some "AWAY" else None).

(** How [_async_update_data] words the exception [err] raised inside it. *)
Definition wording (err : exn) : string :=
  match err with
  | TadoXAuthError message => "Authentication error: " +++ message
  | TadoXApiError message => "API error: " +++ message
  | other => "Unexpected error: " +++ exn_str other
  end.

(** [x] is not a number. *)
Definition is_nan (x : float) : bool :=
  match Prim2SF x with S754_nan => true | _ => false end.

(** [lo <= x <= hi], which no NaN satisfies. *)
Definition within (lo hi x : float) : bool := ((lo <=? x) && (x <=? hi))%float.

(** The home id, the home name and the presence a snapshot carries. *)
Definition header (data : TadoXData.t) : json * json * json :=
  (TadoXData.home_id data, TadoXData.home_name data, TadoXData.presence data).

(** * Concrete scenarios *)

Module Scenario.

Definition C0 : Const :=
  {| TADO_AUTH_URL := "https://login.example/device_authorize";
     TADO_CLIENT_ID := "client-id";
     TADO_HOPS_API_URL := "https://hops.example";
     TADO_MY_API_URL := "https://my.example";
     TADO_TOKEN_URL := "https://login.example/token";
     DOMAIN := "tado_x";
     DEFAULT_SCAN_INTERVAL := 30;
     DEFAULT_OFFSET_HYSTERESIS := 0.5 |}.

(** A 200 answer carrying a JSON document, received after one millisecond. *)
Definition json_reply (v : json) : Reply * Z :=
  (Answer {| status := 200; content_length := None; text := Ok ""; body_json := Ok v |},
   1000).

(** An answer with no JSON body. *)
Definition plain_reply (st : Z) (len : option Z) (body : string) : Reply * Z :=
  (Answer {| status := st; content_length := len; text := Ok body;
             body_json := Raise (ClientError "unexpected mimetype") |},
   1000).

Definition bearer (r : Request) : string :=
  match assoc "Authorization" (rq_headers r) with Some v => v | None => "" end.

Definition is_token_request (r : Request) : bool :=
  String.eqb (rq_url r) (TADO_TOKEN_URL C0).

Definition world_of (srv : list Event -> Request -> Reply * Z) : World :=
  {| server := srv; events := []; utc_now := 1700000000 * second;
     utc_offset := 3600 * second |}.

Definition client (access refresh : json) (srv : list Event -> Request -> Reply * Z) : St :=
  {| api := {| _access_token := access; _refresh_token := refresh;
               _token_expiry := None; _home_id := JInt 1 |};
     world := world_of srv |}.

(** The API rejects every request; no refresh token is held. *)
Definition always_401 (_ : list Event) (r : Request) : Reply * Z :=
  if is_token_request r then json_reply (JDict [("access_token", JStr "new")])
  else plain_reply 401 None "denied".

Definition without_refresh_token : St := client (JStr "old") JNull always_401.
Definition rejected_twice : St := client (JStr "old") (JStr "r1") always_401.

(** The API rejects the old token and answers 204, with no content, to the
  new one. *)
Definition no_content_once_refreshed (_ : list Event) (r : Request) : Reply * Z :=
  if is_token_request r then json_reply (JDict [("access_token", JStr "new")])
  else if String.eqb (bearer r) "Bearer new" then plain_reply 204 (Some 0) ""
  else plain_reply 401 None "denied".

Definition expired_session : St := client (JStr "old") (JStr "r1") no_content_once_refreshed.

(** The API answers 204 at once. *)
Definition no_content (_ : list Event) (_ : Request) : Reply * Z :=
  plain_reply 204 (Some 0) "".

(** The token endpoint issues an access token for an hour and no new
  refresh token. *)
Definition hourly_token (_ : list Event) (_ : Request) : Reply * Z :=
  json_reply (JDict [("access_token", JStr "new"); ("expires_in", JInt 3600)]).

(** The token endpoint reports the authorization as pending until the
  client has slept once, then issues an access token and nothing else. *)
Definition has_slept (log : list Event) : bool :=
  existsb (fun ev => match ev with Slept _ => true | _ => false end) log.

Definition pending_then_issued (log : list Event) (_ : Request) : Reply * Z :=
  if has_slept log then json_reply (JDict [("access_token", JStr "fresh")])
  else (Answer {| status := 400; content_length := None; text := Ok "";
                  body_json := Ok (JDict [("error", JStr "authorization_pending")]) |},
        1000).

(** A room-state payload with no [sensorDataPoints] at all. *)
Definition room_without_sensors : json :=
  JDict [("id", JInt 7); ("name", JStr "Living room");
         ("setting", JDict [("power", JStr "ON");
                            ("temperature", JDict [("value", JFloat 21)])])].

(** One mapping: the offset entity of valve VA0001, paired with a room
  sensor whose state is [reading]. *)
Definition living_mapping : list (string * string) :=
  [("offset_entity", "number.living_offset");
   ("temperature_sensor", "sensor.living_temperature")].

Definition sync_hass (reading : string) : Hass :=
  {| entity_registry := fun e =>
       if String.eqb e "number.living_offset" then Some {| device_id := Some "device-1" |}
       else None;
     device_registry := fun d =>
       if String.eqb d "device-1"
       then Some {| identifiers := [["tado_x"; "VA0001"]]; id := "device-1" |}
       else None;
     states := fun e =>
       if String.eqb e "sensor.living_temperature" then Some reading else None |}.

(** [float] on the readings the scenarios use. *)
Definition read_float (s : string) : option float :=
  if String.eqb s "30.0" then Some 30%float
  else if String.eqb s "21.3" then Some 21.3%float
  else None.

Definition valve (measured current : float) : TadoXDevice.t :=
  TadoXDevice.mk (JStr "VA0001") (JStr "VA04") (JStr "1.0") (JStr "CONNECTED")
    (JStr "NORMAL") (JFloat measured) (JFloat current) JNull (JBool false)
    (JInt 7) (JStr "Living room").

Definition snapshot_with (device : TadoXDevice.t) : TadoXData.t :=
  TadoXData.mk (JInt 1) (JStr "Home") JNull [] [(KStr "VA0001", device)] [].

(** A home with two rooms: the hall (room 3) lists one valve and the living
    room (room 7) lists three.  Beside them a wall thermostat that reports no
    room and a bridge that reports room 99, which the home does not have. *)
Definition valve_payload (serial : string) : json :=
  JDict [("serialNumber", JStr serial); ("type", JStr "VA04");
         ("temperatureAsMeasured", JFloat 20); ("temperatureOffset", JFloat 0)].

Definition home_state_payload : json := JDict [("presence", JStr "HOME")].

Definition room_states_payload : json :=
  JList [JDict [("id", JInt 3); ("name", JStr "Hall")];
         JDict [("id", JInt 7); ("name", JStr "Living room")]].

Definition thermostat_payload : json :=
  JDict [("serialNumber", JStr "TR0001"); ("type", JStr "TR04")].

Definition bridge_payload : json :=
  JDict [("serialNumber", JStr "IB0001"); ("type", JStr "IB02"); ("roomId", JInt 99)].

Definition topology_payload : json :=
  JDict [("rooms",
          JList [JDict [("roomId", JInt 3); ("devices", JList [valve_payload "VA0004"])];
                 JDict [("roomId", JInt 7);
                        ("devices", JList [valve_payload "VA0001"; valve_payload "VA0002";
                                           valve_payload "VA0003"])]]);
         ("otherDevices", JList [thermostat_payload; bridge_payload])].

Definition no_rooms : TadoXData.t := TadoXData.mk (JInt 1) (JStr "Home") JNull [] [] [].

Definition home_built : TadoXData.t :=
  Eval vm_compute in
    match build_rooms (JInt 1) (JStr "Home") (JStr "HOME") room_states_payload
            topology_payload with
    | Ok data => data
    | _ => no_rooms
    end.

Definition home_snapshot : TadoXData.t :=
  Eval vm_compute in
    match attach_other_devices topology_payload home_built with
    | Ok data => data
    | _ => no_rooms
    end.



(** The cloud of that home: it serves the three payloads and accepts every
    offset write but the one for valve VA0002, which it fails. *)
Definition home_server (_ : list Event) (r : Request) : Reply * Z :=
  if String.eqb (rq_url r) "https://my.example/homes/1/state"
  then json_reply home_state_payload
  else if String.eqb (rq_url r) "https://hops.example/homes/1/rooms"
  then json_reply room_states_payload
  else if String.eqb (rq_url r) "https://hops.example/homes/1/roomsAndDevices"
  then json_reply topology_payload
  else if String.eqb (rq_url r) "https://hops.example/homes/1/roomsAndDevices/devices/VA0002"
  then plain_reply 500 None "device unreachable"
  else plain_reply 200 (Some 0) "".

Definition home_client : St := client (JStr "token") (JStr "r1") home_server.

Definition home_coordinator (auto_offset_sync : bool) : Coordinator :=
  {| home_id := JInt 1; home_name := JStr "Home"; geofencing_enabled := false;
     min_temp := JNull; max_temp := JNull; auto_offset_sync := auto_offset_sync;
     room_configs := [living_mapping]; offset_hysteresis := 0.5;
     _pending_offset_updates := [] |}.

(** A client that was never given a home. *)
Definition homeless : St :=
  {| api := {| _access_token := JStr "token"; _refresh_token := JStr "r1";
               _token_expiry := None; _home_id := JNull |};
     world := world_of home_server |}.

(** The network is down: every request fails. *)
Definition unreachable (_ : list Event) (_ : Request) : Reply * Z :=
  (Fails (ClientError "connection reset"), 1000).

Definition offline : St := client (JStr "token") (JStr "r1") unreachable.

(** A client whose token expires in [seconds] seconds, by an aware expiry. *)
Definition expiring_in (seconds : Z) (srv : list Event -> Request -> Reply * Z) : St :=
  {| api := {| _access_token := JStr "old"; _refresh_token := JStr "r1";
               _token_expiry := Some (Aware ((1700000000 + seconds) * second) 0);
               _home_id := JInt 1 |};
     world := world_of srv |}.

(** Room states as a poll can bring them: room 7 twice, a state without an
    id, and room 3. *)
Definition repeated_states : json :=
  JList [JDict [("id", JInt 7); ("name", JStr "Lounge")];
         JDict [("name", JStr "Nowhere")];
         JDict [("id", JInt 3); ("name", JStr "Hall")];
         JDict [("id", JInt 7); ("name", JStr "Living room")]].

Definition repeated_snapshot : TadoXData.t :=
  Eval vm_compute in
    match normalize (JInt 1) (JStr "Home") JNull repeated_states topology_payload with
    | Ok data => data
    | _ => no_rooms
    end.

(** The living room of [home_snapshot]. *)
Definition living_room : TadoXRoom.t :=
  Eval vm_compute in
    match Dict.get (KInt 7) (TadoXData.rooms home_snapshot) with
    | Some r => r
    | None => TadoXRoom.mk JNull JNull JNull JNull JNull JNull JNull JNull false JNull JNull
                false false JNull JNull []
    end.

(** A home in AWAY mode with one tracked phone at home and one phone that
    is not tracked; the cloud accepts the switch of presence with a 204. *)
Definition away_state : json := JDict [("presence", JStr "AWAY")].

Definition phones : list json :=
  [JDict [("name", JStr "Phone");
          ("settings", JDict [("geoTrackingEnabled", JBool true)]);
          ("location", JDict [("atHome", JBool true)])];
   JDict [("name", JStr "Tablet");
          ("settings", JDict [("geoTrackingEnabled", JBool false)])]].

Definition geo_server (_ : list Event) (r : Request) : Reply * Z :=
  if String.eqb (rq_url r) "https://my.example/homes/1/state" then json_reply away_state
  else if String.eqb (rq_url r) "https://my.example/homes/1/mobileDevices"
  then json_reply (JList phones)
  else plain_reply 204 (Some 0) "".

Definition geo_client : St := client (JStr "token") (JStr "r1") geo_server.

(** [float] on a reading that is not a number. *)
Definition read_nan (s : string) : option float :=
  if String.eqb s "nan" then Some nan else None.

(** The same home with a temperature sensor that reports the hall, room 3,
    as its room. *)
Definition sensor_payload : json :=
  JDict [("serialNumber", JStr "SU0001"); ("type", JStr "SU04"); ("roomId", JInt 3)].

Definition sensor_topology : json :=
  JDict [("rooms",
          JList [JDict [("roomId", JInt 3); ("devices", JList [valve_payload "VA0004"])]]);
         ("otherDevices", JList [sensor_payload])].

Definition sensor_built : TadoXData.t :=
  Eval vm_compute in
    match build_rooms (JInt 1) (JStr "Home") (JStr "HOME") room_states_payload
            sensor_topology with
    | Ok data => data
    | _ => no_rooms
    end.

Definition sensor_snapshot : TadoXData.t :=
  Eval vm_compute in
    match attach_other_devices sensor_topology sensor_built with
    | Ok data => data
    | _ => no_rooms
    end.

(** The login server rotates refresh tokens: the first token request is
    answered with a new pair of tokens, and any later one, made with the
    refresh token that has been used, is refused.  The API accepts every
    write. *)
Definition rotating (history : list Event) (r : Request) : Reply * Z :=
  if is_token_request r then
    if existsb (fun ev => match ev with Sent q => is_token_request q | _ => false end) history
    then plain_reply 400 None "invalid_grant"
    else json_reply (JDict [("access_token", JStr "new"); ("refresh_token", JStr "r2");
                            ("expires_in", JInt 600)])
  else plain_reply 200 (Some 0) "".

(** A client whose token expires in 30 seconds, with that server. *)
Definition due_client : St := expiring_in 30 rotating.

Definition two_offsets : Dict.t float := [(KStr "VA0001", 1%float); (KStr "VA0002", 2%float)].

End Scenario.
(** * Properties *)

Unset Implicit Arguments.

(** ** Dictionaries *)

Lemma pykey_eqb_spec a b : reflect (a = b) (pykey_eqb a b).
Proof.
  destruct a, b; simpl; try (constructor; congruence).
  - destruct (Z.eqb_spec n n0); constructor; congruence.
  - destruct (String.eqb_spec s s0); constructor; congruence.
Qed.

Lemma pykey_eqb_refl a : pykey_eqb a a = true.
Proof. destruct (pykey_eqb_spec a a); congruence. Qed.

Section DictFacts.
Variable V : Type.
Implicit Types (k : pykey) (v : V) (d : Dict.t V).

Lemma get_set_same k v d : Dict.get k (Dict.set k v d) = Some v.
Proof.
  induction d as [|[k' v'] d IH]; simpl.
  - now rewrite pykey_eqb_refl.
  - destruct (pykey_eqb k k') eqn:E; simpl; now rewrite E.
Qed.

Lemma get_set_other k k' v d : k <> k' -> Dict.get k' (Dict.set k v d) = Dict.get k' d.
Proof.
  intros Hne. induction d as [|[k0 v0] d IH]; simpl.
  - destruct (pykey_eqb_spec k' k); congruence.
  - destruct (pykey_eqb_spec k k0) as [->|]; simpl.
    + destruct (pykey_eqb_spec k' k0); congruence.
    + now rewrite IH.
Qed.

Lemma get_set k k' v d :
  Dict.get k' (Dict.set k v d) = if pykey_eqb k' k then Some v else Dict.get k' d.
Proof.
  destruct (pykey_eqb_spec k' k) as [->|Hne].
  - apply get_set_same.
  - apply get_set_other; congruence.
Qed.

Lemma keys_set_present k v v0 d :
  Dict.get k d = Some v0 -> map fst (Dict.set k v d) = map fst d.
Proof.
  induction d as [|[k' v'] d IH]; simpl; [discriminate|].
  destruct (pykey_eqb k k'); simpl; intros H; [reflexivity|].
  now rewrite IH.
Qed.

Lemma get_in k v d : Dict.get k d = Some v -> In (k, v) d.
Proof.
  induction d as [|[k' v'] d IH]; simpl; [discriminate|].
  destruct (pykey_eqb_spec k k') as [->|]; intros H.
  - left. congruence.
  - right. auto.
Qed.

End DictFacts.

(** ** Floats *)

Lemma ltb_leb x y : (x <? y)%float = true -> (x <=? y)%float = true.
Proof.
  rewrite ltb_spec, leb_spec. unfold SFltb, SFleb.
  destruct (SFcompare (Prim2SF x) (Prim2SF y)) as [[]|]; congruence.
Qed.

(** [round1] against values CPython prints for [round(x, 1)]. *)
Example round1_tie_even : PyFloat.round1 0.25 = 0.2%float.
Proof. vm_compute. reflexivity. Qed.
Example round1_below_tie : PyFloat.round1 0.15 = 0.1%float.
Proof. vm_compute. reflexivity. Qed.
Example round1_above_tie : PyFloat.round1 0.05 = 0.1%float.
Proof. vm_compute. reflexivity. Qed.
Example round1_negative : PyFloat.round1 (-2.25) = (-2.2)%float.
Proof. vm_compute. reflexivity. Qed.
Example round1_neg_zero : PyFloat.round1 (-0.04) = (-0)%float.
Proof. vm_compute. reflexivity. Qed.
Example round1_large : PyFloat.round1 1125899906842623.75 = 1125899906842623.8%float.
Proof. vm_compute. reflexivity. Qed.
Example round1_large2 : PyFloat.round1 281474976710655.94 = 281474976710655.9%float.
Proof. vm_compute. reflexivity. Qed.
Example round1_2675 : PyFloat.round1 2.675 = 2.7%float.
Proof. vm_compute. reflexivity. Qed.
Example round1_tiny : PyFloat.round1 5e-324 = 0%float.
Proof. vm_compute. reflexivity. Qed.
Example round1_integral : PyFloat.round1 4503599627370495.5 = 4503599627370495.5%float.
Proof. vm_compute. reflexivity. Qed.

(** ** Running computations *)

Section Run.
Context {A B : Type}.
Implicit Types (m : M A) (k : A -> M B) (h : exn -> option (M A)) (s : St).

Lemma bind_ok m k s a s1 : m s = (Ok a, s1) -> bind m k s = k a s1.
Proof. intros H. unfold bind. now rewrite H. Qed.

Lemma bind_raise m k s e s1 : m s = (Raise e, s1) -> bind m k s = (Raise e, s1).
Proof. intros H. unfold bind. now rewrite H. Qed.

Lemma bind_beyond m k s w s1 : m s = (Beyond w, s1) -> bind m k s = (Beyond w, s1).
Proof. intros H. unfold bind. now rewrite H. Qed.

Lemma bind_inv_ok m k s b s' :
  bind m k s = (Ok b, s') -> exists a s1, m s = (Ok a, s1) /\ k a s1 = (Ok b, s').
Proof.
  unfold bind. destruct (m s) as [[a|e|w] s1]; intros H; try discriminate.
  now exists a, s1.
Qed.

Lemma try_ok m h s a s1 : m s = (Ok a, s1) -> try_except m h s = (Ok a, s1).
Proof. intros H. unfold try_except. now rewrite H. Qed.

Lemma try_raise m h s e s1 :
  m s = (Raise e, s1) ->
  try_except m h s = match h e with Some c => c s1 | None => (Raise e, s1) end.
Proof. intros H. unfold try_except. now rewrite H. Qed.

Lemma try_beyond m h s w s1 : m s = (Beyond w, s1) -> try_except m h s = (Beyond w, s1).
Proof. intros H. unfold try_except. now rewrite H. Qed.

Lemma try_inv_ok m h s a s' :
  try_except m h s = (Ok a, s') ->
  m s = (Ok a, s') \/
  exists e s1 c, m s = (Raise e, s1) /\ h e = Some c /\ c s1 = (Ok a, s').
Proof.
  unfold try_except. destruct (m s) as [[a0|e|w] s1]; intros H; try discriminate.
  - now left.
  - right. destruct (h e) as [c|] eqn:E; try discriminate. now exists e, s1, c.
Qed.
End Run.

Lemma lift_inv_ok {A} (o : outcome A) s a s' : lift o s = (Ok a, s') -> o = Ok a /\ s' = s.
Proof. unfold lift. intros H. now inversion H. Qed.

Lemma obind_inv_ok {A B} (o : outcome A) (k : A -> outcome B) b :
  obind o k = Ok b -> exists a, o = Ok a /\ k a = Ok b.
Proof. destruct o; simpl; intros H; try discriminate. now exists a. Qed.


Section Keeps.
Context {X : Type} (f : World -> X).

Lemma keeps_ret {A} (a : A) : keeps f (ret a).
Proof. now intros s. Qed.
Lemma keeps_raise {A} e : keeps f (@raise A e).
Proof. now intros s. Qed.
Lemma keeps_lift {A} (o : outcome A) : keeps f (lift o).
Proof. now intros s. Qed.
Lemma keeps_get_api : keeps f get_api.
Proof. now intros s. Qed.
Lemma keeps_set_api a : keeps f (set_api a).
Proof. now intros s. Qed.
Lemma keeps_assign upd : keeps f (assign upd).
Proof. now intros s. Qed.
Lemma keeps_now_utc : keeps f now_utc.
Proof. now intros s. Qed.
Lemma keeps_now_local : keeps f now_local.
Proof. now intros s. Qed.

Lemma keeps_bind {A B} (m : M A) (k : A -> M B) :
  keeps f m -> (forall a, keeps f (k a)) -> keeps f (bind m k).
Proof.
  intros Hm Hk s. unfold bind. specialize (Hm s).
  destruct (m s) as [[a|e|w] s1]; simpl in *; try assumption.
  now rewrite Hk.
Qed.

Lemma keeps_try {A} (m : M A) h :
  keeps f m -> (forall e c, h e = Some c -> keeps f c) -> keeps f (try_except m h).
Proof.
  intros Hm Hh s. unfold try_except. specialize (Hm s).
  destruct (m s) as [[a|e|w] s1]; simpl in *; try assumption.
  destruct (h e) as [c|] eqn:E; simpl; try assumption.
  now rewrite (Hh _ _ E).
Qed.

Lemma keeps_except_ClientError {A} (k : exn -> M A) e c :
  (forall e, keeps f (k e)) -> except_ClientError k e = Some c -> keeps f c.
Proof.
  unfold except_ClientError. intros Hk. destruct (is_client_error e); intros H; inversion H.
  apply Hk.
Qed.

Lemma keeps_except_Exception {A} (k : exn -> M A) e c :
  (forall e, keeps f (k e)) -> except_Exception k e = Some c -> keeps f c.
Proof. unfold except_Exception. intros Hk H. inversion H. apply Hk. Qed.
End Keeps.

Lemma server_send r : keeps server (send r).
Proof. intros s. unfold send. now destruct (server _ _ _) as [[]]. Qed.
Lemma server_sleep n : keeps server (sleep n).
Proof. now intros s. Qed.
Lemma server_note ev : keeps server (note ev).
Proof. now intros s. Qed.

Create HintDb keeps.
#[local] Hint Resolve keeps_ret keeps_raise keeps_lift keeps_get_api keeps_set_api keeps_assign
  keeps_now_utc keeps_now_local server_send server_sleep server_note : keeps.

(** Goes through binds, handlers and case analyses, leaving what the hints
    do not settle. *)
Ltac keeps :=
  repeat first
    [ apply keeps_bind; [|intros ?]
    | apply keeps_try; [|intros ? ? ?]
    | match goal with
      | H : except_ClientError _ _ = Some _ |- _ =>
          eapply keeps_except_ClientError; [|exact H]; intros ?; cbv beta
      | H : except_Exception _ _ = Some _ |- _ =>
          eapply keeps_except_Exception; [|exact H]; intros ?; cbv beta
      | |- keeps _ (if ?b then _ else _) => destruct b
      | |- keeps _ (match ?x with _ => _ end) => destruct x
      end
    | solve [auto with keeps] ].
(** ** Tasks *)

Lemma Co_induction {A} (P : Co A -> Prop) :
  (forall run,
      (forall s, match run s with Finished _ _ => True | Parked _ k _ => P k end) ->
      P (Seg run)) ->
  forall c, P c.
Proof.
  intros H. fix IH 1. intros [run]. apply H. intros s.
  destruct (run s) as [r s'|wake k s']; [exact I|apply IH].
Qed.

Lemma await_resume {A} (c : Co A) s :
  await c s = match resume c s with
              | Finished r s' => (r, s')
              | Parked wake k s' => await k (at_time (fst wake) s')
              end.
Proof. destruct c; reflexivity. Qed.

Lemma await_atomic {A} (m : M A) s : await (atomic m) s = m s.
Proof. cbn. now destruct (m s). Qed.

Lemma await_bind {A B} (c : Co A) (k : A -> Co B) s :
  await (co_bind c k) s = bind (await c) (fun a => await (k a)) s.
Proof.
  revert s. induction c as [run IH] using Co_induction. intros s.
  unfold bind. cbn. specialize (IH s).
  destruct (run s) as [[a|e|w] s'|wake c' s']; try reflexivity.
  - now rewrite (await_resume (k a)).
  - rewrite IH. reflexivity.
Qed.

Lemma await_try {A} (c : Co A) (h : exn -> option (Co A)) s :
  await (co_try c h) s
  = try_except (await c) (fun e => option_map await (h e)) s.
Proof.
  revert s. induction c as [run IH] using Co_induction. intros s.
  unfold try_except. cbn. specialize (IH s).
  destruct (run s) as [[a|e|w] s'|wake c' s']; try reflexivity.
  - destruct (h e) as [c|]; cbn; [now rewrite (await_resume c)|reflexivity].
  - rewrite IH. reflexivity.
Qed.

Lemma await_map {A B} (f : outcome A -> outcome B) (c : Co A) s :
  await (co_map f c) s = (f (fst (await c s)), snd (await c s)).
Proof.
  revert s. induction c as [run IH] using Co_induction. intros s.
  cbn. specialize (IH s).
  destruct (run s) as [r s'|wake c' s']; [reflexivity|apply IH].
Qed.

Lemma await_send r s : await (co_send r) s = send r s.
Proof.
  unfold send. cbn.
  destruct (server (world s) (events (world s)) r) as [[resp|e] took]; reflexivity.
Qed.

Lemma bind_ext {A B} (m m' : M A) (k k' : A -> M B) s :
  m s = m' s -> (forall a s1, k a s1 = k' a s1) -> bind m k s = bind m' k' s.
Proof.
  intros Hm Hk. unfold bind. rewrite Hm. destruct (m' s) as [[a|e|w] s1]; auto.
Qed.

Lemma try_ext {A} (m m' : M A) (h h' : exn -> option (M A)) s :
  m s = m' s ->
  (forall e s1, match h e, h' e with
                | Some c, Some c' => c s1 = c' s1
                | None, None => True
                | _, _ => False
                end) ->
  try_except m h s = try_except m' h' s.
Proof.
  intros Hm Hh. unfold try_except. rewrite Hm.
  destruct (m' s) as [[a|e|w] s1]; auto.
  specialize (Hh e s1). destruct (h e), (h' e); tauto.
Qed.

Section TasksAgree.
Variable C : Const.

Lemma refresh_access_token_alone s :
  await (refresh_access_token_co C) s = refresh_access_token C s.
Proof.
  unfold refresh_access_token_co, refresh_access_token.
  rewrite await_bind. apply bind_ext; [apply await_atomic|]. intros _ s1.
  rewrite await_bind. apply bind_ext; [apply await_atomic|]. intros a s2.
  destruct (negb _); [apply await_atomic|].
  rewrite await_try. apply try_ext.
  - rewrite await_bind. apply bind_ext; [apply await_send|].
    intros response s3. apply await_atomic.
  - intros e s3. unfold co_except_ClientError, except_ClientError.
    destruct (is_client_error e); cbn [option_map]; [apply await_atomic|exact I].
Qed.

Lemma ensure_valid_token_alone s :
  await (ensure_valid_token_co C) s = ensure_valid_token C s.
Proof.
  unfold ensure_valid_token_co, ensure_valid_token.
  rewrite await_bind. apply bind_ext; [apply await_atomic|]. intros a s1.
  destruct (negb _); [apply await_atomic|].
  destruct (_token_expiry a) as [expiry|]; [|apply await_atomic].
  rewrite await_bind. apply bind_ext; [apply await_atomic|]. intros now s2.
  rewrite await_bind. apply bind_ext; [apply await_atomic|]. intros now' s3.
  rewrite await_bind. apply bind_ext; [apply await_atomic|]. intros threshold s4.
  destruct (_ <=? _); [|apply await_atomic].
  rewrite await_bind. apply bind_ext; [apply refresh_access_token_alone|].
  intros _ s5. apply await_atomic.
Qed.

Lemma retry_after_refresh_alone method url json_data s :
  await (retry_after_refresh_co C method url json_data) s
  = retry_after_refresh C method url json_data s.
Proof.
  unfold retry_after_refresh_co, retry_after_refresh.
  rewrite await_bind. apply bind_ext; [apply refresh_access_token_alone|]. intros _ s1.
  rewrite await_bind. apply bind_ext; [apply await_atomic|]. intros a s2.
  rewrite await_bind. apply bind_ext; [apply await_atomic|]. intros retry s3.
  rewrite await_bind. apply bind_ext; [apply await_send|]. intros retry_response s4.
  apply await_atomic.
Qed.

Lemma exchange_alone method url json_data request s :
  await (exchange_co C method url json_data request) s
  = exchange C method url json_data request s.
Proof.
  unfold exchange_co, exchange.
  rewrite await_bind. apply bind_ext; [apply await_send|]. intros response s1.
  destruct (_ =? _); [apply retry_after_refresh_alone|apply await_atomic].
Qed.

Lemma request_alone method url json_data s :
  await (_request_co C method url json_data) s = _request C method url json_data s.
Proof.
  unfold _request_co, _request.
  rewrite await_bind. apply bind_ext; [apply ensure_valid_token_alone|]. intros _ s1.
  rewrite await_bind. apply bind_ext; [apply await_atomic|]. intros a s2.
  rewrite await_bind. apply bind_ext; [apply await_atomic|]. intros request s3.
  rewrite await_try. apply try_ext; [apply exchange_alone|].
  intros e s4. unfold co_except_ClientError, network_error, except_ClientError.
  destruct (is_client_error e); cbn [option_map]; [apply await_atomic|exact I].
Qed.

End TasksAgree.

(** *** Tasks that run alike *)


Lemma runs_as_await {A B} (R : outcome A -> outcome B -> Prop) (c : Co A) (c' : Co B) s :
  runs_as R c c' ->
  R (fst (await c s)) (fst (await c' s)) /\ snd (await c s) = snd (await c' s).
Proof.
  revert c' s. induction c as [run IH] using Co_induction. intros [run'] s H.
  specialize (H s). specialize (IH s). cbn.
  destruct (run s) as [r s1|wake k s1], (run' s) as [r' s1'|wake' k' s1']; try contradiction.
  - destruct H as [H ->]. now split.
  - destruct H as (-> & -> & H). now apply IH.
Qed.


Section Gathered.
Context {I A B : Type} (R : I -> outcome A -> outcome B -> Prop).



End Gathered.

Lemma runs_as_caught {A B} (c : Co A) (v : B) (g : exn -> B) :
  runs_as (fun r r' => r' = match r with
                           | Ok _ => Ok v
                           | Raise err => Ok (g err)
                           | Beyond w => Beyond w
                           end)
          c
          (co_try (_ <~ c ;; atomic (ret v))
                  (co_except_Exception (fun err => atomic (ret (g err))))).
Proof.
  induction c as [run IH] using Co_induction. intros s. specialize (IH s). cbn.
  destruct (run s) as [[a|e|w] s1|wake k s1]; cbn; auto.
Qed.

(** ** The session *)

Lemma send_answer r s resp took :
  server (world s) (events (world s)) r = (Answer resp, took) ->
  send r s = (Ok resp, sent r took s).
Proof. intros H. unfold send. rewrite H. reflexivity. Qed.

Lemma send_fails r s e took :
  server (world s) (events (world s)) r = (Fails e, took) ->
  send r s = (Raise e, sent r took s).
Proof. intros H. unfold send. rewrite H. reflexivity. Qed.

Lemma send_inv_ok r s resp s' :
  send r s = (Ok resp, s') ->
  exists took, server (world s) (events (world s)) r = (Answer resp, took) /\ s' = sent r took s.
Proof.
  unfold send. destruct (server _ _ _) as [[resp'|e] took] eqn:E; intros H; inversion H.
  now exists took.
Qed.

(** ** TokenManager: [refresh_access_token] *)

Section Refresh.
Variable C : Const.

Lemma store_tokens_stable response : keeps whole (store_tokens response).
Proof. unfold store_tokens. keeps. Qed.

Lemma refresh_unfold s :
  refresh_access_token C s =
  let s0 := {| api := api s; world := log Refreshing (world s) |} in
  if negb (truthy (_refresh_token (api s))) then
    (Raise (TadoXAuthError "No refresh token available"), s0)
  else
    try_except
      (response <- send (refresh_request C (_refresh_token (api s))) ;; store_tokens response)
      (except_ClientError (fun err =>
         raise (TadoXAuthError ("Network error during token refresh: " +++ exn_str err))))
      s0.
Proof.
  unfold refresh_access_token. cbv [bind note get_api]. cbn [api world].
  destruct (truthy _); reflexivity.
Qed.

Lemma store_tokens_inv_ok response s b s' :
  store_tokens response s = (Ok b, s') ->
  b = true /\ status response = 200 /\ world s' = world s /\
  exists kv tok ttl,
    body_json response = Ok (JDict kv) /\
    assoc "access_token" kv = Some tok /\
    lifetime kv = Some ttl /\
    api s' =
      with_token_expiry (Aware (utc_now (world s) + ttl * second) 0)
        (with_refresh_token
           (match assoc "refresh_token" kv with
            | Some v => v
            | None => _refresh_token (api s)
            end)
           (with_access_token tok (api s))).
Proof.
  unfold store_tokens. destruct (Z.eqb_spec (status response) 200) as [Hst|Hst]; cbn [negb].
  2:{ cbv [bind lift raise]. destruct (text response); discriminate. }
  cbv [bind lift assign get_api set_api now_utc ret].
  destruct (body_json response) as [data| |]; try discriminate.
  destruct data; try discriminate. cbn [py_item py_get_or].
  destruct (assoc "access_token" kv) as [tok|] eqn:Htok; try discriminate.
  cbn [api world with_access_token with_refresh_token _refresh_token].
  destruct (assoc "expires_in" kv) as [[| [] | n | | | |]|] eqn:Hexp;
    cbn [timedelta_seconds type_name];
    try discriminate.
  all: match goal with |- context [if ?c then _ else _] => destruct c end; try discriminate.
  all: unfold Time.add; cbn [wall_of].
  all: match goal with |- context [if ?c then _ else _] => destruct c end; try discriminate.
  all: intros H; inversion H; subst; clear H.
  all: split; [reflexivity|split; [assumption|split; [reflexivity|]]].
  all: exists kv, tok; eexists.
  all: split; [reflexivity|split; [exact Htok|split; [unfold lifetime; now rewrite Hexp|]]].
  all: reflexivity.
Qed.

(** The world [refresh_access_token] leaves behind: it logs its own entry
  and, when a refresh token is held, sends one token request. *)
Lemma refresh_world s :
  world (snd (refresh_access_token C s)) =
  let w := log Refreshing (world s) in
  if truthy (_refresh_token (api s)) then
    let request := refresh_request C (_refresh_token (api s)) in
    advance (snd (server w (events w) request)) (log (Sent request) w)
  else w.
Proof.
  rewrite refresh_unfold. cbv zeta. destruct (truthy _); cbn [negb]; [|reflexivity].
  unfold try_except, bind, send. cbn [world api].
  destruct (server _ _ _) as [[resp|e] took]; cbn [snd].
  - match goal with |- context [store_tokens resp ?s1] =>
      pose proof (store_tokens_stable resp s1) as Hs;
      destruct (store_tokens resp s1) as [[?|e|?] s2]
    end; unfold whole in Hs; cbn [snd world] in Hs; try exact Hs.
    unfold except_ClientError. destruct (is_client_error e); exact Hs.
  - unfold except_ClientError. destruct (is_client_error e); reflexivity.
Qed.

Lemma refresh_not_client_error s e s' :
  refresh_access_token C s = (Raise e, s') -> is_client_error e = false.
Proof.
  rewrite refresh_unfold. cbv zeta. destruct (truthy _); cbn [negb].
  - unfold try_except.
    destruct (bind _ _ _) as [[?|e0|?] s1]; try discriminate.
    unfold except_ClientError. destruct (is_client_error e0) eqn:E.
    + unfold raise. intros H. inversion H. reflexivity.
    + intros H. inversion H. now subst.
  - intros H. inversion H. reflexivity.
Qed.

Lemma refresh_inv_ok s b s' :
  refresh_access_token C s = (Ok b, s') ->
  let w := log Refreshing (world s) in
  let request := refresh_request C (_refresh_token (api s)) in
  truthy (_refresh_token (api s)) = true /\
  exists response took,
    server w (events w) request = (Answer response, took) /\
    store_tokens response {| api := api s; world := advance took (log (Sent request) w) |}
      = (Ok b, s').
Proof.
  rewrite refresh_unfold. cbv zeta. destruct (truthy _); cbn [negb]; [|discriminate].
  intros H. split; [reflexivity|].
  apply try_inv_ok in H. destruct H as [H|(e & s1 & c & _ & Hh & Hc)].
  - apply bind_inv_ok in H. destruct H as (response & s1 & Hsend & Hstore).
    apply send_inv_ok in Hsend. destruct Hsend as (took & Hsrv & ->).
    exists response, took. split; [exact Hsrv|exact Hstore].
  - unfold except_ClientError in Hh. destruct (is_client_error e); inversion Hh; subst.
    discriminate.
Qed.

End Refresh.

(** ** TokenManager: [poll_for_token] *)

Section Poll.
Variable C : Const.

Lemma issue_token_inv_ok data s u s' :
  issue_token data s = (Ok u, s') ->
  world s' = world s /\
  exists kv tok ttl,
    data = JDict kv /\
    assoc "access_token" kv = Some tok /\
    lifetime kv = Some ttl /\
    api s' =
      with_token_expiry
        (Naive (utc_now (world s) + utc_offset (world s) + ttl * second))
        (with_refresh_token
           (match assoc "refresh_token" kv with Some v => v | None => JNull end)
           (with_access_token tok (api s))).
Proof.
  unfold issue_token. cbv [bind lift assign get_api set_api now_local ret].
  destruct data; try discriminate. cbn [py_item py_get py_get_or].
  destruct (assoc "access_token" kv) as [tok|] eqn:Htok; try discriminate.
  cbn [api world with_access_token with_refresh_token _refresh_token].
  destruct (assoc "expires_in" kv) as [[| [] | n | | | |]|] eqn:Hexp;
    cbn [timedelta_seconds type_name]; try discriminate.
  all: match goal with |- context [if ?c then _ else _] => destruct c end; try discriminate.
  all: unfold Time.add; cbn [wall_of].
  all: match goal with |- context [if ?c then _ else _] => destruct c end; try discriminate.
  all: intros H; inversion H; subst; clear H.
  all: split; [reflexivity|]; exists kv, tok; eexists.
  all: split; [reflexivity|split; [exact Htok|split; [unfold lifetime; now rewrite Hexp|]]].
  all: reflexivity.
Qed.

Lemma poll_response_inv_some interval response s b s' :
  poll_response interval response s = (Ok (Some b), s') ->
  b = true /\ status response = 200 /\
  exists data, body_json response = Ok data /\ issue_token data s = (Ok tt, s').
Proof.
  unfold poll_response. intros H.
  apply bind_inv_ok in H. destruct H as (data & s1 & Hdata & H).
  apply lift_inv_ok in Hdata. destruct Hdata as [Hdata ->].
  destruct (Z.eqb_spec (status response) 200) as [Hst|Hst].
  - apply bind_inv_ok in H. destruct H as ([] & s1 & Hissue & H).
    inversion H; subst. repeat split; try assumption. now exists data.
  - exfalso. revert H. unfold bind, lift, sleep, ret, raise.
    destruct (py_get data "error"); try discriminate.
    destruct (eq_str _ _); try discriminate.
    destruct (py_get_or _ _ _); try discriminate.
    destruct (py_str _); discriminate.
Qed.

Lemma poll_once_inv_some device_code interval s b s' :
  poll_once C device_code interval s = (Ok (Some b), s') ->
  exists response took,
    server (world s) (events (world s)) (device_code_request C device_code)
    = (Answer response, took) /\
    poll_response interval response (sent (device_code_request C device_code) took s)
    = (Ok (Some b), s').
Proof.
  unfold poll_once. intros H.
  apply try_inv_ok in H. destruct H as [H|(e & s1 & c & _ & Hh & Hc)].
  - apply bind_inv_ok in H. destruct H as (response & s1 & Hsend & H).
    apply send_inv_ok in Hsend. destruct Hsend as (took & Hsrv & ->).
    now exists response, took.
  - unfold except_ClientError in Hh. destruct (is_client_error e); inversion Hh; subst.
    discriminate.
Qed.

Lemma issue_token_server data : keeps server (issue_token data).
Proof. unfold issue_token. keeps. Qed.

Lemma poll_once_server device_code interval :
  keeps server (poll_once C device_code interval).
Proof.
  unfold poll_once, poll_response. keeps.
Qed.

Lemma poll_loop_issued fuel device_code interval timeout start_time s0 s s' :
  server (world s) = server (world s0) ->
  poll_loop C fuel device_code interval timeout start_time s = (Ok true, s') ->
  issued C device_code s0 s'.
Proof.
  revert s. induction fuel as [|fuel IH]; intros s Hsrv; cbn [poll_loop].
  - discriminate.
  - cbv [bind now_local]. destruct (_ <? timeout); [|discriminate].
    pose proof (poll_once_server device_code interval s) as Hkeep.
    destruct (poll_once C device_code interval s) as [[[b|]| |] s1] eqn:Honce;
      try discriminate; cbn [snd] in Hkeep.
    + unfold ret. intros H. inversion H; subst; clear H.
      apply poll_once_inv_some in Honce. destruct Honce as (response & took & Hreply & H).
      apply poll_response_inv_some in H.
      destruct H as (_ & Hst & data & Hjson & Hissue).
      apply issue_token_inv_ok in Hissue.
      destruct Hissue as (Hw & kv & tok & ttl & -> & _ & Httl & Hapi).
      exists response, took, kv, ttl, (events (world s)).
      rewrite Hapi, Hw, <- Hsrv. cbn. repeat split; assumption || reflexivity.
    + apply IH. congruence.
Qed.

(** C10.  When [poll_for_token] succeeds, the last token request it sent was
  answered 200 with a JSON object; the stored refresh token is exactly
  that object's [refresh_token] field, [None] when the field is missing,
  whatever was held before; and the stored expiry is the naive local time
  at which the answer arrived plus [expires_in], 600 seconds if absent. *)
Theorem poll_for_token_stores fuel device_code interval timeout (s s' : St) :
  poll_for_token C fuel device_code interval timeout s = (Ok true, s') ->
  issued C device_code s s'.
Proof.
  unfold poll_for_token. cbv [bind now_local]. intros H.
  exact (poll_loop_issued _ _ _ _ _ s s s' eq_refl H).
Qed.
End Poll.

(** ** ResilientRequestClient: [_request] *)

Section Request.
Variable C : Const.

Lemma request_unfold method url json_data s s1 request :
  ensure_valid_token C s = (Ok tt, s1) ->
  api_request method url (_access_token (api s1)) json_data = Ok request ->
  _request C method url json_data s
  = try_except (exchange C method url json_data request) network_error s1.
Proof.
  intros Hvalid Hreq. unfold _request.
  erewrite bind_ok by exact Hvalid.
  cbv [bind get_api lift]. rewrite Hreq. reflexivity.
Qed.

Lemma exchange_401 method url json_data request s1 response took :
  server (world s1) (events (world s1)) request = (Answer response, took) ->
  status response = 401 ->
  exchange C method url json_data request s1
  = retry_after_refresh C method url json_data (sent request took s1).
Proof.
  intros Hsrv Hst. unfold exchange.
  erewrite bind_ok by (apply send_answer; exact Hsrv).
  now rewrite Hst.
Qed.

Lemma refresh_log s :
  events (world (snd (refresh_access_token C s))) =
  if truthy (_refresh_token (api s)) then
    Sent (refresh_request C (_refresh_token (api s))) :: Refreshing :: events (world s)
  else Refreshing :: events (world s).
Proof. rewrite refresh_world. cbv zeta. now destruct (truthy _). Qed.

Lemma ensure_log s s1 :
  ensure_valid_token C s = (Ok tt, s1) ->
  events (world s1) = events (world s) \/
  events (world s1)
  = Sent (refresh_request C (_refresh_token (api s))) :: Refreshing :: events (world s).
Proof.
  unfold ensure_valid_token, bind at 1, get_api.
  destruct (negb _); [discriminate|].
  destruct (_token_expiry (api s)) as [expiry|]; [|intros H; inversion H; now left].
  unfold bind at 1, now_utc. unfold bind at 1.
  assert (Hnow : forall now : datetime,
             exists now', (if is_aware expiry then ret now else now_local) s = (Ok now', s)).
  { intros now. destruct (is_aware expiry); eexists; reflexivity. }
  destruct (Hnow (Aware (utc_now (world s)) 0)) as (now' & ->).
  unfold bind at 1, lift. destruct (Time.add expiry _) as [threshold| |]; try discriminate.
  destruct (_ <=? _); [|intros H; inversion H; now left].
  unfold bind. pose proof (refresh_log s) as Hlog.
  destruct (refresh_access_token C s) as [[b| |] s2] eqn:Hrefresh; try discriminate.
  intros H. inversion H; subst s2. cbn [snd] in Hlog.
  destruct (@refresh_inv_ok C _ _ _ Hrefresh) as [Hheld _]. rewrite Hheld in Hlog. now right.
Qed.

(** C2, as the code has it.  Before the request is sent the token check has
  either left the log alone or refreshed once.  A request answered 401 then
  enters [refresh_access_token] once.  If that refresh raises, its exception
  comes out of [_request] and nothing is sent again.  If it returns, one
  request is sent again, carrying the refreshed access token, and nothing
  else, whatever becomes of it: the log ends with the request, the refresh,
  its token request and the retry.  A retry answered with a status other
  than 200 and 204 (a second 401 included) makes the call raise
  [TadoXApiError] with that status and the body text; a retry lost to a
  network error makes it raise [TadoXApiError] "Network error: ...". *)
Theorem request_unauthorized method url json_data (s s1 : St) request response took :
  ensure_valid_token C s = (Ok tt, s1) ->
  api_request method url (_access_token (api s1)) json_data = Ok request ->
  server (world s1) (events (world s1)) request = (Answer response, took) ->
  status response = 401 ->
  let token_request := refresh_request C (_refresh_token (api s1)) in
  let call := _request C method url json_data s in
  (events (world s1) = events (world s) \/
   events (world s1)
   = Sent (refresh_request C (_refresh_token (api s))) :: Refreshing :: events (world s))
  /\
  (forall e s3,
      refresh_access_token C (sent request took s1) = (Raise e, s3) ->
      call = (Raise e, s3) /\
      (events (world s3) = Refreshing :: Sent request :: events (world s1) \/
       events (world s3)
       = Sent token_request :: Refreshing :: Sent request :: events (world s1)))
  /\
  (forall b s3 retry,
      refresh_access_token C (sent request took s1) = (Ok b, s3) ->
      api_request method url (_access_token (api s3)) json_data = Ok retry ->
      events (world (snd call))
      = Sent retry :: Sent token_request :: Refreshing :: Sent request
          :: events (world s1)
      /\
      (forall retry_response took' body,
          server (world s3) (events (world s3)) retry = (Answer retry_response, took') ->
          status retry_response <> 200 -> status retry_response <> 204 ->
          text retry_response = Ok body ->
          fst call = Raise (api_error (status retry_response) body))
      /\
      (forall err took',
          server (world s3) (events (world s3)) retry = (Fails (ClientError err), took') ->
          fst call = Raise (TadoXApiError ("Network error: " +++ exn_str (ClientError err))))).
Proof.
  intros Hvalid Hreq Hsrv Hst. cbv zeta.
  split; [exact (ensure_log _ _ Hvalid)|].
  rewrite (@request_unfold method url json_data s s1 request Hvalid Hreq).
  split.
  - intros e s3 Hrefresh.
    pose proof (refresh_log (sent request took s1)) as Hlog.
    rewrite Hrefresh in Hlog. cbn [snd sent api world log advance events] in Hlog.
    split.
    + erewrite try_raise.
      2:{ rewrite (@exchange_401 method url json_data _ _ _ _ Hsrv Hst). unfold retry_after_refresh.
          erewrite bind_raise by exact Hrefresh. reflexivity. }
      unfold network_error, except_ClientError.
      now rewrite (@refresh_not_client_error C _ _ _ Hrefresh).
    + destruct (truthy _); auto.
  - intros b s3 retry Hrefresh Hretry.
    pose proof (refresh_log (sent request took s1)) as Hlog.
    rewrite Hrefresh in Hlog. cbn [snd sent api world log advance events] in Hlog.
    destruct (@refresh_inv_ok C _ _ _ Hrefresh) as [Hheld _]. cbn [sent api] in Hheld.
    rewrite Hheld in Hlog.
    assert (Hrun : retry_after_refresh C method url json_data (sent request took s1)
                   = bind (send retry)
                       (fun retry_response =>
                          if negb (status retry_response =? 200) then
                            body <- lift (text retry_response) ;;
                            raise (api_error (status retry_response) body)
                          else if zero_length retry_response then ret JNull
                          else lift (body_json retry_response)) s3).
    { unfold retry_after_refresh.
      erewrite bind_ok by exact Hrefresh.
      cbv [bind get_api lift] in *. rewrite Hretry. reflexivity. }
    unfold try_except at 1 2 3.
    rewrite (@exchange_401 method url json_data _ _ _ _ Hsrv Hst), Hrun. clear Hrun.
    destruct (server (world s3) (events (world s3)) retry) as [[retry_response|err] took'] eqn:Hsrv'.
    + rewrite (bind_ok _ _ _ _ _ (@send_answer _ _ _ _ Hsrv')).
      split; [|split].
      * assert (Hk : keeps whole (try_except
                  (if negb (status retry_response =? 200) then
                     body <- lift (text retry_response) ;;
                     raise (api_error (status retry_response) body)
                   else if zero_length retry_response then ret JNull
                   else lift (body_json retry_response)) network_error)).
        { unfold network_error. keeps. }
        specialize (Hk (sent retry took' s3)). unfold whole, try_except in Hk.
        rewrite Hk. cbn [sent api world log advance events]. now rewrite Hlog.
      * intros retry_response' took'' body H Hne _ Hbody. inversion H; subst.
        apply Z.eqb_neq in Hne. rewrite Hne. cbn [negb].
        unfold bind, lift. rewrite Hbody. reflexivity.
      * intros err took'' H. discriminate.
    + rewrite (bind_raise _ _ _ _ _ (@send_fails _ _ _ _ Hsrv')).
      split; [|split].
      * unfold network_error, except_ClientError.
        destruct (is_client_error err); cbn [raise snd sent api world log advance events];
          now rewrite Hlog.
      * intros retry_response took'' body H. discriminate.
      * intros err' took'' H. inversion H; subst. reflexivity.
Qed.

End Request.
(** ** BatchOffsetExecutor *)

Section DictAppend.
Variable V : Type.
Implicit Types (k : pykey) (v : V) (d : Dict.t V).

Lemma set_fresh k v d : ~ In k (map fst d) -> Dict.set k v d = (d ++ [(k, v)])%list.
Proof.
  induction d as [|[k' v'] d IH]; simpl; intros Hk; [reflexivity|].
  destruct (pykey_eqb_spec k k') as [->|_]; [tauto|].
  rewrite IH; tauto.
Qed.

End DictAppend.

Section Batch.
Variable C : Const.

Lemma gather_one {A} (t : Co A) s :
  await (gather [t]) s = (Ok [fst (await t s)], snd (await t s)).
Proof.
  cbn [gather]. rewrite await_resume. cbn [resume]. rewrite (await_resume t).
  destruct (resume t s) as [r s1|wake k s1]; [reflexivity|].
  now rewrite await_map.
Qed.

Lemma offset_write_alone serial offset s :
  await (offset_write C serial offset) s
  = (a <- get_api ;;
     home <- lift (py_str (_home_id a)) ;;
     device <- lift (py_str (json_of_key serial)) ;;
     _request C "PATCH"
       (TADO_HOPS_API_URL C +++ "/homes/" +++ home +++ "/roomsAndDevices/devices/" +++ device)
       (Some (JDict [("temperatureOffset", JFloat offset)]))) s.
Proof.
  unfold offset_write.
  rewrite await_bind. apply bind_ext; [apply await_atomic|]. intros a s1.
  rewrite await_bind. apply bind_ext; [apply await_atomic|]. intros home s2.
  rewrite await_bind. apply bind_ext; [apply await_atomic|]. intros device s3.
  apply request_alone.
Qed.

Lemma set_single_offset_runs so :
  runs_as (fun r r' => r' = status_of so r)
          (offset_write C (fst so) (snd so)) (set_single_offset C (fst so) (snd so)).
Proof. unfold set_single_offset, status_of. apply runs_as_caught. Qed.




End Batch.

(** ** SnapshotNormalizer: one room *)

Lemma get_optional x k default :
  optional_object x = true ->
  py_get_or (py_or x empty_dict) k default = Ok (field_or x k default).
Proof.
  unfold optional_object, py_or. destruct x; simpl; try discriminate; try reflexivity.
  - destruct b; [discriminate|reflexivity].
  - destruct (n =? 0); [reflexivity|discriminate].
  - destruct (PrimFloat.eqb f 0); [reflexivity|discriminate].
  - destruct (String.eqb s ""); [reflexivity|discriminate].
  - destruct l; [reflexivity|discriminate].
  - destruct kv; reflexivity.
Qed.

Lemma get_if_truthy x k :
  optional_object x = true ->
  (if truthy x then py_get x k else Ok JNull)
  = Ok (if truthy x then field x k else JNull).
Proof.
  unfold optional_object. destruct (truthy x) eqn:E; [|reflexivity].
  destruct x; simpl; try discriminate. reflexivity.
Qed.

Lemma field_of_falsy x k : truthy x = false -> field x k = JNull.
Proof. destruct x; simpl; try reflexivity. destruct kv; [reflexivity|discriminate]. Qed.

(** C7.  A room-state payload whose nested optional sub-objects are each
    missing, null or an object builds a room without raising, and every
    sub-object that is missing or null leaves its fields of the room at their
    defaults: no sensor data gives no current temperature and no humidity. *)
Theorem build_room_absent_safe room_data room_id shown :
  room_state_shape room_data = true ->
  py_str room_id = Ok shown ->
  exists room,
    build_room room_data room_id = Ok room /\
    (field room_data "sensorDataPoints" = JNull ->
     TadoXRoom.current_temperature room = JNull /\ TadoXRoom.humidity room = JNull) /\
    (field room_data "setting" = JNull ->
     TadoXRoom.target_temperature room = JNull /\ TadoXRoom.power room = JStr "OFF") /\
    (field room_data "manualControlTermination" = JNull ->
     TadoXRoom.manual_control_active room = false /\
     TadoXRoom.manual_control_remaining_seconds room = JNull /\
     TadoXRoom.manual_control_type room = JNull) /\
    (field room_data "nextScheduleChange" = JNull ->
     TadoXRoom.next_schedule_change room = JNull /\
     TadoXRoom.next_schedule_temperature room = JNull) /\
    (field room_data "heatingPower" = JNull -> TadoXRoom.heating_power room = JInt 0) /\
    (field room_data "connection" = JNull ->
     TadoXRoom.connection_state room = JStr "DISCONNECTED").
Proof.
  unfold room_state_shape. cbv zeta. intros Hshape Hshown.
  repeat (apply andb_prop in Hshape; destruct Hshape as [Hshape ?]).
  destruct room_data as [| | | | | |kv]; try discriminate. clear Hshape.
  pose proof get_if_truthy as Hif.
  unfold build_room, py_get, field in *. rewrite Hshown.
  repeat first
    [ progress cbn [obind]
    | progress change (py_get_or (JDict kv) ?k ?d) with (Ok (field_or (JDict kv) k d))
    | rewrite get_optional by assumption
    | rewrite Hif by assumption ].
  eexists. split; [reflexivity|]. cbn.
  repeat match goal with |- _ /\ _ => split end.
  all: intros E; rewrite E in *; cbn; repeat split.
Qed.

(** ** SnapshotNormalizer: the room with the most devices *)

Lemma greatest_count_nonneg rooms : 0 <= greatest_count rooms.
Proof. induction rooms as [|e rooms IH]; simpl; lia. Qed.

Lemma most_devices_from rooms best m :
  0 <= m ->
  fold_left most_devices_step rooms (best, m) =
  if greatest_count rooms <=? m then (best, m)
  else (match find (fun entry => device_count (snd entry) =? greatest_count rooms) rooms with
        | Some entry => json_of_key (fst entry)
        | None => JNull
        end, greatest_count rooms).
Proof.
  revert best m. induction rooms as [|e rooms IH]; intros best m Hm.
  - simpl. destruct (Z.leb_spec 0 m); [reflexivity|lia].
  - assert (0 <= device_count (snd e)) by (unfold device_count; lia).
    cbn [fold_left greatest_count fold_right find].
    fold (greatest_count rooms). fold (device_count (snd e)).
    unfold most_devices_step at 2. fold (device_count (snd e)). cbn [snd fst].
    set (c := device_count (snd e)). set (g := greatest_count rooms).
    destruct (Z.ltb_spec m c) as [Hmc|Hmc]; rewrite IH by lia; fold g.
    + destruct (Z.leb_spec g c) as [Hgc|Hgc].
      * destruct (Z.leb_spec (Z.max c g) m); [lia|].
        replace (Z.max c g) with c by lia. now rewrite Z.eqb_refl.
      * destruct (Z.leb_spec (Z.max c g) m); [lia|].
        replace (Z.max c g) with g by lia.
        destruct (Z.eqb_spec c g); [lia|reflexivity].
    + destruct (Z.leb_spec g m) as [Hgm|Hgm].
      * destruct (Z.leb_spec (Z.max c g) m); [reflexivity|lia].
      * destruct (Z.leb_spec (Z.max c g) m); [lia|].
        replace (Z.max c g) with g by lia.
        destruct (Z.eqb_spec c g); [lia|reflexivity].
Qed.

(** The loop of lines 280-286 finds the densest room. *)
Lemma most_devices_densest rooms :
  most_devices rooms =
  (match densest rooms with Some entry => json_of_key (fst entry) | None => JNull end,
   greatest_count rooms).
Proof.
  unfold most_devices, densest. rewrite most_devices_from by lia.
  pose proof (greatest_count_nonneg rooms).
  destruct (Z.leb_spec (greatest_count rooms) 0), (Z.eqb_spec (greatest_count rooms) 0);
    try lia; try reflexivity.
  now replace (greatest_count rooms) with 0 by lia.
Qed.

(** ** SnapshotNormalizer: loops *)

Lemma for_each_invariant {A S} (P : S -> Prop) (body : A -> S -> outcome S) xs :
  (forall x s s', P s -> body x s = Ok s' -> P s') ->
  forall s s', P s -> for_each xs body s = Ok s' -> P s'.
Proof.
  intros Hstep. induction xs as [|x xs IH]; intros s s' Hs; cbn [for_each].
  - intros H. inversion H. now subst.
  - destruct (body x s) as [s1| |] eqn:E; cbn [obind]; try discriminate.
    apply IH. eapply Hstep; eauto.
Qed.

Lemma for_each_collect {A S B} (I : S -> Prop) (out : S -> list B) (R : A -> B -> Prop)
      (body : A -> S -> outcome S) xs :
  (forall x s s', I s -> body x s = Ok s' ->
                  I s' /\ exists b, out s' = (out s ++ [b])%list /\ R x b) ->
  forall s s', I s -> for_each xs body s = Ok s' ->
               I s' /\ exists bs, out s' = (out s ++ bs)%list /\ Forall2 R xs bs.
Proof.
  intros Hstep. induction xs as [|x xs IH]; intros s s' Hs; cbn [for_each].
  - intros H. inversion H; subst. split; [assumption|].
    exists []. now rewrite app_nil_r.
  - destruct (body x s) as [s1| |] eqn:E; cbn [obind]; try discriminate.
    intros H. destruct (Hstep _ _ _ Hs E) as (Hs1 & b & Hout & Hb).
    destruct (IH _ _ Hs1 H) as (Hs' & bs & Hout' & Hbs).
    split; [assumption|]. exists (b :: bs). split.
    + now rewrite Hout', Hout, <- app_assoc.
    + now constructor.
Qed.

Lemma Forall2_in_l {A B} (R : A -> B -> Prop) xs ys x :
  Forall2 R xs ys -> In x xs -> exists y, In y ys /\ R x y.
Proof.
  induction 1 as [|x0 y0 xs ys Hxy _ IH]; simpl; [tauto|].
  intros [->|Hin]; [exists y0; auto|].
  destruct (IH Hin) as (y & ? & ?). exists y. auto.
Qed.

Lemma Forall2_in_r {A B} (R : A -> B -> Prop) xs ys y :
  Forall2 R xs ys -> In y ys -> exists x, In x xs /\ R x y.
Proof.
  induction 1 as [|x0 y0 xs ys Hxy _ IH]; simpl; [tauto|].
  intros [->|Hin]; [exists x0; auto|].
  destruct (IH Hin) as (x & ? & ?). exists x. auto.
Qed.

(** ** SnapshotNormalizer: keys *)

Lemma key_of_inj a b k : key_of a = Ok k -> key_of b = Ok k -> a = b.
Proof. destruct a, b; simpl; congruence. Qed.

Lemma key_of_json_of_key k : key_of (json_of_key k) = Ok k.
Proof. now destruct k. Qed.

Lemma json_of_key_of v k : key_of v = Ok k -> json_of_key k = v.
Proof. destruct v; simpl; intros H; inversion H; reflexivity. Qed.

Lemma get_set_some {V} k k' (v v' : V) d :
  Dict.get k' (Dict.set k v d) = Some v' ->
  (k' = k /\ v' = v) \/ (k' <> k /\ Dict.get k' d = Some v').
Proof.
  rewrite get_set. destruct (pykey_eqb_spec k' k) as [->|Hne]; intros H.
  - left. split; congruence.
  - right. now split.
Qed.

Lemma get_set_keeps {V} k k' (v v' : V) d :
  Dict.get k' d = Some v' -> exists v'', Dict.get k' (Dict.set k v d) = Some v''.
Proof.
  intros H. rewrite get_set. destruct (pykey_eqb k' k); eauto.
Qed.

(** ** SnapshotNormalizer: devices of a room *)

Lemma build_device_fields device_data room_id room_name d :
  build_device device_data room_id room_name = Ok d ->
  TadoXDevice.room_id d = room_id /\
  TadoXDevice.room_name d = room_name /\
  TadoXDevice.serial_number d = field_or device_data "serialNumber" (JStr "").
Proof.
  unfold build_device. destruct device_data; try discriminate.
  cbn [py_get py_get_or obind].
  destruct (py_get_or _ "state" _); cbn [obind]; try discriminate.
  intros H. inversion H. auto.
Qed.

Lemma build_room_fresh room_data room_id room :
  build_room room_data room_id = Ok room ->
  TadoXRoom.room_id room = room_id /\ TadoXRoom.devices room = [].
Proof.
  unfold build_room. intros H.
  repeat (apply obind_inv_ok in H; destruct H as (? & _ & H)).
  inversion H. auto.
Qed.

Lemma extend_fields room devs :
  TadoXRoom.room_id (extend room devs) = TadoXRoom.room_id room /\
  TadoXRoom.name (extend room devs) = TadoXRoom.name room /\
  TadoXRoom.devices (extend room devs) = (TadoXRoom.devices room ++ devs)%list.
Proof.
  revert room. induction devs as [|d devs IH]; intros room; cbn [extend fold_left].
  - now rewrite app_nil_r.
  - destruct (IH (TadoXRoom.append d room)) as (Hid & Hname & Hdevs).
    unfold extend in *. rewrite Hid, Hname, Hdevs. cbn.
    now rewrite <- app_assoc.
Qed.

(** The loop of lines 258-274 builds one device per listed payload, appends
    them to the room in order and indexes them in order. *)
Lemma add_room_devices listed room index room' index' :
  for_each listed add_room_device (room, index) = Ok (room', index') ->
  exists devs,
    Forall2 (fun device_data d =>
               build_device device_data (TadoXRoom.room_id room) (TadoXRoom.name room) = Ok d)
            listed devs /\
    room' = extend room devs /\
    for_each devs index_device index = Ok index'.
Proof.
  revert room index.
  induction listed as [|device_data listed IH]; intros room index; cbn [for_each].
  - intros H. inversion H; subst. exists []. repeat split. constructor.
  - unfold add_room_device at 1. cbn [fst snd].
    destruct (build_device _ _ _) as [d| |] eqn:Hd; cbn [obind]; try discriminate.
    destruct (index_device d index) as [index1| |] eqn:Hi; cbn [obind]; try discriminate.
    intros H. apply IH in H. destruct H as (devs & Hall & -> & Hindex).
    exists (d :: devs). repeat split.
    + constructor; assumption.
    + cbn [for_each]. now rewrite Hi.
Qed.

Lemma index_device_inv d index index' :
  index_device d index = Ok index' ->
  exists k, key_of (TadoXDevice.serial_number d) = Ok k /\ index' = Dict.set k d index.
Proof.
  unfold index_device. destruct (key_of _) as [k| |]; cbn [obind]; try discriminate.
  intros H. inversion H. now exists k.
Qed.

(** What the flat index holds once [devs] have been indexed in order. *)
Lemma index_all devs index index' :
  for_each devs index_device index = Ok index' ->
  (forall k d,
      Dict.get k index' = Some d ->
      (In d devs /\ key_of (TadoXDevice.serial_number d) = Ok k) \/
      (Dict.get k index = Some d /\
       forall d0, In d0 devs -> key_of (TadoXDevice.serial_number d0) <> Ok k)) /\
  (forall d, In d devs ->
             exists k d', key_of (TadoXDevice.serial_number d) = Ok k /\
                          Dict.get k index' = Some d') /\
  (forall k d, Dict.get k index = Some d -> exists d', Dict.get k index' = Some d').
Proof.
  revert index. induction devs as [|d1 devs IH]; intros index; cbn [for_each].
  - intros H. inversion H; subst. repeat split.
    + intros k d Hget. right. split; [assumption|]. intros d0 [].
    + intros d [].
    + intros k d Hget. eauto.
  - destruct (index_device d1 index) as [index1| |] eqn:Hi; cbn [obind]; try discriminate.
    apply index_device_inv in Hi. destruct Hi as (k1 & Hk1 & ->).
    intros H. destruct (IH _ H) as (Ha & Hb & Hc). repeat split.
    + intros k d Hget. destruct (Ha _ _ Hget) as [[Hin Hk]|[Hold Hfresh]].
      * left. split; [now right|assumption].
      * apply get_set_some in Hold. destruct Hold as [[-> ->]|[Hne Hold]].
        -- left. split; [now left|assumption].
        -- right. split; [assumption|]. intros d0 [<-|Hin]; [congruence|auto].
    + intros d [<-|Hin]; [|auto].
      destruct (Hc k1 d1) as (d' & Hd'); [apply get_set_same|].
      now exists k1, d'.
    + intros k d Hget.
      destruct (get_set_keeps k1 k d1 d index Hget) as (v & Hv). eauto.
Qed.

(** ** SnapshotNormalizer: the rooms *)

(** One turn of the loop over the room states either skips the payload or
    puts a freshly built room, extended with its listed devices, under the
    payload's id, and indexes those devices. *)
Lemma process_room_effect room_devices_map room_data data data' :
  process_room room_devices_map room_data data = Ok data' ->
  data' = data \/
  exists room_id room rk listed devs index',
    truthy room_id = true /\
    key_of room_id = Ok rk /\
    TadoXRoom.room_id room = room_id /\
    TadoXRoom.devices room = [] /\
    listed_for room_devices_map rk = Ok listed /\
    Forall2 (fun device_data d =>
               build_device device_data room_id (TadoXRoom.name room) = Ok d) listed devs /\
    for_each devs index_device (TadoXData.devices data) = Ok index' /\
    data' = TadoXData.mk (TadoXData.home_id data) (TadoXData.home_name data)
              (TadoXData.presence data)
              (Dict.set rk (extend room devs) (TadoXData.rooms data))
              index' (TadoXData.other_devices data).
Proof.
  unfold process_room.
  destruct (py_get room_data "id") as [room_id| |]; cbn [obind]; try discriminate.
  destruct (truthy room_id) eqn:Htruthy; cbn [negb].
  2:{ intros H. inversion H. now left. }
  destruct (build_room room_data room_id) as [room| |] eqn:Hroom; cbn [obind];
    try discriminate.
  destruct (key_of room_id) as [rk| |] eqn:Hkey; cbn [obind]; try discriminate.
  destruct (py_iter _) as [listed| |] eqn:Hlisted; cbn [obind]; try discriminate.
  destruct (for_each listed add_room_device _) as [[room' index']| |] eqn:Hloop;
    cbn [obind]; try discriminate.
  intros H. inversion H; subst; clear H. right.
  apply add_room_devices in Hloop. destruct Hloop as (devs & Hall & -> & Hindex).
  destruct (build_room_fresh _ _ _ Hroom) as [Hid Hdevs].
  exists room_id, room, rk, listed, devs, index'.
  rewrite Hid in Hall. repeat split; assumption || reflexivity.
Qed.

Lemma process_room_phase room_devices_map room_data data data' :
  room_phase room_devices_map data ->
  process_room room_devices_map room_data data = Ok data' ->
  room_phase room_devices_map data'.
Proof.
  intros ([HK HP HI HS HT HO] & HF & Hother) H.
  apply process_room_effect in H.
  destruct H as [->|(room_id & room & rk & listed & devs & index' & Htruthy & Hrk & Hid
                     & Hfresh & Hlisted & Hall & Hindex & ->)].
  { repeat split; assumption. }
  destruct (index_all _ _ _ Hindex) as (Ha & Hb & Hc).
  destruct (extend_fields room devs) as (Eid & Ename & Edevs).
  rewrite Hfresh in Edevs. cbn [app] in Edevs.
  assert (Hbuilt : forall d, In d devs ->
            key_of (TadoXDevice.room_id d) = Ok rk /\
            exists device_data, In device_data listed /\
              TadoXDevice.serial_number d = field_or device_data "serialNumber" (JStr "")).
  { intros d Hd. destruct (Forall2_in_r _ _ _ _ Hall Hd) as (device_data & Hin & Hbuild).
    apply build_device_fields in Hbuild. destruct Hbuild as (Hr & _ & Hserial).
    split; [now rewrite Hr|]. now exists device_data. }
  assert (Hover : forall k d, Dict.get k (TadoXData.devices data) = Some d ->
            key_of (TadoXDevice.room_id d) = Ok rk ->
            exists d1, In d1 devs /\ key_of (TadoXDevice.serial_number d1) = Ok k).
  { intros k d Hget Hroom.
    destruct (HF _ _ Hget) as (rk' & listed' & device_data & Hrk' & Hlisted' & Hin & Hserial).
    assert (rk' = rk) by congruence. subst rk'.
    assert (listed' = listed) by congruence. subst listed'.
    destruct (Forall2_in_l _ _ _ _ Hall Hin) as (d1 & Hd1 & Hbuild).
    apply build_device_fields in Hbuild. destruct Hbuild as (_ & _ & Hserial1).
    exists d1. split; [assumption|]. rewrite Hserial1, <- Hserial. now apply HK. }
  repeat split; cbn [TadoXData.devices TadoXData.rooms TadoXData.other_devices].
  - (* keyed *)
    intros k d Hget. cbn in Hget.
    destruct (Ha _ _ Hget) as [[_ Hk]|[Hold _]]; [assumption|now apply HK].
  - (* rooms_indexed *)
    intros d (k & r & Hr & Hd). cbn in Hr |- *.
    apply get_set_some in Hr. destruct Hr as [[-> ->]|[Hne Hr]].
    + rewrite Edevs in Hd. now apply Hb.
    + destruct (HP d) as (kd & d' & Hkd & Hget); [now exists k, r|].
      destruct (Hc _ _ Hget) as (d'' & Hget'). now exists kd, d''.
  - (* index_listed *)
    intros k d rk0 r Hget Hroom Hr. cbn in Hget, Hr.
    apply get_set_some in Hr. destruct (Ha _ _ Hget) as [[Hin Hk]|[Hold Hfresh']].
    + destruct (Hbuilt _ Hin) as [Hrk' _].
      assert (rk0 = rk) by congruence. subst rk0.
      destruct Hr as [[_ ->]|[Hne _]]; [|congruence]. now rewrite Edevs.
    + destruct Hr as [[-> ->]|[Hne Hr]].
      * destruct (Hover _ _ Hold Hroom) as (d1 & Hd1 & Hk1). now destruct (Hfresh' d1).
      * eapply HI; eauto.
  - (* index_sourced *)
    intros k d Hget. cbn in Hget. left.
    destruct (Ha _ _ Hget) as [[Hin Hk]|[Hold Hfresh']].
    + exists rk, (extend room devs). cbn. rewrite get_set_same, Edevs. auto.
    + destruct (HS _ _ Hold) as [(k0 & r & Hr & Hd)|Hd]; [|rewrite Hother in Hd; destruct Hd].
      destruct (pykey_eqb_spec k0 rk) as [->|Hne].
      * destruct (Hover _ _ Hold (HO _ _ _ Hr Hd)) as (d1 & Hd1 & Hk1).
        now destruct (Hfresh' d1).
      * exists k0, r. cbn. rewrite get_set_other by congruence. auto.
  - (* truthy_keys *)
    intros k r Hr. apply get_set_some in Hr. destruct Hr as [[-> _]|[_ Hr]].
    + now rewrite (json_of_key_of _ _ Hrk).
    + eapply HT; eauto.
  - (* rooms_own *)
    intros k r d Hr Hd. cbn in Hr. apply get_set_some in Hr.
    destruct Hr as [[-> ->]|[_ Hr]].
    + rewrite Edevs in Hd. now apply Hbuilt.
    + eapply HO; eauto.
  - (* index_from_topology *)
    intros k d Hget. cbn in Hget.
    destruct (Ha _ _ Hget) as [[Hin Hk]|[Hold _]]; [|exact (HF _ _ Hold)].
    destruct (Hbuilt _ Hin) as (Hrk' & device_data & Hin' & Hserial).
    now exists rk, listed, device_data.
  - assumption.
Qed.

Lemma empty_room_phase room_devices_map home_id home_name presence :
  room_phase room_devices_map (TadoXData.mk home_id home_name presence [] [] []).
Proof.
  repeat split; try discriminate.
  intros d (k & r & Hr & _). discriminate.
Qed.

Lemma build_rooms_consistent home_id home_name presence rooms_data rooms_devices_data data :
  build_rooms home_id home_name presence rooms_data rooms_devices_data = Ok data ->
  consistent data /\ TadoXData.other_devices data = [].
Proof.
  unfold build_rooms. intros H.
  apply obind_inv_ok in H. destruct H as (rooms_info & _ & H).
  apply obind_inv_ok in H. destruct H as (room_infos & _ & H).
  apply obind_inv_ok in H. destruct H as (room_devices_map & _ & H).
  apply obind_inv_ok in H. destruct H as (room_states & _ & H).
  pose proof (for_each_invariant (room_phase room_devices_map)
                (process_room room_devices_map) room_states
                (fun x s s' Hs Hx => process_room_phase room_devices_map x s s' Hs Hx)
                _ _ (empty_room_phase room_devices_map home_id home_name presence) H)
    as (Hc & _ & Ho).
  now split.
Qed.

(** ** SnapshotNormalizer: the other devices *)

Lemma room_named_some v rooms k r :
  room_named v rooms = Ok (Some (k, r)) ->
  truthy v = true /\ key_of v = Ok k /\ Dict.get k rooms = Some r.
Proof.
  unfold room_named. destruct (truthy v); [|discriminate].
  destruct (key_of v) as [k'| |]; cbn [obind]; try discriminate.
  destruct (Dict.get k' rooms) as [r'|] eqn:E; intros H; inversion H; subst. auto.
Qed.

Lemma room_named_none v rooms k :
  truthy_keys rooms -> room_named v rooms = Ok None -> key_of v = Ok k ->
  Dict.get k rooms = None.
Proof.
  unfold room_named. intros HT H Hk. destruct (truthy v) eqn:Htruthy.
  - rewrite Hk in H. cbn [obind] in H. destruct (Dict.get k rooms); [discriminate|reflexivity].
  - destruct (Dict.get k rooms) as [r|] eqn:E; [|reflexivity].
    apply HT in E. rewrite (json_of_key_of _ _ Hk) in E. congruence.
Qed.

(** One turn of the loop over the other devices: the device is built with
    the room id and room name [associate] gives it, appended to the room it
    names, if any, appended to the other devices, and indexed. *)
Lemma process_other_device_effect room_with_most_devices device_data data data' :
  process_other_device room_with_most_devices device_data data = Ok data' ->
  exists device kd raw device_type,
    py_get device_data "roomId" = Ok raw /\
    py_get_or device_data "type" (JStr "") = Ok device_type /\
    associate room_with_most_devices raw device_type (TadoXData.rooms data)
    = Ok (TadoXDevice.room_id device, TadoXDevice.room_name device) /\
    key_of (TadoXDevice.serial_number device) = Ok kd /\
    TadoXData.devices data' = Dict.set kd device (TadoXData.devices data) /\
    TadoXData.other_devices data' = (TadoXData.other_devices data ++ [device])%list /\
    ((exists k r,
         room_named (TadoXDevice.room_id device) (TadoXData.rooms data) = Ok (Some (k, r)) /\
         TadoXData.rooms data' = Dict.set k (TadoXRoom.append device r) (TadoXData.rooms data))
     \/
     (room_named (TadoXDevice.room_id device) (TadoXData.rooms data) = Ok None /\
      TadoXData.rooms data' = TadoXData.rooms data)).
Proof.
  unfold process_other_device.
  destruct (py_get device_data "connection") as [connection| |]; cbn [obind]; try discriminate.
  destruct (py_get device_data "roomId") as [raw| |]; cbn [obind]; try discriminate.
  destruct (py_get_or device_data "type" _) as [device_type| |]; cbn [obind]; try discriminate.
  destruct (associate _ _ _ _) as [[other_room_id other_room_name]| |] eqn:Hassoc;
    cbn [obind fst snd]; try discriminate.
  destruct (py_get_or device_data "serialNumber" _) as [serial| |]; cbn [obind];
    try discriminate.
  destruct (py_get_or device_data "firmwareVersion" _) as [firmware| |]; cbn [obind];
    try discriminate.
  destruct (py_get_or _ "state" _) as [state| |]; cbn [obind]; try discriminate.
  destruct (room_named other_room_id _) as [home| |] eqn:Hhome; cbn [obind];
    try discriminate.
  destruct (index_device _ _) as [index| |] eqn:Hindex; cbn [obind]; try discriminate.
  intros H. inversion H; subst; clear H.
  apply index_device_inv in Hindex. destruct Hindex as (kd & Hkd & ->).
  exists (TadoXDevice.mk serial device_type firmware state JNull JNull (JFloat 0) JNull
            (JBool false) other_room_id other_room_name), kd, raw, device_type.
  cbn. repeat (split; [reflexivity || assumption|]).
  destruct home as [[k r]|]; [left; now exists k, r|right; now split].
Qed.

Lemma for_each_collect_stable {A S B} (I : S -> Prop) (out : S -> list B)
      (R : S -> A -> B -> Prop) (body : A -> S -> outcome S) xs :
  (forall x s s', I s -> body x s = Ok s' ->
                  I s' /\ exists b, out s' = (out s ++ [b])%list /\ R s' x b) ->
  (forall x s s' x0 b0, I s -> body x s = Ok s' -> R s x0 b0 -> R s' x0 b0) ->
  forall s s', I s -> for_each xs body s = Ok s' ->
               I s' /\ exists bs, out s' = (out s ++ bs)%list /\ Forall2 (R s') xs bs.
Proof.
  intros Hstep Hmono. induction xs as [|x xs IH]; intros s s' Hs; cbn [for_each].
  - intros H. inversion H; subst. split; [assumption|].
    exists []. rewrite app_nil_r. split; [reflexivity|constructor].
  - destruct (body x s) as [s1| |] eqn:E; cbn [obind]; try discriminate.
    intros H. destruct (Hstep _ _ _ Hs E) as (Hs1 & b & Hout & Hb).
    destruct (IH _ _ Hs1 H) as (Hs' & bs & Hout' & Hbs).
    split; [assumption|]. exists (b :: bs). split.
    + now rewrite Hout', Hout, <- app_assoc.
    + constructor; [|assumption].
      clear IH Hbs Hout Hout' Hs' E Hs. revert s1 Hs1 H Hb.
      induction xs as [|x1 xs IH]; intros s1 Hs1; cbn [for_each].
      * intros H. inversion H. now subst.
      * destruct (body x1 s1) as [s2| |] eqn:E; cbn [obind]; try discriminate.
        intros H Hb. apply (IH s2); trivial.
        -- now apply (Hstep _ _ _ Hs1 E).
        -- now apply (Hmono _ _ _ _ _ Hs1 E).
Qed.

Lemma in_get_nodup {V} (d : Dict.t V) k v :
  NoDup (map fst d) -> In (k, v) d -> Dict.get k d = Some v.
Proof.
  induction d as [|[k' v'] d IH]; simpl; [tauto|].
  intros Hnd [Heq|Hin]; inversion Hnd as [|? ? Hk Hd]; subst.
  - inversion Heq; subst. now rewrite pykey_eqb_refl.
  - destruct (pykey_eqb_spec k k') as [->|_]; [|auto].
    exfalso. apply Hk. change k' with (fst (k', v)). now apply in_map.
Qed.

Lemma set_keys_nodup {V} (d : Dict.t V) k v :
  NoDup (map fst d) -> NoDup (map fst (Dict.set k v d)).
Proof.
  intros Hnd. destruct (Dict.get k d) as [v0|] eqn:E.
  - now rewrite (keys_set_present _ k v v0 d E).
  - assert (Hk : ~ In k (map fst d)).
    { clear Hnd. induction d as [|[k' v'] d IH]; simpl in *; [tauto|].
      destruct (pykey_eqb_spec k k') as [->|Hne]; [discriminate|].
      intros [Heq|Hin]; [congruence|now apply IH]. }
    rewrite set_fresh by assumption. rewrite map_app. simpl.
    apply NoDup_app; [assumption|repeat constructor; simpl; tauto|].
    intros k0 Hin [<-|[]]. contradiction.
Qed.

Lemma build_rooms_keys home_id home_name presence rooms_data rooms_devices_data data :
  build_rooms home_id home_name presence rooms_data rooms_devices_data = Ok data ->
  NoDup (map fst (TadoXData.rooms data)).
Proof.
  unfold build_rooms. intros H.
  apply obind_inv_ok in H. destruct H as (rooms_info & _ & H).
  apply obind_inv_ok in H. destruct H as (room_infos & _ & H).
  apply obind_inv_ok in H. destruct H as (room_devices_map & _ & H).
  apply obind_inv_ok in H. destruct H as (room_states & _ & H).
  refine (for_each_invariant (fun d => NoDup (map fst (TadoXData.rooms d)))
            (process_room room_devices_map) room_states _ _ _ _ H); [|constructor].
  intros x s s' Hs Hx. apply process_room_effect in Hx.
  destruct Hx as [->|(? & ? & ? & ? & ? & ? & _ & _ & _ & _ & _ & _ & _ & ->)];
    [assumption|]. cbn. now apply set_keys_nodup.
Qed.

Lemma densest_in rooms k r : densest rooms = Some (k, r) -> In (k, r) rooms.
Proof.
  unfold densest. destruct (_ =? 0); [discriminate|].
  intros H. now apply find_some in H.
Qed.

(** What [associate] gives a device whose raw room id names no room. *)
Lemma associate_unnamed built rooms raw device_type :
  truthy_keys built -> NoDup (map fst built) -> same_rooms built rooms ->
  room_named raw rooms = Ok None ->
  associate (fst (most_devices built)) raw device_type rooms
  = Ok (match (if eq_str device_type "TR04" then densest built else None) with
        | Some (k, r) => (json_of_key k, TadoXRoom.name r)
        | None => (raw, JNull)
        end).
Proof.
  intros HT Hnd Hsame Hnone. unfold associate. rewrite Hnone.
  rewrite most_devices_densest. cbn [fst].
  destruct (eq_str device_type "TR04"); cbn [andb]; [|reflexivity].
  destruct (densest built) as [[k r]|] eqn:Hd; cbn [fst]; [|reflexivity].
  apply densest_in in Hd. apply (in_get_nodup _ _ _ Hnd) in Hd.
  rewrite (HT _ _ Hd). unfold room_at. rewrite key_of_json_of_key. cbn [obind].
  specialize (Hsame k). rewrite Hd in Hsame. cbn in Hsame.
  destruct (Dict.get k rooms) as [r'|]; cbn in Hsame; [|discriminate].
  now inversion Hsame.
Qed.

Lemma room_named_same built rooms raw :
  same_rooms built rooms -> truthy_keys built ->
  room_named raw built = Ok None -> room_named raw rooms = Ok None.
Proof.
  intros Hsame HT. unfold room_named. destruct (truthy raw); [|trivial].
  destruct (key_of raw) as [k| |]; cbn [obind]; trivial.
  specialize (Hsame k).
  destruct (Dict.get k built); [discriminate|].
  destruct (Dict.get k rooms); [discriminate|reflexivity].
Qed.

Lemma same_rooms_truthy built rooms :
  same_rooms built rooms -> truthy_keys built -> truthy_keys rooms.
Proof.
  intros Hsame HT k r Hr. specialize (Hsame k). rewrite Hr in Hsame.
  destruct (Dict.get k built) as [r0|] eqn:E; [|discriminate]. eapply HT; eauto.
Qed.

Lemma reachable_after_append data data' k r device :
  Dict.get k (TadoXData.rooms data) = Some r ->
  TadoXData.rooms data' = Dict.set k (TadoXRoom.append device r) (TadoXData.rooms data) ->
  forall d, reachable data d -> reachable data' d.
Proof.
  intros Hr Hrooms d (k0 & r0 & Hr0 & Hd). unfold reachable. rewrite Hrooms.
  destruct (pykey_eqb_spec k0 k) as [->|Hne].
  - exists k, (TadoXRoom.append device r). rewrite get_set_same. split; [reflexivity|].
    cbn. apply in_or_app. left. congruence.
  - exists k0, r0. rewrite get_set_other by congruence. auto.
Qed.

(** One turn of the loop over the other devices keeps the snapshot
    consistent and the rooms in place. *)
Lemma process_other_device_phase built room_with_most_devices device_data data data' :
  other_phase built data ->
  process_other_device room_with_most_devices device_data data = Ok data' ->
  other_phase built data'.
Proof.
  intros ([HK HP HI HS HT HO] & Hsame) H.
  apply process_other_device_effect in H.
  destruct H as (device & kd & raw & device_type & _ & _ & _ & Hkd & Hindex & Hothers & Hrooms).
  assert (Hgrow : forall d, reachable data d -> reachable data' d).
  { destruct Hrooms as [(k & r & Hnamed & Hrooms)|[_ Hrooms]].
    - apply room_named_some in Hnamed. destruct Hnamed as (_ & _ & Hr).
      now apply (reachable_after_append data data' k r device).
    - intros d (k0 & r0 & Hr0 & Hd). exists k0, r0. now rewrite Hrooms. }
  assert (Hsnap : forall d, in_snapshot data d -> in_snapshot data' d).
  { intros d [Hd|Hd]; [left; auto|right]. rewrite Hothers. apply in_or_app. now left. }
  assert (Hnew : forall rk r,
             key_of (TadoXDevice.room_id device) = Ok rk ->
             Dict.get rk (TadoXData.rooms data') = Some r -> In device (TadoXRoom.devices r)).
  { intros rk r0 Hrk Hr0.
    destruct Hrooms as [(k & r & Hnamed & Hrooms)|[Hnamed Hrooms]].
    - apply room_named_some in Hnamed. destruct Hnamed as (_ & Hk & Hr).
      assert (rk = k) by congruence. subst rk.
      rewrite Hrooms, get_set_same in Hr0. inversion Hr0; subst.
      cbn. apply in_or_app. right. now left.
    - rewrite Hrooms in Hr0.
      rewrite (room_named_none _ _ _ HT Hnamed Hrk) in Hr0. discriminate. }
  split; [split|].
  - intros k d Hget. rewrite Hindex in Hget. apply get_set_some in Hget.
    destruct Hget as [[-> ->]|[_ Hget]]; [assumption|now apply HK].
  - intros d (k & r & Hr & Hd).
    assert (Hcases : d = device \/ reachable data d).
    { destruct Hrooms as [(k0 & r0 & Hnamed & Hrooms)|[_ Hrooms]].
      - apply room_named_some in Hnamed. destruct Hnamed as (_ & _ & Hr0).
        rewrite Hrooms in Hr. apply get_set_some in Hr.
        destruct Hr as [[-> ->]|[_ Hr]].
        + cbn in Hd. apply in_app_or in Hd. destruct Hd as [Hd|[<-|[]]]; [|now left].
          right. now exists k0, r0.
        + right. now exists k, r.
      - rewrite Hrooms in Hr. right. now exists k, r. }
    rewrite Hindex. destruct Hcases as [->|Hd'].
    + exists kd, device. split; [assumption|apply get_set_same].
    + destruct (HP d Hd') as (k1 & d1 & Hk1 & Hget).
      destruct (get_set_keeps kd k1 device d1 _ Hget) as (d2 & Hd2). now exists k1, d2.
  - intros k d rk r Hget Hrk Hr. rewrite Hindex in Hget. apply get_set_some in Hget.
    destruct Hget as [[-> ->]|[_ Hget]]; [now apply (Hnew rk)|].
    destruct Hrooms as [(k0 & r0 & Hnamed & Hrooms)|[_ Hrooms]].
    + apply room_named_some in Hnamed. destruct Hnamed as (_ & _ & Hr0).
      rewrite Hrooms in Hr. apply get_set_some in Hr.
      destruct Hr as [[-> ->]|[_ Hr]].
      * cbn. apply in_or_app. left. eapply HI; eauto.
      * eapply HI; eauto.
    + rewrite Hrooms in Hr. eapply HI; eauto.
  - intros k d Hget. rewrite Hindex in Hget. apply get_set_some in Hget.
    destruct Hget as [[-> ->]|[_ Hget]].
    + right. rewrite Hothers. apply in_or_app. right. now left.
    + apply Hsnap. eapply HS; eauto.
  - destruct Hrooms as [(k0 & r0 & Hnamed & Hrooms)|[_ Hrooms]]; rewrite Hrooms; trivial.
    apply room_named_some in Hnamed. destruct Hnamed as (_ & _ & Hr0).
    intros k r Hr. apply get_set_some in Hr. destruct Hr as [[-> _]|[_ Hr]]; eapply HT; eauto.
  - intros k r d Hr Hd.
    destruct Hrooms as [(k0 & r0 & Hnamed & Hrooms)|[_ Hrooms]]; rewrite Hrooms in Hr.
    + apply room_named_some in Hnamed. destruct Hnamed as (_ & Hk0 & Hr0).
      apply get_set_some in Hr. destruct Hr as [[-> ->]|[_ Hr]]; [|eapply HO; eauto].
      cbn in Hd. apply in_app_or in Hd. destruct Hd as [Hd|[<-|[]]]; [|assumption].
      eapply HO; eauto.
    + eapply HO; eauto.
  - intros k. destruct Hrooms as [(k0 & r0 & Hnamed & Hrooms)|[_ Hrooms]]; rewrite Hrooms;
      [|apply Hsame].
    apply room_named_some in Hnamed. destruct Hnamed as (_ & _ & Hr0).
    rewrite get_set. destruct (pykey_eqb_spec k k0) as [->|_]; [|apply Hsame].
    rewrite <- (Hsame k0), Hr0. reflexivity.
Qed.

Lemma unnamed_not_reachable built data device raw :
  other_phase built data -> truthy_keys built ->
  room_named raw built = Ok None ->
  TadoXDevice.room_id device = raw ->
  ~ reachable data device.
Proof.
  intros ([_ _ _ _ _ HO] & Hsame) HT Hnone Hraw (k & r & Hr & Hd).
  pose proof (HO _ _ _ Hr Hd) as Hk. rewrite Hraw in Hk.
  pose proof (room_named_none _ _ _ HT Hnone Hk) as Hbuilt.
  specialize (Hsame k). rewrite Hr, Hbuilt in Hsame. discriminate.
Qed.

Lemma associated_step built room_with_most_devices device_data data data' :
  truthy_keys built -> NoDup (map fst built) ->
  room_with_most_devices = fst (most_devices built) ->
  other_phase built data ->
  process_other_device room_with_most_devices device_data data = Ok data' ->
  exists device,
    TadoXData.other_devices data' = (TadoXData.other_devices data ++ [device])%list /\
    associated built data' device_data device.
Proof.
  intros HT Hnd -> Hphase H.
  pose proof (process_other_device_phase _ _ _ _ _ Hphase H) as Hphase'.
  destruct Hphase as [_ Hsame].
  apply process_other_device_effect in H.
  destruct H as (device & kd & raw & device_type & Hraw & Hty & Hassoc & _ & _ & Hothers
                 & Hrooms).
  exists device. split; [assumption|].
  intros raw' device_type' Hraw' Hty' Hnone.
  assert (raw' = raw) by congruence. assert (device_type' = device_type) by congruence.
  subst raw' device_type'.
  rewrite (associate_unnamed built _ raw device_type HT Hnd Hsame
             (room_named_same _ _ _ Hsame HT Hnone)) in Hassoc.
  destruct (if eq_str device_type "TR04" then densest built else None) as [[k r]|] eqn:Hd;
    inversion Hassoc as [[Hid Hname]]; clear Hassoc.
  - repeat split; trivial.
    assert (Hk : Dict.get k built = Some r).
    { destruct (eq_str device_type "TR04"); [|discriminate].
      apply (in_get_nodup _ _ _ Hnd). now apply densest_in. }
    pose proof (Hsame k) as Hsk. rewrite Hk in Hsk.
    destruct (Dict.get k (TadoXData.rooms data)) as [r0|] eqn:Hr0; [|discriminate].
    assert (Hnamed : room_named (json_of_key k) (TadoXData.rooms data) = Ok (Some (k, r0))).
    { unfold room_named. rewrite (HT _ _ Hk), key_of_json_of_key. cbn [obind].
      now rewrite Hr0. }
    rewrite <- Hid in Hrooms. rewrite Hnamed in Hrooms.
    destruct Hrooms as [(k' & r' & Heq & Hrooms)|[Heq _]]; [|discriminate].
    inversion Heq; subst k' r'. rewrite Hrooms, get_set_same.
    eexists. split; [reflexivity|]. cbn. apply in_or_app. right. now left.
  - repeat split; trivial.
    now apply (unnamed_not_reachable built data' device raw).
Qed.

Lemma associated_stable built room_with_most_devices device_data data data' x0 b0 :
  truthy_keys built ->
  other_phase built data ->
  process_other_device room_with_most_devices device_data data = Ok data' ->
  associated built data x0 b0 -> associated built data' x0 b0.
Proof.
  intros HT Hphase H Hold raw device_type Hraw Hty Hnone.
  pose proof (process_other_device_phase _ _ _ _ _ Hphase H) as Hphase'.
  specialize (Hold raw device_type Hraw Hty Hnone).
  destruct (if eq_str device_type "TR04" then densest built else None) as [[k r]|].
  - destruct Hold as (Hid & Hname & r' & Hr' & Hin). repeat split; trivial.
    apply process_other_device_effect in H.
    destruct H as (device & _ & _ & _ & _ & _ & _ & _ & _ & _ & Hrooms).
    destruct Hrooms as [(k0 & r0 & Hnamed & Hrooms)|[_ Hrooms]]; rewrite Hrooms.
    + apply room_named_some in Hnamed. destruct Hnamed as (_ & _ & Hr0).
      rewrite get_set. destruct (pykey_eqb_spec k k0) as [->|_]; [|eauto].
      eexists. split; [reflexivity|]. cbn. apply in_or_app. left. congruence.
    + eauto.
  - destruct Hold as (Hid & Hname & _). repeat split; trivial.
    now apply (unnamed_not_reachable built data' b0 raw).
Qed.

Lemma attach_other_devices_inv rooms_devices_data built data :
  consistent built -> NoDup (map fst (TadoXData.rooms built)) ->
  TadoXData.other_devices built = [] ->
  attach_other_devices rooms_devices_data built = Ok data ->
  consistent data /\
  exists others,
    other_device_payloads rooms_devices_data = Ok others /\
    Forall2 (associated (TadoXData.rooms built) data) others (TadoXData.other_devices data).
Proof.
  intros Hc Hnd Hnone. unfold attach_other_devices. cbv zeta.
  destruct (other_device_payloads rooms_devices_data) as [others| |]; cbn [obind];
    try discriminate.
  intros H.
  destruct (for_each_collect_stable (other_phase (TadoXData.rooms built))
              TadoXData.other_devices (associated (TadoXData.rooms built))
              (process_other_device (fst (most_devices (TadoXData.rooms built)))) others)
    with (s := built) (s' := data) as ([Hc' _] & devices & Hout & Hall); trivial.
  - intros x s s' Hs Hx. split.
    + now apply (process_other_device_phase _ _ _ _ _ Hs Hx).
    + apply (associated_step _ _ _ _ _ (cons_truthy_keys Hc) Hnd eq_refl Hs Hx).
  - intros x s s' x0 b0 Hs Hx.
    apply (associated_stable _ _ _ _ _ _ _ (cons_truthy_keys Hc) Hs Hx).
  - split; [assumption|]. intros k. reflexivity.
  - split; [assumption|]. exists others. rewrite Hnone in Hout. cbn in Hout.
    rewrite Hout. now split.
Qed.


(** C6.  Every other-device payload is turned into one device of the
    snapshot's other devices, in order.  When its raw room id names none of
    the rooms built from the room states and its type is TR04, the device
    gets the id and the name of the room that had the greatest device count
    when the rooms were built, the first such room in the rooms' order, and
    is in that room's devices list; when no room has a device, or the type is
    not TR04, the device keeps its raw room id, has no room name and is in no
    room's devices list. *)
Theorem thermostat_joins_densest_room home_id home_name presence rooms_data
        rooms_devices_data built data :
  build_rooms home_id home_name presence rooms_data rooms_devices_data = Ok built ->
  attach_other_devices rooms_devices_data built = Ok data ->
  exists others,
    other_device_payloads rooms_devices_data = Ok others /\
    Forall2 (associated (TadoXData.rooms built) data) others (TadoXData.other_devices data).
Proof.
  intros Hbuilt H.
  destruct (build_rooms_consistent _ _ _ _ _ _ Hbuilt) as [Hc Hnone].
  pose proof (build_rooms_keys _ _ _ _ _ _ Hbuilt) as Hnd.
  now destruct (attach_other_devices_inv _ _ _ Hc Hnd Hnone H) as (_ & Hothers).
Qed.

(** ** OffsetSyncController *)

Lemma three_sf : Prim2SF 3 = S754_finite false 6755399441055744 (-51).
Proof. vm_compute. reflexivity. Qed.

Lemma minus_three_sf : Prim2SF (-3) = S754_finite true 6755399441055744 (-51).
Proof. vm_compute. reflexivity. Qed.

Lemma compare_cont_eq p q : Pos.compare_cont Eq p q = Eq -> p = q.
Proof. apply Pos.compare_eq. Qed.

Lemma SFltb_asym x y : SFltb x y = true -> SFltb y x = false.
Proof.
  unfold SFltb, SFcompare.
  destruct x as [[]|[]| |[] mx ex], y as [[]|[]| |[] my ey]; try discriminate; try reflexivity.
  all: rewrite (Z.compare_antisym ex ey); destruct (ex ?= ey); cbn [CompOpp];
    try discriminate; try reflexivity.
  all: assert (Ha : Pos.compare_cont Eq my mx = CompOpp (Pos.compare_cont Eq mx my))
    by (symmetry; apply (Pos.compare_cont_antisym mx my Eq));
    rewrite Ha; destruct (Pos.compare_cont Eq mx my); cbn [CompOpp];
    try discriminate; reflexivity.
Qed.

Lemma ltb_asym x y : (x <? y)%float = true -> (y <? x)%float = false.
Proof. rewrite !ltb_spec. apply SFltb_asym. Qed.

Lemma below_both c : (c <? -3)%float = true -> (c <? 3)%float = true.
Proof.
  rewrite !ltb_spec, three_sf, minus_three_sf. unfold SFltb, SFcompare.
  destruct (Prim2SF c) as [[]|[]| |[] m e]; try discriminate; reflexivity.
Qed.

(** The clamp of lines 418-419 against [c]'s position relative to the two
    bounds. *)
Lemma clamp_cases (c : float) :
  let d := PyFloat.max2 (-3) (PyFloat.min2 3 c) in
  ((-3 <=? d)%float = true /\ (d <=? 3)%float = true) /\
  ((-3 <=? c)%float = true -> (c <=? 3)%float = true -> d = c) /\
  ((3 <? c)%float = true -> d = 3%float) /\
  ((c <? -3)%float = true -> d = (-3)%float).
Proof.
  cbv zeta. unfold PyFloat.max2, PyFloat.min2.
  destruct (c <? 3)%float eqn:Hlt3.
  - destruct (-3 <? c)%float eqn:Hgt.
    + repeat split; auto using ltb_leb.
      * intros H. apply ltb_asym in H. congruence.
      * intros H. apply ltb_asym in H. congruence.
    + repeat split; try reflexivity.
      * intros Hge _. symmetry. apply Prim2SF_inj.
        revert Hge Hgt. rewrite ltb_spec, leb_spec, minus_three_sf.
        unfold SFltb, SFleb, SFcompare.
        destruct (Prim2SF c) as [[]|[]| |[] m e]; try discriminate.
        destruct (Z.compare_spec (-51) e) as [<-| |]; try discriminate.
        destruct (Pos.compare_cont Eq 6755399441055744 m) eqn:Hm; try discriminate.
        apply compare_cont_eq in Hm. now subst.
      * intros H. apply ltb_asym in H. congruence.
  - repeat split; try reflexivity.
    + intros _ Hle. symmetry. apply Prim2SF_inj.
      revert Hle Hlt3. rewrite ltb_spec, leb_spec, three_sf. unfold SFltb, SFleb, SFcompare.
      destruct (Prim2SF c) as [[]|[]| |[] m e]; try discriminate.
      destruct (Z.compare_spec e (-51)) as [->| |]; try discriminate.
      destruct (Pos.compare_cont Eq m 6755399441055744) eqn:Hm; try discriminate.
      apply compare_cont_eq in Hm. now subst.
    + intros H. apply below_both in H. congruence.
Qed.

Lemma sub_operand a v b : PyFloat.operand v = Some (Ok b) -> PyFloat.sub a v = Ok (a - b)%float.
Proof. intros H. unfold PyFloat.sub. now rewrite H. Qed.

Lemma operand_not_none v r : PyFloat.operand v = Some r -> is_none v = false.
Proof. destruct v; simpl; congruence. Qed.

Section Sync.
Variable C : Const.
Variable float_of_str : string -> option float.
Variable hass : Hass.

(** C4.  For a configured mapping whose reference temperature, measured
  temperature and current offset are all available, the desired offset is
  [round(reference - measured, 1)] clamped into [-3.0, 3.0]: it lies within
  the bounds, equals the rounded difference when that lies within them, and
  is the bound the rounded difference passes otherwise.  The turn of the
  loop queues that offset for the device exactly when
  [abs(desired - current)] exceeds the hysteresis, and otherwise leaves the
  queue as it was. *)
Theorem sync_mapping_queues hysteresis data room_config queue serial
        reference measured current :
  available C float_of_str hass data room_config serial reference measured current ->
  let rounded := PyFloat.round1 (reference - measured) in
  let desired := PyFloat.max2 (-3) (PyFloat.min2 3 rounded) in
  ((-3 <=? desired)%float = true /\ (desired <=? 3)%float = true) /\
  ((-3 <=? rounded)%float = true -> (rounded <=? 3)%float = true -> desired = rounded) /\
  ((3 <? rounded)%float = true -> desired = 3%float) /\
  ((rounded <? -3)%float = true -> desired = (-3)%float) /\
  sync_mapping C float_of_str hass hysteresis data room_config queue
  = Ok (if (hysteresis <? PrimFloat.abs (desired - current))%float
        then Dict.set (KStr serial) desired queue
        else queue).
Proof.
  intros (offset_entity_id & sensor_id & entity & registered & device & device_data & state
          & Hoe & Hoe' & Hts & Hts' & Hent & Hdid & Hdid' & Hdev & Hserial & Hserial'
          & Hdata & Hmeasured & Hcurrent & Hstate & Hunknown & Hunavailable & Hfloat).
  cbv zeta.
  destruct (clamp_cases (PyFloat.round1 (reference - measured))) as (Hb & Hin & Hup & Hlow).
  repeat (split; [assumption|]).
  apply String.eqb_neq in Hoe', Hts', Hdid', Hserial', Hunknown, Hunavailable.
  unfold sync_mapping. rewrite Hoe, Hts, Hoe', Hts'. cbn [orb].
  rewrite Hent. unfold falsy_str. rewrite Hdid, Hdid', Hdev, Hserial. cbn [obind].
  rewrite Hserial', Hdata, (operand_not_none _ _ Hmeasured), Hstate, Hunknown, Hunavailable.
  cbn [orb]. rewrite Hfloat.
  unfold desired_offset, queue_if_needed.
  rewrite (sub_operand _ _ _ Hmeasured). cbn [obind].
  rewrite (sub_operand _ _ _ Hcurrent). cbn [obind].
  destruct (hysteresis <? _)%float; reflexivity.
Qed.
End Sync.

(** ** PollingCoordinator *)

Section Update.
Variable C : Const.
Variable float_of_str : string -> option float.
Variable hass : Hass.

Lemma no_offset_mappings self :
  attribute_truth self "offset_mappings"
  = Raise (PyError "AttributeError"
             "'TadoXDataUpdateCoordinator' object has no attribute 'offset_mappings'").
Proof. reflexivity. Qed.

(** With auto-offset-sync enabled the update never returns a snapshot: the
    test of line 327 reads an attribute the coordinator does not have, and
    the handler of line 336 turns that into [UpdateFailed]. *)
Lemma auto_sync_never_completes self (s : St) data s' :
  auto_offset_sync self = true ->
  _async_update_data C float_of_str hass self s <> (Ok data, s').
Proof.
  intros Hsync H. unfold _async_update_data, update_cycle in H.
  apply try_inv_ok in H. destruct H as [H|(e & s1 & c & _ & Hh & Hc)].
  - do 6 (apply bind_inv_ok in H; destruct H as (? & ? & _ & H)).
    rewrite Hsync in H.
    apply bind_inv_ok in H. destruct H as (? & ? & H & _).
    rewrite no_offset_mappings in H. discriminate.
  - unfold except_Exception in Hh. inversion Hh; subst. discriminate.
Qed.
End Update.

(** ** The client: guards, errors and bounds *)

(** One step into a computation that returned. *)
Ltac peel H :=
  apply bind_inv_ok in H;
  let a := fresh "a" in let s := fresh "s" in let E := fresh "E" in
  destruct H as (a & s & E & H).

Section Client.
Variable C : Const.

Lemma home_guard_unset {A} (k : unit -> M A) s :
  truthy (_home_id (api s)) = false ->
  bind (home_guard) k s = (Raise home_id_not_set, s).
Proof.
  intros H. unfold home_guard, bind, get_api. now rewrite H.
Qed.

Lemma home_url_unset {A} base rest (k : string -> M A) s :
  truthy (_home_id (api s)) = false ->
  bind (home_url base rest) k s = (Raise home_id_not_set, s).
Proof.
  intros H. unfold home_url, bind, get_api. now rewrite H.
Qed.

(** X1.  Before a home id is set (it is [None], or 0), every operation on a
    home raises [TadoXApiError("Home ID not set")] and does nothing else: no
    request is sent and no token is checked or refreshed. *)
Theorem home_id_required (s : St) :
  truthy (_home_id (api s)) = false ->
  refuses (get_home_state C) home_id_not_set s /\
  refuses (get_mobile_devices C) home_id_not_set s /\
  (forall presence, refuses (set_presence C presence) home_id_not_set s) /\
  refuses (get_rooms C) home_id_not_set s /\
  refuses (get_rooms_and_devices C) home_id_not_set s /\
  (forall room_id temperature power termination_type duration_seconds,
      refuses (set_room_temperature C room_id temperature power termination_type
                 duration_seconds) home_id_not_set s) /\
  (forall room_id termination_type duration_seconds,
      refuses (set_room_off C room_id termination_type duration_seconds)
        home_id_not_set s) /\
  (forall room_id, refuses (resume_schedule C room_id) home_id_not_set s) /\
  (forall room_id, refuses (set_boost_mode C room_id) home_id_not_set s) /\
  refuses (resume_all_schedules C) home_id_not_set s /\
  (forall room_id enabled,
      refuses (set_open_window_detection C room_id enabled) home_id_not_set s) /\
  (forall device_serial offset,
      refuses (set_device_temperature_offset C device_serial offset) home_id_not_set s) /\
  (forall offsets,
      refuses (set_multiple_device_temperature_offsets C offsets) home_id_not_set s).
Proof.
  intros H. unfold refuses.
  repeat split; intros;
    first [ apply (home_url_unset _ _ _ _ H)
          | apply (home_guard_unset _ _ H)
          | unfold set_multiple_device_temperature_offsets, bind, get_api; now rewrite H ].
Qed.

End Client.
Section Client2.
Variable C : Const.

Lemma bind_inv_raise {A B} (m : M A) (k : A -> M B) s e s' :
  bind m k s = (Raise e, s') ->
  m s = (Raise e, s') \/ exists a s1, m s = (Ok a, s1) /\ k a s1 = (Raise e, s').
Proof.
  unfold bind. destruct (m s) as [[a|e0|w] s1]; intros H; try discriminate.
  - right. now exists a, s1.
  - inversion H; subst. now left.
Qed.

Lemma lift_inv_raise {A} (o : outcome A) s e s' :
  lift o s = (Raise e, s') -> o = Raise e /\ s' = s.
Proof. unfold lift. intros H. now inversion H. Qed.

Lemma ensure_not_client_error s e s' :
  ensure_valid_token C s = (Raise e, s') -> is_client_error e = false.
Proof.
  unfold ensure_valid_token, bind at 1, get_api.
  destruct (negb (truthy (_access_token (api s)))).
  - intros H. now inversion H.
  - destruct (_token_expiry (api s)) as [expiry|]; [|discriminate].
    intros H. apply bind_inv_raise in H. destruct H as [H|(now & s1 & _ & H)]; [discriminate|].
    apply bind_inv_raise in H.
    destruct H as [H|(now' & s2 & _ & H)]; [destruct (is_aware expiry); discriminate|].
    apply bind_inv_raise in H. destruct H as [H|(threshold & s3 & _ & H)].
    + apply lift_inv_raise in H. destruct H as [H _]. unfold Time.add in H.
      destruct (_ && _); [destruct expiry; discriminate|]. now inversion H.
    + destruct (instant threshold <=? instant now'); [|discriminate].
      apply bind_inv_raise in H. destruct H as [H|(b & s4 & _ & H)]; [|discriminate].
      now apply (refresh_not_client_error C _ _ _ H).
Qed.

Lemma wrapped_not_client_error {A} (m : M A) (k : exn -> M A) s e s' :
  (forall err s1 e1 s2, k err s1 = (Raise e1, s2) -> is_client_error e1 = false) ->
  try_except m (except_ClientError k) s = (Raise e, s') -> is_client_error e = false.
Proof.
  intros Hk. unfold try_except, except_ClientError.
  destruct (m s) as [[a|e0|w] s1]; try discriminate.
  destruct (is_client_error e0) eqn:E.
  - apply Hk.
  - intros H. now inversion H; subst.
Qed.

Lemma request_not_client_error method url json_data s e s' :
  _request C method url json_data s = (Raise e, s') -> is_client_error e = false.
Proof.
  unfold _request. intros H.
  apply bind_inv_raise in H. destruct H as [H|([] & s1 & _ & H)].
  { now apply (ensure_not_client_error _ _ _ H). }
  apply bind_inv_raise in H. destruct H as [H|(a & s2 & _ & H)]; [discriminate|].
  apply bind_inv_raise in H. destruct H as [H|(request & s3 & _ & H)].
  { apply lift_inv_raise in H. destruct H as [H _]. unfold api_request in H.
    destruct (py_str (_access_token a)) as [t|e0|w] eqn:E; try discriminate.
    destruct (_access_token a) as [| [] | | | | |]; discriminate. }
  revert H. unfold network_error. apply wrapped_not_client_error.
  intros err s4 e1 s5 H1. now inversion H1.
Qed.

Lemma poll_once_not_client_error device_code interval s e s' :
  poll_once C device_code interval s = (Raise e, s') -> is_client_error e = false.
Proof.
  unfold poll_once. apply wrapped_not_client_error.
  intros err s1 e1 s2 H. discriminate.
Qed.

Lemma poll_loop_not_client_error fuel device_code interval timeout start_time s e s' :
  poll_loop C fuel device_code interval timeout start_time s = (Raise e, s') ->
  is_client_error e = false.
Proof.
  revert s. induction fuel as [|fuel IH]; intros s; simpl; [discriminate|].
  unfold bind at 1, now_local.
  destruct (_ <? timeout); [|discriminate].
  intros H. apply bind_inv_raise in H. destruct H as [H|(r & s1 & _ & H)].
  - now apply (poll_once_not_client_error _ _ _ _ _ H).
  - destruct r as [b|]; [discriminate|]. now apply (IH _ H).
Qed.

(** X2.  No [aiohttp.ClientError] leaves the client: whatever
    [ensure_valid_token], [refresh_access_token], [_request] or
    [poll_for_token] raises, be the network down or a body unreadable, is
    not a [ClientError]. *)
Theorem client_errors_never_escape (s : St) (e : exn) (s' : St) :
  ensure_valid_token C s = (Raise e, s') \/
  refresh_access_token C s = (Raise e, s') \/
  (exists method url json_data, _request C method url json_data s = (Raise e, s')) \/
  (exists fuel device_code interval timeout,
      poll_for_token C fuel device_code interval timeout s = (Raise e, s')) ->
  is_client_error e = false.
Proof.
  intros [H|[H|[(method & url & json_data & H)|(fuel & device_code & interval & timeout & H)]]].
  - now apply (ensure_not_client_error _ _ _ H).
  - now apply (refresh_not_client_error C _ _ _ H).
  - now apply (request_not_client_error _ _ _ _ _ _ H).
  - unfold poll_for_token, bind at 1, now_local in H.
    now apply (poll_loop_not_client_error _ _ _ _ _ _ _ _ H).
Qed.

End Client2.
Section Client3.
Variable C : Const.

Lemma refresh_counted s :
  refreshes (events (world (snd (refresh_access_token C s))))
  = S (refreshes (events (world s))) /\
  (requests (events (world (snd (refresh_access_token C s))))
   <= S (requests (events (world s))))%nat.
Proof.
  rewrite (refresh_log C s). destruct (truthy _); simpl; split; auto.
Qed.

Lemma ensure_checked s expiry :
  truthy (_access_token (api s)) = true ->
  _token_expiry (api s) = Some expiry ->
  threshold_in_range expiry ->
  ensure_valid_token C s
  = if due (world s) expiry
    then bind (refresh_access_token C) (fun _ => ret tt) s
    else (Ok tt, s).
Proof.
  intros Htok Hexp [Hlo Hhi].
  unfold ensure_valid_token, bind at 1, get_api. rewrite Htok, Hexp. cbn [negb].
  unfold bind at 1, now_utc. unfold bind at 1.
  assert (Hth : Time.add expiry (- (60 * second))
                = Ok (match expiry with
                      | Naive w => Naive (w + - (60 * second))
                      | Aware w off => Aware (w + - (60 * second)) off
                      end)).
  { unfold Time.add.
    replace (wall_of expiry + - (60 * second)) with (wall_of expiry - 60 * second) by lia.
    destruct (Z.leb_spec min_wall (wall_of expiry - 60 * second)); [|lia].
    destruct (Z.leb_spec (wall_of expiry - 60 * second) max_wall); [|lia].
    destruct expiry; cbn [andb wall_of];
      now replace (wall - 60 * second) with (wall + - (60 * second)) by lia. }
  destruct expiry as [wall|wall off]; cbn [is_aware ret now_local];
    unfold bind at 1, lift; rewrite Hth; cbn [instant due].
  all: match goal with
       | |- (if ?a <=? ?b then _ else _) _ = (if ?c <=? ?d then _ else _) =>
           destruct (Z.leb_spec a b); destruct (Z.leb_spec c d); try lia; reflexivity
       end.
Qed.

(** X3.  [ensure_valid_token] raises when no access token is held and does
    nothing when no expiry is stored.  With an expiry stored it refreshes
    exactly when 60 seconds or fewer are left, an aware expiry being set
    against the UTC clock and a naive one against the local wall clock: it
    then enters [refresh_access_token] once and ends as that call does;
    otherwise it leaves the client and the world as they were. *)
Theorem ensure_valid_token_refreshes_when_due (s : St) :
  (truthy (_access_token (api s)) = false ->
   refuses (ensure_valid_token C) (TadoXAuthError "Not authenticated") s)
  /\
  (truthy (_access_token (api s)) = true ->
   (_token_expiry (api s) = None -> ensure_valid_token C s = (Ok tt, s)) /\
   (forall expiry,
       _token_expiry (api s) = Some expiry ->
       threshold_in_range expiry ->
       (due (world s) expiry = false -> ensure_valid_token C s = (Ok tt, s)) /\
       (due (world s) expiry = true ->
        snd (ensure_valid_token C s) = snd (refresh_access_token C s) /\
        fst (ensure_valid_token C s)
        = match fst (refresh_access_token C s) with
          | Ok _ => Ok tt
          | Raise e => Raise e
          | Beyond why => Beyond why
          end /\
        refreshes (events (world (snd (ensure_valid_token C s))))
        = S (refreshes (events (world s)))))).
Proof.
  split.
  - intros H. unfold refuses, ensure_valid_token, bind, get_api. now rewrite H.
  - intros Htok. split.
    + intros H. unfold ensure_valid_token, bind, get_api. now rewrite Htok, H.
    + intros expiry Hexp Hrange. rewrite (ensure_checked s expiry Htok Hexp Hrange).
      split; intros Hdue; rewrite Hdue; [reflexivity|].
      pose proof (refresh_counted s) as [Hcount _]. unfold bind.
      destruct (refresh_access_token C s) as [[b|e|w] s1]; cbn in *; auto.
Qed.

End Client3.
Section Client4.
Variable C : Const.

Lemma add_in_range d delta d' :
  Time.add d delta = Ok d' -> min_wall <= wall_of d' <= max_wall.
Proof.
  unfold Time.add.
  destruct (Z.leb_spec min_wall (wall_of d + delta)) as [Hlo|Hlo]; cbn [andb]; [|discriminate].
  destruct (Z.leb_spec (wall_of d + delta) max_wall) as [Hhi|Hhi]; [|discriminate].
  intros H. inversion H; subst. destruct d; cbn [wall_of] in *; lia.
Qed.

Lemma assign_expiry_inv expiry s u s' :
  assign (with_token_expiry expiry) s = (Ok u, s') ->
  _token_expiry (api s') = Some expiry.
Proof. cbv [assign bind get_api set_api]. intros H. now inversion H. Qed.

Lemma store_tokens_expiry_range response s b s' :
  store_tokens response s = (Ok b, s') ->
  exists expiry,
    _token_expiry (api s') = Some expiry /\ min_wall <= wall_of expiry <= max_wall.
Proof.
  unfold store_tokens. destruct (negb _).
  { cbv [bind lift raise]. destruct (text response); discriminate. }
  intros H.
  do 11 peel H. inversion H; subst; clear H.
  match goal with
  | Hadd : lift (Time.add _ _) _ = (Ok ?e, _),
    Hassign : assign (with_token_expiry ?e) _ = _ |- _ =>
      exists e; apply lift_inv_ok in Hadd; destruct Hadd as [Hadd _];
      split; [exact (assign_expiry_inv _ _ _ _ Hassign)|exact (add_in_range _ _ _ Hadd)]
  end.
Qed.

Lemma issue_token_expiry_range data s u s' :
  issue_token data s = (Ok u, s') ->
  exists expiry,
    _token_expiry (api s') = Some expiry /\ min_wall <= wall_of expiry <= max_wall.
Proof.
  unfold issue_token. intros H.
  do 8 peel H.
  match goal with
  | Hadd : lift (Time.add _ _) _ = (Ok ?e, _) |- _ =>
      exists e; apply lift_inv_ok in Hadd; destruct Hadd as [Hadd _];
      split; [exact (assign_expiry_inv _ _ _ _ H)|exact (add_in_range _ _ _ Hadd)]
  end.
Qed.

(** X4.  Storing and checking agree after a refresh.  The expiry
    [refresh_access_token] stores is aware, the UTC clock plus the lifetime
    the response declares.  If that lifetime exceeds 60 seconds the next
    [ensure_valid_token] finds the token valid and does nothing; if it is 60
    seconds or less, the next [ensure_valid_token] refreshes again, and so
    would every request. *)
Theorem refreshed_token_is_checked (s : St) b (s' : St) :
  refresh_access_token C s = (Ok b, s') ->
  truthy (_access_token (api s')) = true ->
  clock_ahead (utc_now (world s')) ->
  exists ttl,
    _token_expiry (api s') = Some (Aware (utc_now (world s') + ttl * second) 0) /\
    (60 < ttl -> ensure_valid_token C s' = (Ok tt, s')) /\
    (0 <= ttl <= 60 ->
     refreshes (events (world (snd (ensure_valid_token C s'))))
     = S (refreshes (events (world s')))).
Proof.
  intros H Htok Hnow.
  apply refresh_inv_ok in H. cbv zeta in H. destruct H as (_ & response & took & _ & H).
  destruct (store_tokens_expiry_range _ _ _ _ H) as (expiry & Hexp & Hrange).
  apply store_tokens_inv_ok in H.
  destruct H as (_ & _ & Hworld & kv & tok & ttl & _ & _ & _ & Hapi).
  rewrite Hapi in Hexp. cbn [with_token_expiry _token_expiry] in Hexp.
  inversion Hexp; subst expiry; clear Hexp.
  exists ttl. rewrite Hworld. split; [now rewrite Hapi|].
  assert (Hclock : utc_now (world s') = utc_now (world s) + took) by now rewrite Hworld.
  rewrite <- Hworld in *. cbn [wall_of] in Hrange.
  assert (Hstored : _token_expiry (api s')
                    = Some (Aware (utc_now (world s') + ttl * second) 0))
    by now rewrite Hapi.
  split; intros Httl.
  - rewrite (ensure_checked C s' _ Htok Hstored) by (unfold threshold_in_range; cbn [wall_of]; unfold clock_ahead, min_wall, max_wall, second in *; lia).
    cbn [due]. destruct (Z.leb_spec (utc_now (world s') + ttl * second - 0 - 60 * second)
                           (utc_now (world s'))) as [Hle|Hle];
      [unfold second in *; lia|reflexivity].
  - rewrite (ensure_checked C s' _ Htok Hstored) by (unfold threshold_in_range; cbn [wall_of]; unfold clock_ahead, min_wall, max_wall, second in *; lia).
    cbn [due]. destruct (Z.leb_spec (utc_now (world s') + ttl * second - 0 - 60 * second)
                           (utc_now (world s'))) as [Hle|Hle];
      [|unfold second in *; lia].
    pose proof (refresh_counted C s') as [Hcount _]. unfold bind.
    destruct (refresh_access_token C s') as [[b'|e|w] s1]; cbn in *; auto.
Qed.

Lemma poll_loop_expiry_range fuel device_code interval timeout start_time s s' :
  poll_loop C fuel device_code interval timeout start_time s = (Ok true, s') ->
  exists expiry,
    _token_expiry (api s') = Some expiry /\ min_wall <= wall_of expiry <= max_wall.
Proof.
  revert s. induction fuel as [|fuel IH]; intros s; cbn [poll_loop].
  - discriminate.
  - cbv [bind now_local]. destruct (_ <? timeout); [|discriminate].
    destruct (poll_once C device_code interval s) as [[[b|]| |] s1] eqn:Honce;
      try discriminate.
    + unfold ret. intros H. inversion H; subst; clear H.
      apply poll_once_inv_some in Honce. destruct Honce as (response & took & _ & H).
      apply poll_response_inv_some in H. destruct H as (_ & _ & data & _ & Hissue).
      exact (issue_token_expiry_range _ _ _ _ Hissue).
    + apply IH.
Qed.

(** X5.  Storing and checking agree after the device flow as well, though
    the expiry [poll_for_token] stores is naive: it is the local wall clock
    plus the declared lifetime, and [ensure_valid_token] sets a naive expiry
    against the local wall clock, so the UTC offset cancels.  A lifetime
    above 60 seconds leaves the next [ensure_valid_token] with nothing to
    do; one of 60 seconds or less makes it refresh at once. *)
Theorem polled_token_is_checked fuel device_code interval timeout (s s' : St) :
  poll_for_token C fuel device_code interval timeout s = (Ok true, s') ->
  truthy (_access_token (api s')) = true ->
  clock_ahead (utc_now (world s') + utc_offset (world s')) ->
  exists ttl,
    _token_expiry (api s')
    = Some (Naive (utc_now (world s') + utc_offset (world s') + ttl * second)) /\
    (60 < ttl -> ensure_valid_token C s' = (Ok tt, s')) /\
    (0 <= ttl <= 60 ->
     refreshes (events (world (snd (ensure_valid_token C s'))))
     = S (refreshes (events (world s')))).
Proof.
  intros H Htok Hnow.
  assert (Hrange : exists expiry,
             _token_expiry (api s') = Some expiry /\ min_wall <= wall_of expiry <= max_wall).
  { unfold poll_for_token in H. cbv [bind now_local] in H.
    exact (poll_loop_expiry_range _ _ _ _ _ _ _ H). }
  assert (Hissued : issued C device_code s s').
  { unfold poll_for_token in H. cbv [bind now_local] in H.
    exact (poll_loop_issued C _ _ _ _ _ s s s' eq_refl H). }
  destruct Hissued as (_ & _ & _ & ttl & _ & _ & _ & _ & _ & _ & _ & Hstored).
  destruct Hrange as (expiry & Hexp & Hrange).
  rewrite Hstored in Hexp. inversion Hexp; subst expiry; clear Hexp. cbn [wall_of] in Hrange.
  exists ttl. split; [exact Hstored|].
  split; intros Httl.
  - rewrite (ensure_checked C s' _ Htok Hstored)
      by (unfold threshold_in_range; cbn [wall_of];
          unfold clock_ahead, min_wall, max_wall, second in *; lia).
    cbn [due].
    destruct (Z.leb_spec (utc_now (world s') + utc_offset (world s') + ttl * second
                          - 60 * second)
                (utc_now (world s') + utc_offset (world s'))) as [Hle|Hle];
      [unfold second in *; lia|reflexivity].
  - rewrite (ensure_checked C s' _ Htok Hstored)
      by (unfold threshold_in_range; cbn [wall_of];
          unfold clock_ahead, min_wall, max_wall, second in *; lia).
    cbn [due].
    destruct (Z.leb_spec (utc_now (world s') + utc_offset (world s') + ttl * second
                          - 60 * second)
                (utc_now (world s') + utc_offset (world s'))) as [Hle|Hle];
      [|unfold second in *; lia].
    pose proof (refresh_counted C s') as [Hcount _]. unfold bind.
    destruct (refresh_access_token C s') as [[b'|e|w] s1]; cbn in *; auto.
Qed.

End Client4.
Section Client5.
Variable C : Const.

Lemma answer_stable response s : snd (answer response s) = s.
Proof.
  unfold answer. destruct (negb _).
  - cbv [bind lift raise]. now destruct (text response).
  - now destruct (_ || _).
Qed.

Lemma exchange_answered method url json_data request s1 response took :
  server (world s1) (events (world s1)) request = (Answer response, took) ->
  status response <> 401 ->
  exchange C method url json_data request s1 = answer response (sent request took s1).
Proof.
  intros Hreply Hst. unfold exchange. rewrite (bind_ok _ _ _ _ _ (send_answer _ _ _ _ Hreply)).
  now destruct (Z.eqb_spec (status response) 401).
Qed.

(** X6.  A request whose first answer is not a 401 is the only request
    sent, and no refresh follows it.  A 204 gives [None]; a 200 gives [None]
    when the content length is 0 and the parsed body otherwise; any other
    status raises [TadoXApiError] with the status and the body text. *)
Theorem request_answered method url json_data (s s1 : St) request response took :
  ensure_valid_token C s = (Ok tt, s1) ->
  api_request method url (_access_token (api s1)) json_data = Ok request ->
  server (world s1) (events (world s1)) request = (Answer response, took) ->
  status response <> 401 ->
  snd (_request C method url json_data s) = sent request took s1 /\
  (status response = 204 -> fst (_request C method url json_data s) = Ok JNull) /\
  (status response = 200 -> zero_length response = true ->
   fst (_request C method url json_data s) = Ok JNull) /\
  (forall v,
      status response = 200 -> zero_length response = false ->
      body_json response = Ok v ->
      fst (_request C method url json_data s) = Ok v) /\
  (forall body,
      status response <> 200 -> status response <> 204 -> text response = Ok body ->
      fst (_request C method url json_data s) = Raise (api_error (status response) body)).
Proof.
  intros Hensure Hrequest Hreply Hst.
  rewrite (request_unfold C _ _ _ _ _ _ Hensure Hrequest).
  unfold try_except. rewrite (exchange_answered _ _ _ _ _ _ _ Hreply Hst).
  pose proof (answer_stable response (sent request took s1)) as Hstable.
  unfold answer in *.
  destruct (Z.eqb_spec (status response) 200) as [H200|H200];
    destruct (Z.eqb_spec (status response) 204) as [H204|H204];
    cbn [orb negb] in *; try lia.
  - destruct (zero_length response) eqn:Hzero; cbn [orb] in *.
    + repeat split; try reflexivity; try lia; intros; discriminate.
    + unfold lift in *. destruct (body_json response) as [v|e|w] eqn:Hbody.
      * repeat split; try lia; try discriminate.
        intros v0 _ _ Hv. now inversion Hv.
      * unfold network_error, except_ClientError.
        destruct (is_client_error e); cbn;
          repeat split; try lia; try discriminate.
      * repeat split; try lia; try discriminate.
  - rewrite orb_true_r in *. repeat split; try reflexivity; try lia; intros; try lia.
  - cbv [bind lift raise] in *. destruct (text response) as [body|e|w] eqn:Htext.
    + cbn. repeat split; try lia. intros body0 _ _ Hb. now inversion Hb.
    + unfold network_error, except_ClientError.
      destruct (is_client_error e); cbn; repeat split; try lia; try discriminate.
    + repeat split; try lia; try discriminate.
Qed.

End Client5.
Section Client6.
Variable C : Const.

Lemma refreshes_app l1 l2 : refreshes (l1 ++ l2) = (refreshes l1 + refreshes l2)%nat.
Proof. induction l1 as [|[]]; simpl; auto. Qed.

Lemma requests_app l1 l2 : requests (l1 ++ l2) = (requests l1 + requests l2)%nat.
Proof. induction l1 as [|[]]; simpl; auto. Qed.

Lemma grows_weaken {A} (m : M A) r q r' q' :
  grows m r q -> (r <= r')%nat -> (q <= q')%nat -> grows m r' q'.
Proof.
  intros H Hr Hq s. destruct (H s) as (added & Heq & Hr' & Hq').
  exists added. repeat split; [assumption|lia|lia].
Qed.

Lemma grows_idle {A} (m : M A) : keeps whole m -> grows m 0 0.
Proof.
  intros H s. exists []. specialize (H s). unfold whole in H. rewrite H.
  repeat split; simpl; lia.
Qed.

Lemma grows_bind {A B} (m : M A) (k : A -> M B) r1 q1 r2 q2 :
  grows m r1 q1 -> (forall a, grows (k a) r2 q2) -> grows (bind m k) (r1 + r2) (q1 + q2).
Proof.
  intros Hm Hk s. unfold bind. destruct (Hm s) as (added & Heq & Hr & Hq).
  destruct (m s) as [[a|e|w] s1]; cbn [snd] in *.
  - destruct (Hk a s1) as (added' & Heq' & Hr' & Hq').
    exists (added' ++ added)%list. rewrite Heq', Heq, app_assoc, refreshes_app, requests_app.
    repeat split; lia.
  - exists added. repeat split; [assumption|lia|lia].
  - exists added. repeat split; [assumption|lia|lia].
Qed.

Lemma grows_try {A} (m : M A) h r1 q1 r2 q2 :
  grows m r1 q1 -> (forall e c, h e = Some c -> grows c r2 q2) ->
  grows (try_except m h) (r1 + r2) (q1 + q2).
Proof.
  intros Hm Hh s. unfold try_except. destruct (Hm s) as (added & Heq & Hr & Hq).
  destruct (m s) as [[a|e|w] s1]; cbn [snd] in *.
  - exists added. repeat split; [assumption|lia|lia].
  - destruct (h e) as [c|] eqn:E.
    + destruct (Hh e c E s1) as (added' & Heq' & Hr' & Hq').
      exists (added' ++ added)%list. rewrite Heq', Heq, app_assoc, refreshes_app, requests_app.
      repeat split; lia.
    + exists added. repeat split; [assumption|lia|lia].
  - exists added. repeat split; [assumption|lia|lia].
Qed.

Lemma grows_send request : grows (send request) 0 1.
Proof.
  intros s. exists [Sent request]. unfold send.
  destruct (server _ _ _) as [[resp|e] took]; cbn; repeat split; lia.
Qed.

Lemma grows_refresh : grows (refresh_access_token C) 1 1.
Proof.
  intros s. rewrite (refresh_log C s). destruct (truthy _).
  - exists [Sent (refresh_request C (_refresh_token (api s))); Refreshing].
    cbn. repeat split; lia.
  - exists [Refreshing]. cbn. repeat split; lia.
Qed.

Lemma grows_ensure : grows (ensure_valid_token C) 1 1.
Proof.
  unfold ensure_valid_token.
  apply (grows_bind _ _ 0 0 1 1); [apply grows_idle; now intros s|]. intros a.
  destruct (negb _); [apply (grows_weaken _ 0 0); [apply grows_idle; now intros s|lia|lia]|].
  destruct (_token_expiry a) as [expiry|];
    [|apply (grows_weaken _ 0 0); [apply grows_idle; now intros s|lia|lia]].
  apply (grows_bind _ _ 0 0 1 1); [apply grows_idle; now intros s|]. intros now.
  apply (grows_bind _ _ 0 0 1 1);
    [apply grows_idle; destruct (is_aware expiry); now intros s|]. intros now'.
  apply (grows_bind _ _ 0 0 1 1); [apply grows_idle; now intros s|]. intros threshold.
  destruct (_ <=? _); [|apply (grows_weaken _ 0 0); [apply grows_idle; now intros s|lia|lia]].
  apply (grows_bind _ _ 1 1 0 0); [apply grows_refresh|].
  intros b. apply grows_idle. now intros s.
Qed.

Lemma grows_answer response : grows (answer response) 0 0.
Proof.
  apply grows_idle. intros s. unfold whole. now rewrite answer_stable.
Qed.

Lemma grows_retry method url json_data :
  grows (retry_after_refresh C method url json_data) 1 2.
Proof.
  unfold retry_after_refresh.
  apply (grows_bind _ _ 1 1 0 1); [apply grows_refresh|]. intros b.
  apply (grows_bind _ _ 0 0 0 1); [apply grows_idle; now intros s|]. intros a.
  apply (grows_bind _ _ 0 0 0 1); [apply grows_idle; now intros s|]. intros retry.
  apply (grows_bind _ _ 0 1 0 0); [apply grows_send|]. intros retry_response.
  apply grows_idle. intros s. unfold whole.
  destruct (negb _).
  - cbv [bind lift raise]. now destruct (text retry_response).
  - now destruct (zero_length retry_response).
Qed.

Lemma grows_exchange method url json_data request :
  grows (exchange C method url json_data request) 1 3.
Proof.
  unfold exchange.
  apply (grows_bind _ _ 0 1 1 2); [apply grows_send|]. intros response.
  destruct (_ =? 401); [apply grows_retry|].
  apply (grows_weaken _ 0 0); [apply grows_answer|lia|lia].
Qed.

(** X7.  One call of [_request] enters [refresh_access_token] at most twice
    (once because the token is about to expire, once because of a 401) and
    sends at most four requests, token requests included, whatever the
    server answers; it only adds to the log. *)
Theorem request_is_bounded method url json_data (s : St) :
  exists added,
    events (world (snd (_request C method url json_data s)))
    = (added ++ events (world s))%list /\
    (refreshes added <= 2)%nat /\ (requests added <= 4)%nat.
Proof.
  revert s. change (grows (_request C method url json_data) 2 4).
  unfold _request.
  apply (grows_bind _ _ 1 1 1 3); [apply grows_ensure|]. intros _.
  apply (grows_bind _ _ 0 0 1 3); [apply grows_idle; now intros s|]. intros a.
  apply (grows_bind _ _ 0 0 1 3); [apply grows_idle; now intros s|]. intros request.
  apply (grows_try _ _ 1 3 0 0); [apply grows_exchange|].
  intros e c Hc. unfold network_error, except_ClientError in Hc.
  destruct (is_client_error e); inversion Hc. apply grows_idle. now intros s0.
Qed.

End Client6.
Section Client7.
Variable C : Const.

Lemma dict_or_empty_object v : is_object (dict_or_empty v) = true.
Proof. now destruct v. Qed.

Lemma list_or_empty_list v : is_list (list_or_empty v) = true.
Proof. now destruct v. Qed.

(** X8.  Whatever JSON the server sends, a getter that returns gives a value
    of the type it declares: [get_me], [get_home_state] and
    [get_rooms_and_devices] an object, [get_rooms] and [get_mobile_devices] a
    list (the empty one when the body is of another type, or when there is no
    body).  [get_homes] is the [homes] entry of what [get_me] returns, the
    empty list when there is none, and needs no home id. *)
Theorem getters_return_containers (s : St) v (s' : St) :
  (get_me C s = (Ok v, s') -> is_object v = true) /\
  (get_home_state C s = (Ok v, s') -> is_object v = true) /\
  (get_rooms_and_devices C s = (Ok v, s') -> is_object v = true) /\
  (get_rooms C s = (Ok v, s') -> is_list v = true) /\
  (get_mobile_devices C s = (Ok v, s') -> is_list v = true) /\
  (get_homes C s = (Ok v, s') ->
   exists me, get_me C s = (Ok me, s') /\ v = field_or me "homes" (JList [])).
Proof.
  repeat split.
  - unfold get_me. intros H. peel H. inversion H. apply dict_or_empty_object.
  - unfold get_home_state. intros H. peel H. peel H. inversion H. apply dict_or_empty_object.
  - unfold get_rooms_and_devices. intros H. peel H. peel H. inversion H.
    apply dict_or_empty_object.
  - unfold get_rooms. intros H. peel H. peel H. inversion H. apply list_or_empty_list.
  - unfold get_mobile_devices. intros H. peel H. peel H. inversion H.
    apply list_or_empty_list.
  - unfold get_homes. intros H. peel H. exists a.
    assert (Hobj : is_object a = true).
    { unfold get_me in E. peel E. inversion E. apply dict_or_empty_object. }
    destruct a; try discriminate. apply lift_inv_ok in H. destruct H as [H ->].
    split; [assumption|]. cbn in H. now inversion H.
Qed.

(** X9.  [start_device_auth] raises nothing but [TadoXAuthError], and what it
    returns is the JSON object of a 200 answer: a body that is not an object
    fails at the [result.get] of the log line.  The [TadoXAuthError] raised
    for a status other than 200 is raised inside the [try], so the last
    handler catches it and reports it as an unexpected error. *)
Theorem start_device_auth_spec (s : St) :
  (forall e s', start_device_auth C s = (Raise e, s') -> exists msg, e = TadoXAuthError msg)
  /\
  (forall v s',
      start_device_auth C s = (Ok v, s') ->
      is_object v = true /\
      exists response took,
        server (world s) (events (world s)) (device_auth_request C) = (Answer response, took) /\
        status response = 200 /\ body_json response = Ok v /\
        s' = sent (device_auth_request C) took s)
  /\
  (forall response took body,
      server (world s) (events (world s)) (device_auth_request C) = (Answer response, took) ->
      status response <> 200 -> text response = Ok body ->
      start_device_auth C s
      = (Raise (TadoXAuthError ("Unexpected error: Failed to start device auth: "
                                +++ dec (status response))),
         sent (device_auth_request C) took s)).
Proof.
  unfold start_device_auth. repeat split.
  - intros e s'. unfold try_except, except_Exception.
    destruct (bind _ _ s) as [[v|e0|w] s1]; try discriminate.
    unfold device_auth_failed.
    destruct (is_timeout_error e0); [|destruct (is_client_error e0); [|destruct (is_ssl_error e0)]];
      intros H; inversion H; eauto.
  - apply try_inv_ok in H. destruct H as [H|(e & s1 & c & _ & Hc & H)].
    + peel H. destruct (negb _).
      * exfalso. cbv [bind lift raise] in H. destruct (text a); discriminate.
      * peel H. peel H. inversion H; subst.
        apply lift_inv_ok in E1. destruct E1 as [E1 _].
        destruct v; try discriminate. reflexivity.
    + exfalso. unfold except_Exception in Hc. inversion Hc; subst. revert H.
      unfold device_auth_failed.
      destruct (is_timeout_error e); [|destruct (is_client_error e); [|destruct (is_ssl_error e)]];
        discriminate.
  - apply try_inv_ok in H. destruct H as [H|(e & s1 & c & _ & Hc & H)].
    + peel H. apply send_inv_ok in E. destruct E as (took & Hreply & ->).
      exists a, took. destruct (Z.eqb_spec (status a) 200) as [Hst|Hst]; cbn [negb] in H.
      * peel H. peel H. inversion H; subst.
        apply lift_inv_ok in E. destruct E as [E ->].
        apply lift_inv_ok in E0. destruct E0 as [_ ->]. auto.
      * exfalso. cbv [bind lift raise] in H. destruct (text a); discriminate.
    + exfalso. unfold except_Exception in Hc. inversion Hc; subst. revert H.
      unfold device_auth_failed.
      destruct (is_timeout_error e); [|destruct (is_client_error e); [|destruct (is_ssl_error e)]];
        discriminate.
  - intros response took body Hreply Hst Htext.
    unfold try_except. rewrite (bind_ok _ _ _ _ _ (send_answer _ _ _ _ Hreply)).
    destruct (Z.eqb_spec (status response) 200) as [|_]; [contradiction|]. cbn [negb].
    cbv [bind lift raise]. rewrite Htext. reflexivity.
Qed.

End Client7.
Section Client8.
Variable C : Const.

Lemma seconds_between_bounds a b : 0 <= seconds_between a b < 86400.
Proof. unfold seconds_between. apply Z.mod_pos_bound. lia. Qed.

Lemma poll_loop_never_times_out fuel device_code interval timeout start_time s s' :
  86400 <= timeout ->
  poll_loop C fuel device_code interval timeout start_time s <> (Ok false, s').
Proof.
  intros Ht. revert s. induction fuel as [|fuel IH]; intros s; cbn [poll_loop].
  - discriminate.
  - cbv [bind now_local].
    pose proof (seconds_between_bounds
                  (Naive (utc_now (world s) + utc_offset (world s))) start_time) as Hb.
    destruct (Z.ltb_spec (seconds_between (Naive (utc_now (world s) + utc_offset (world s)))
                            start_time) timeout) as [_|Hge]; [|lia].
    destruct (poll_once C device_code interval s) as [[[b|]| |] s1] eqn:Honce;
      try discriminate.
    + apply poll_once_inv_some in Honce. destruct Honce as (response & took & _ & H).
      apply poll_response_inv_some in H. destruct H as (-> & _). discriminate.
    + apply IH.
Qed.

(** X10.  The timeout of [poll_for_token] is set against the [seconds] field
    of the elapsed time, which stays below 86400.  With a timeout of zero or
    less the call returns [False] at once and sends nothing; with a timeout
    of a day or more the loop never times out, so the call never returns
    [False]. *)
Theorem poll_for_token_timeout_edges fuel device_code interval timeout (s : St) :
  (timeout <= 0 ->
   poll_for_token C (S fuel) device_code interval timeout s = (Ok false, s))
  /\
  (86400 <= timeout ->
   forall s', poll_for_token C fuel device_code interval timeout s <> (Ok false, s')).
Proof.
  split; intros Ht.
  - unfold poll_for_token. cbn [poll_loop]. cbv [bind now_local].
    unfold seconds_between. rewrite Z.sub_diag. cbn [Z.div Z.modulo].
    change (0 / second mod 86400) with 0.
    destruct (Z.ltb_spec 0 timeout); [lia|reflexivity].
  - intros s'. unfold poll_for_token. cbv [bind now_local].
    now apply poll_loop_never_times_out.
Qed.

End Client8.
Section Client9.
Variable C : Const.

(** X22.  A batch of one is the single write: with the home id set,
    [set_multiple_device_temperature_offsets] on one serial and offset sends
    what [set_device_temperature_offset] sends for them and leaves the client
    as that call does, reporting "success" where the single write returns and
    "error: ..." with the exception's text where it raises. *)
Theorem batch_of_one_is_single_write serial offset (s : St) :
  truthy (_home_id (api s)) = true ->
  let single := set_device_temperature_offset C (JStr serial) (JFloat offset) s in
  set_multiple_device_temperature_offsets C [(KStr serial, offset)] s
  = (match fst single with
     | Ok _ => Ok [(KStr serial, "success")]
     | Raise err => Ok [(KStr serial, "error: " +++ exn_str err)]
     | Beyond why => Beyond why
     end, snd single).
Proof.
  intros Hhome. cbv zeta.
  assert (Hsingle : set_device_temperature_offset C (JStr serial) (JFloat offset) s
                    = bind (await (offset_write C (KStr serial) offset)) (fun _ => ret tt) s).
  { symmetry. unfold bind at 1. rewrite offset_write_alone. symmetry.
    unfold set_device_temperature_offset, home_guard.
    unfold bind at 1 2. unfold get_api at 1. rewrite Hhome. cbn [negb ret json_of_key].
    unfold bind, get_api.
    destruct (lift (py_str (_home_id (api s))) s) as [[home| |] s1]; reflexivity. }
  rewrite Hsingle.
  unfold set_multiple_device_temperature_offsets, bind at 1, get_api. rewrite Hhome.
  cbn [negb tasks map fst snd]. unfold bind. rewrite gather_one.
  destruct (runs_as_await _ _ _ s (set_single_offset_runs C (KStr serial, offset)))
    as [Hstatus Hstate].
  cbn [fst snd] in Hstatus, Hstate. rewrite Hstatus, <- Hstate.
  destruct (await (offset_write C (KStr serial) offset) s) as [[v|e|w] s1]; reflexivity.
Qed.

End Client9.
Section Client10.
Variable C : Const.

Lemma issue_token_log data s : events (world (snd (issue_token data s))) = events (world s).
Proof.
  unfold issue_token.
  cbv [bind lift assign get_api set_api now_local ret].
  repeat match goal with
         | |- context [match ?x with _ => _ end] => destruct x; cbn [snd world events api]
         end; reflexivity.
Qed.

Lemma poll_response_log interval response s r s' :
  poll_response interval response s = (r, s') ->
  events (world s')
  = match r with
    | Ok None => Slept interval :: events (world s)
    | _ => events (world s)
    end.
Proof.
  unfold poll_response. unfold bind at 1, lift at 1.
  destruct (body_json response) as [data|e|w]; try (intros H; inversion H; reflexivity).
  destruct (status response =? 200).
  - pose proof (issue_token_log data s) as Hlog. unfold bind.
    destruct (issue_token data s) as [[[]|e|w] s1]; unfold ret; cbn [fst snd] in *;
      intros H; inversion H; subst; assumption.
  - unfold bind at 1, lift at 1.
    destruct (py_get data "error") as [err|e|w]; try (intros H; inversion H; reflexivity).
    destruct (eq_str err "authorization_pending"); [intros H; inversion H; reflexivity|].
    cbv [bind lift raise].
    destruct (py_get_or data "error_description" err) as [d|e|w];
      try (intros H; inversion H; reflexivity).
    destruct (py_str d); intros H; inversion H; reflexivity.
Qed.

(** One turn of the polling loop that asks for another turn has sent one
    poll and slept once after it. *)
Lemma poll_once_again device_code interval s s' :
  poll_once C device_code interval s = (Ok None, s') ->
  events (world s') = Slept interval :: Sent (device_code_request C device_code)
                        :: events (world s).
Proof.
  unfold poll_once, try_except. unfold bind at 1, send.
  destruct (server (world s) (events (world s)) (device_code_request C device_code))
    as [[response|e] took].
  - destruct (poll_response interval response _) as [[[b|]|e|w] s1] eqn:Hresponse;
      try discriminate; apply poll_response_log in Hresponse; rename Hresponse into Hlog;
      cbn [world events advance log] in Hlog.
    + intros H. inversion H; subst. exact Hlog.
    + unfold except_ClientError. destruct (is_client_error e); [|discriminate].
      cbv [sleep ret bind]. intros H. inversion H. cbn. now rewrite Hlog.
  - unfold except_ClientError. destruct (is_client_error e); [|discriminate].
    cbv [sleep ret bind]. intros H. inversion H. reflexivity.
Qed.

Lemma poll_once_done device_code interval s b s' :
  poll_once C device_code interval s = (Ok (Some b), s') ->
  events (world s') = Sent (device_code_request C device_code) :: events (world s).
Proof.
  unfold poll_once, try_except. unfold bind at 1, send.
  destruct (server (world s) (events (world s)) (device_code_request C device_code))
    as [[response|e] took].
  - destruct (poll_response interval response _) as [[[b'|]|e|w] s1] eqn:Hresponse;
      try discriminate; apply poll_response_log in Hresponse; rename Hresponse into Hlog;
      cbn [world events advance log] in Hlog.
    + intros H. inversion H; subst. exact Hlog.
    + unfold except_ClientError. destruct (is_client_error e); [|discriminate].
      cbv [sleep ret bind]. discriminate.
  - unfold except_ClientError. destruct (is_client_error e); [|discriminate].
    cbv [sleep ret bind]. discriminate.
Qed.

Lemma paced_app interval request l1 l2 :
  paced interval request l1 -> paced interval request l2 ->
  paced interval request (l1 ++ l2).
Proof. induction 1; cbn; [trivial|]. intros H2. constructor. auto. Qed.

Lemma poll_loop_paced fuel device_code interval timeout start_time s b s' :
  poll_loop C fuel device_code interval timeout start_time s = (Ok b, s') ->
  exists polls,
    paced interval (device_code_request C device_code) polls /\
    events (world s')
    = ((if b then [Sent (device_code_request C device_code)] else []) ++ polls
       ++ events (world s))%list.
Proof.
  revert s. induction fuel as [|fuel IH]; intros s; cbn [poll_loop].
  - discriminate.
  - cbv [bind now_local].
    destruct (_ <? timeout).
    2:{ unfold ret. intros H. inversion H; subst. exists []. split; [constructor|reflexivity]. }
    destruct (poll_once C device_code interval s) as [[[b'|]| |] s1] eqn:Honce;
      try discriminate.
    + unfold ret. intros H. inversion H; subst.
      apply poll_once_inv_some in Honce as Htrue.
      destruct Htrue as (response & took & _ & Htrue).
      apply poll_response_inv_some in Htrue. destruct Htrue as (-> & _).
      exists []. split; [constructor|]. exact (poll_once_done _ _ _ _ _ Honce).
    + intros H. destruct (IH _ H) as (polls & Hpaced & Hlog).
      exists (polls ++ [Slept interval; Sent (device_code_request C device_code)])%list.
      split.
      * apply paced_app; [assumption|]. repeat constructor.
      * rewrite Hlog, (poll_once_again _ _ _ _ Honce), <- !app_assoc. reflexivity.
Qed.

(** X25.  The polling loop never polls twice without sleeping in between:
    when [poll_for_token] returns, what it added to the log is a run of
    polls each followed by a sleep of [interval] seconds, be the poll
    answered "authorization_pending" or lost to a network error, and then,
    if it returns [True], the one poll that was answered 200. *)
Theorem poll_for_token_is_paced fuel device_code interval timeout (s : St) b (s' : St) :
  poll_for_token C fuel device_code interval timeout s = (Ok b, s') ->
  exists polls,
    paced interval (device_code_request C device_code) polls /\
    events (world s')
    = ((if b then [Sent (device_code_request C device_code)] else []) ++ polls
       ++ events (world s))%list.
Proof.
  unfold poll_for_token. cbv [bind now_local]. apply poll_loop_paced.
Qed.

End Client10.
(** ** Tasks that start together *)

Lemma extends_refl s : extends s s.
Proof. now exists []. Qed.

Lemma extends_trans s1 s2 s3 : extends s1 s2 -> extends s2 s3 -> extends s1 s3.
Proof.
  intros [a Ha] [b Hb]. exists (b ++ a)%list. now rewrite Hb, Ha, app_assoc.
Qed.

Lemma extends_at_time t s : extends s (at_time t s).
Proof. now exists []. Qed.

Lemma resume_adds {A} (c : Co A) s :
  adds_on c ->
  match resume c s with
  | Finished _ s' => extends s s'
  | Parked _ k s' => extends s s' /\ adds_on k
  end.
Proof. destruct c. intros H. exact (H s). Qed.

Lemma adds_on_atomic {A} (m : M A) : (forall s, extends s (snd (m s))) -> adds_on (atomic m).
Proof. intros H s. specialize (H s). now destruct (m s). Qed.

Lemma adds_on_stable {A} (m : M A) : keeps whole m -> adds_on (atomic m).
Proof.
  intros H. apply adds_on_atomic. intros s. exists []. specialize (H s).
  unfold whole in H. now rewrite H.
Qed.

Lemma adds_on_bind {A B} (c : Co A) (k : A -> Co B) :
  adds_on c -> (forall a, adds_on (k a)) -> adds_on (co_bind c k).
Proof.
  intros Hc Hk. induction c as [run IH] using Co_induction. intros s.
  specialize (Hc s). specialize (IH s). cbn.
  destruct (run s) as [[a|e|w] s1|wake c' s1]; try assumption.
  - pose proof (resume_adds (k a) s1 (Hk a)) as H.
    destruct (resume (k a) s1) as [r s2|wake k' s2].
    + exact (extends_trans _ _ _ Hc H).
    + destruct H as [H H']. split; [exact (extends_trans _ _ _ Hc H)|exact H'].
  - destruct Hc as [Hc Hc']. split; [exact Hc|now apply IH].
Qed.

Lemma adds_on_try {A} (c : Co A) (h : exn -> option (Co A)) :
  adds_on c -> (forall e k, h e = Some k -> adds_on k) -> adds_on (co_try c h).
Proof.
  intros Hc Hh. induction c as [run IH] using Co_induction. intros s.
  specialize (Hc s). specialize (IH s). cbn.
  destruct (run s) as [[a|e|w] s1|wake c' s1]; try assumption.
  - destruct (h e) as [k|] eqn:He; [|assumption].
    pose proof (resume_adds k s1 (Hh e k He)) as H.
    destruct (resume k s1) as [r s2|wake k' s2].
    + exact (extends_trans _ _ _ Hc H).
    + destruct H as [H H']. split; [exact (extends_trans _ _ _ Hc H)|exact H'].
  - destruct Hc as [Hc Hc']. split; [exact Hc|now apply IH].
Qed.

Lemma adds_on_map {A B} (f : outcome A -> outcome B) (c : Co A) :
  adds_on c -> adds_on (co_map f c).
Proof.
  intros Hc. induction c as [run IH] using Co_induction. intros s.
  specialize (Hc s). specialize (IH s). cbn.
  destruct (run s) as [r s1|wake c' s1]; [assumption|].
  destruct Hc as [Hc Hc']. split; [exact Hc|now apply IH].
Qed.

Lemma adds_on_send r : adds_on (co_send r).
Proof.
  intros s. cbn. destruct (server _ _ r) as [reply took]. split.
  - now exists [Sent r].
  - intros s'. apply extends_refl.
Qed.

Lemma adds_on_beside {A} wake1 (c1 : Co A) wake2 c2 :
  adds_on c1 -> adds_on c2 -> adds_on (beside wake1 c1 wake2 c2).
Proof.
  revert wake1 wake2 c2.
  induction c1 as [run1 IH1] using Co_induction. intros wake1 wake2 c2. revert wake2.
  induction c2 as [run2 IH2] using Co_induction. intros wake2 H1 H2.
  cbn [beside adds_on]. intros s. destruct (sooner wake1 wake2).
  - pose proof (H1 s) as H. specialize (IH1 s).
    destruct (run1 s) as [r s1|wake k s1].
    + split; [exact H|]. now apply adds_on_map.
    + destruct H as [H H']. split; [exact H|]. now apply IH1.
  - pose proof (H2 s) as H. specialize (IH2 s).
    destruct (run2 s) as [r s1|wake k s1].
    + split; [exact H|]. now apply adds_on_map.
    + destruct H as [H H']. split; [exact H|]. exact (IH2 wake H1 H').
Qed.

Lemma adds_on_await {A} (c : Co A) s : adds_on c -> extends s (snd (await c s)).
Proof.
  revert s. induction c as [run IH] using Co_induction. intros s Hc.
  specialize (Hc s). specialize (IH s). cbn.
  destruct (run s) as [r s1|wake k s1]; [exact Hc|].
  destruct Hc as [Hc Hk]. apply (extends_trans _ s1); [exact Hc|].
  apply (extends_trans _ (at_time (fst wake) s1)); [apply extends_at_time|now apply IH].
Qed.

Section AddsOn.
Variable C : Const.

Lemma adds_on_refresh : adds_on (refresh_access_token_co C).
Proof.
  unfold refresh_access_token_co.
  apply adds_on_bind; [apply adds_on_atomic; intros s; now exists [Refreshing]|]. intros _.
  apply adds_on_bind; [apply adds_on_stable; now intros s|]. intros a.
  destruct (negb _); [apply adds_on_stable; now intros s|].
  apply adds_on_try.
  - apply adds_on_bind; [apply adds_on_send|]. intros response.
    apply adds_on_stable, store_tokens_stable.
  - intros e k. unfold co_except_ClientError. destruct (is_client_error e); [|discriminate].
    intros H. inversion H. apply adds_on_stable. now intros s.
Qed.

Lemma adds_on_exchange method url json_data request :
  adds_on (co_try (exchange_co C method url json_data request)
             (co_except_ClientError (fun err =>
                atomic (raise (TadoXApiError ("Network error: " +++ exn_str err)))))).
Proof.
  apply adds_on_try.
  - unfold exchange_co.
    apply adds_on_bind; [apply adds_on_send|]. intros response.
    destruct (_ =? _).
    + unfold retry_after_refresh_co.
      apply adds_on_bind; [apply adds_on_refresh|]. intros _.
      apply adds_on_bind; [apply adds_on_stable; now intros s|]. intros a'.
      apply adds_on_bind; [apply adds_on_stable; now intros s|]. intros retry.
      apply adds_on_bind; [apply adds_on_send|]. intros retry_response.
      apply adds_on_stable. keeps.
    + apply adds_on_stable. intros s. unfold whole. now rewrite answer_stable.
  - intros e k. unfold co_except_ClientError. destruct (is_client_error e); [|discriminate].
    intros H. inversion H. apply adds_on_stable. now intros s.
Qed.
End AddsOn.

Lemma resume_bind {A B} (c : Co A) (k : A -> Co B) s :
  resume (co_bind c k) s
  = match resume c s with
    | Finished (Ok a) s' => resume (k a) s'
    | Finished (Raise e) s' => Finished (Raise e) s'
    | Finished (Beyond w) s' => Finished (Beyond w) s'
    | Parked wake c' s' => Parked wake (co_bind c' k) s'
    end.
Proof. destruct c. reflexivity. Qed.

Lemma resume_try {A} (c : Co A) (h : exn -> option (Co A)) s :
  resume (co_try c h) s
  = match resume c s with
    | Finished (Raise e) s' =>
        match h e with Some k => resume k s' | None => Finished (Raise e) s' end
    | Finished r s' => Finished r s'
    | Parked wake c' s' => Parked wake (co_try c' h) s'
    end.
Proof. destruct c. reflexivity. Qed.

Lemma resume_atomic_bind {A B} (m : M A) (k : A -> Co B) s a :
  m s = (Ok a, s) -> resume (co_bind (atomic m) k) s = resume (k a) s.
Proof. intros H. rewrite resume_bind. cbn. now rewrite H. Qed.

Lemma parks_bind {A B} pair (c : Co A) (k : A -> Co B) s :
  parks_with pair s (resume c s) -> (forall a, adds_on (k a)) ->
  parks_with pair s (resume (co_bind c k) s).
Proof.
  intros H Hk. rewrite resume_bind. destruct (resume c s) as [r s'|wake c' s']; [contradiction|].
  destruct H as (Hlog & Hsame & Hc). repeat split; try apply Hsame; trivial.
  now apply adds_on_bind.
Qed.

Lemma parks_try {A} pair (c : Co A) (h : exn -> option (Co A)) s :
  parks_with pair s (resume c s) -> (forall e k, h e = Some k -> adds_on k) ->
  parks_with pair s (resume (co_try c h) s).
Proof.
  intros H Hh. rewrite resume_try. destruct (resume c s) as [r s'|wake c' s']; [contradiction|].
  destruct H as (Hlog & Hsame & Hc). repeat split; try apply Hsame; trivial.
  now apply adds_on_try.
Qed.

Lemma concat_repeat_comm {X} (p : list X) n :
  (List.concat (repeat p n) ++ p = p ++ List.concat (repeat p n))%list.
Proof.
  induction n as [|n IH]; cbn; [now rewrite app_nil_r|].
  now rewrite <- app_assoc, IH.
Qed.

(** Tasks that all park on being started, each adding [pair] to the log,
    leave the log with one [pair] per task when the last of them has
    parked. *)
Lemma gather_started {A} pair (tasks : list (Co A)) s0 :
  (forall t s, In t tasks -> same_moment s0 s -> parks_with pair s (resume t s)) ->
  forall s, same_moment s0 s ->
    match resume (gather tasks) s with
    | Finished _ s' => tasks = [] /\ s' = s
    | Parked _ k s' =>
        events (world s')
        = (List.concat (repeat pair (List.length tasks)) ++ events (world s))%list /\
        adds_on k
    end.
Proof.
  induction tasks as [|t rest IH]; intros Hstart s Hs; [now split|].
  cbn [gather resume].
  pose proof (Hstart t s (or_introl eq_refl) Hs) as Ht.
  destruct (resume t s) as [r s1|wake k s1]; [contradiction|].
  destruct Ht as (Hlog & Hsame & Hk).
  assert (Hs1 : same_moment s0 s1).
  { destruct Hs as (a & b & c), Hsame as (a' & b' & c'). repeat split; congruence. }
  specialize (IH (fun t' s' Hin => Hstart t' s' (or_intror Hin)) s1 Hs1).
  destruct (resume (gather rest) s1) as [rs s2|wake' k' s2].
  - destruct IH as [-> ->]. split; [|now apply adds_on_map].
    cbn. now rewrite app_nil_r.
  - destruct IH as [Hlog' Hk']. split; [|now apply adds_on_beside].
    rewrite Hlog', Hlog. cbn [List.length repeat List.concat].
    now rewrite app_assoc, concat_repeat_comm, <- app_assoc.
Qed.

Section StartedRefresh.
Variable C : Const.

Lemma refresh_parks s :
  truthy (_refresh_token (api s)) = true ->
  parks_with [Sent (refresh_request C (_refresh_token (api s))); Refreshing] s
             (resume (refresh_access_token_co C) s).
Proof.
  intros Hheld. unfold refresh_access_token_co.
  rewrite resume_bind. cbn [resume atomic note].
  rewrite resume_bind. cbn [resume atomic get_api api]. rewrite Hheld. cbn [negb].
  rewrite resume_try, resume_bind. cbn [resume co_send world api].
  destruct (server _ _ _) as [reply took]. cbn [parks_with world events log api].
  split; [reflexivity|]. split; [now repeat split|].
  apply adds_on_try.
  - apply adds_on_bind; [intros s'; apply extends_refl|].
    intros response. apply adds_on_stable, store_tokens_stable.
  - intros e k. unfold co_except_ClientError. destruct (is_client_error e); [|discriminate].
    intros H. inversion H. apply adds_on_stable. now intros s'.
Qed.
End StartedRefresh.
Section StartedBatch.
Variable C : Const.

Lemma ensure_parks s expiry :
  truthy (_access_token (api s)) = true ->
  truthy (_refresh_token (api s)) = true ->
  _token_expiry (api s) = Some expiry ->
  threshold_in_range expiry ->
  due (world s) expiry = true ->
  parks_with [Sent (refresh_request C (_refresh_token (api s))); Refreshing] s
             (resume (ensure_valid_token_co C) s).
Proof.
  intros Htok Hheld Hexp [Hlo Hhi] Hdue. unfold ensure_valid_token_co.
  rewrite (resume_atomic_bind get_api _ s (api s) eq_refl). rewrite Htok, Hexp. cbn [negb].
  rewrite (resume_atomic_bind now_utc _ s _ eq_refl).
  assert (Hth : Time.add expiry (- (60 * second))
                = Ok (match expiry with
                      | Naive w => Naive (w + - (60 * second))
                      | Aware w off => Aware (w + - (60 * second)) off
                      end)).
  { unfold Time.add.
    replace (wall_of expiry + - (60 * second)) with (wall_of expiry - 60 * second) by lia.
    destruct (Z.leb_spec min_wall (wall_of expiry - 60 * second)); [|lia].
    destruct (Z.leb_spec (wall_of expiry - 60 * second) max_wall); [|lia].
    destruct expiry; cbn [andb wall_of];
      now replace (wall - 60 * second) with (wall + - (60 * second)) by lia. }
  unfold due in Hdue.
  destruct expiry as [wall|wall off]; apply Z.leb_le in Hdue; cbn [is_aware].
  - rewrite (resume_atomic_bind now_local _ s _ eq_refl).
    rewrite (resume_atomic_bind (lift _) _ s _ (f_equal (fun o => (o, s)) Hth)).
    cbn [instant].
    destruct (Z.leb_spec (wall + - (60 * second)) (utc_now (world s) + utc_offset (world s)));
      [|lia].
    apply parks_bind; [now apply refresh_parks|]. intros _. apply adds_on_stable. now intros s'.
  - rewrite (resume_atomic_bind (ret _) _ s _ eq_refl).
    rewrite (resume_atomic_bind (lift _) _ s _ (f_equal (fun o => (o, s)) Hth)).
    cbn [instant].
    destruct (Z.leb_spec (wall + - (60 * second) - off) (utc_now (world s) - 0)); [|lia].
    apply parks_bind; [now apply refresh_parks|]. intros _. apply adds_on_stable. now intros s'.
Qed.

Lemma key_printable (k : pykey) : exists text, py_str (json_of_key k) = Ok text.
Proof. destruct k; cbn; eexists; reflexivity. Qed.

Lemma set_single_offset_parks serial offset s expiry home :
  py_str (_home_id (api s)) = Ok home ->
  truthy (_access_token (api s)) = true ->
  truthy (_refresh_token (api s)) = true ->
  _token_expiry (api s) = Some expiry ->
  threshold_in_range expiry ->
  due (world s) expiry = true ->
  parks_with [Sent (refresh_request C (_refresh_token (api s))); Refreshing] s
             (resume (set_single_offset C serial offset) s).
Proof.
  intros Hhome Htok Hheld Hexp Hrange Hdue.
  destruct (key_printable serial) as [device Hdevice].
  unfold set_single_offset.
  apply parks_try.
  2:{ intros e k H. inversion H. apply adds_on_stable. now intros s'. }
  apply parks_bind; [|intros _; apply adds_on_stable; now intros s'].
  unfold offset_write.
  rewrite (resume_atomic_bind get_api _ s (api s) eq_refl).
  rewrite (resume_atomic_bind (lift _) _ s _ (f_equal (fun o => (o, s)) Hhome)).
  rewrite (resume_atomic_bind (lift _) _ s _ (f_equal (fun o => (o, s)) Hdevice)).
  unfold _request_co.
  apply parks_bind; [now apply (ensure_parks s expiry)|]. intros _.
  apply adds_on_bind; [apply adds_on_stable; now intros s'|]. intros a.
  apply adds_on_bind; [apply adds_on_stable; now intros s'|]. intros request.
  apply adds_on_exchange.
Qed.

(** X27.  A batch run on a token that is about to expire refreshes it once
    per write: every task finds the token due when it starts, enters
    [refresh_access_token] and sends a token request with the refresh token
    held at the start, before any of these requests is answered.  The log of
    the batch holds these refreshes and token requests first; whatever
    follows comes after them. *)
Theorem batch_refreshes_once_per_write offsets (s : St) expiry home :
  truthy (_home_id (api s)) = true ->
  py_str (_home_id (api s)) = Ok home ->
  truthy (_access_token (api s)) = true ->
  truthy (_refresh_token (api s)) = true ->
  _token_expiry (api s) = Some expiry ->
  threshold_in_range expiry ->
  due (world s) expiry = true ->
  exists later,
    events (world (snd (set_multiple_device_temperature_offsets C offsets s)))
    = (later
       ++ refreshes_started C (_refresh_token (api s)) (List.length offsets)
       ++ events (world s))%list.
Proof.
  intros Hid Hhome Htok Hheld Hexp Hrange Hdue.
  unfold set_multiple_device_temperature_offsets, bind at 1, get_api. rewrite Hid. cbn [negb].
  assert (Hstate : snd (bind (await (gather (tasks C offsets)))
                             (fun rs => lift (collect rs [])) s)
                        = snd (await (gather (tasks C offsets)) s)).
  { unfold bind, lift. now destruct (await _ s) as [[rs|e|w] s1]. }
  rewrite Hstate. clear Hstate.
  assert (Hsame : same_moment s s) by now repeat split.
  pose proof (gather_started
                [Sent (refresh_request C (_refresh_token (api s))); Refreshing]
                (tasks C offsets) s) as Hstart.
  assert (Htasks : forall t s', In t (tasks C offsets) -> same_moment s s' ->
            parks_with [Sent (refresh_request C (_refresh_token (api s))); Refreshing] s'
                       (resume t s')).
  { intros t s' Hin (Hapi & Hnow & Hoff). unfold tasks in Hin. apply in_map_iff in Hin.
    destruct Hin as ([serial offset] & <- & _). cbn [fst snd].
    rewrite <- Hapi. apply (set_single_offset_parks serial offset s' expiry home);
      rewrite ?Hapi; trivial.
    unfold due in *. now rewrite Hnow, Hoff. }
  specialize (Hstart Htasks s Hsame).
  rewrite await_resume. unfold refreshes_started.
  replace (List.length offsets) with (List.length (tasks C offsets))
    by (unfold tasks; apply length_map).
  destruct (resume (gather (tasks C offsets)) s) as [r s1|wake k s1].
  - destruct Hstart as [-> ->]. now exists [].
  - destruct Hstart as [Hlog Hk].
    destruct (adds_on_await k (at_time (fst wake) s1) Hk) as [later Hlater].
    exists later. rewrite Hlater. cbn [at_time world events]. now rewrite Hlog.
Qed.
End StartedBatch.

(** ** The snapshot: rooms, devices and where they come from *)

Lemma keys_set {V} k (v : V) d : map fst (Dict.set k v d) = add_key k (map fst d).
Proof.
  unfold add_key. induction d as [|[k' v'] d IH]; cbn [Dict.set map fst existsb app].
  - reflexivity.
  - destruct (pykey_eqb k k') eqn:E; cbn [orb map fst].
    + reflexivity.
    + rewrite IH. destruct (existsb (pykey_eqb k) (map fst d)); reflexivity.
Qed.

(** A loop invariant that speaks of the items gone through so far. *)
Lemma for_each_prefix {A S} (I : list A -> S -> Prop) (body : A -> S -> outcome S) xs :
  (forall done x s s', I done s -> body x s = Ok s' -> I (done ++ [x])%list s') ->
  forall done s s', I done s -> for_each xs body s = Ok s' -> I (done ++ xs)%list s'.
Proof.
  intros Hstep. induction xs as [|x xs IH]; intros done s s' Hs; cbn [for_each].
  - intros H. inversion H; subst. now rewrite app_nil_r.
  - destruct (body x s) as [s1| |] eqn:E; cbn [obind]; try discriminate.
    intros H.
    replace (done ++ x :: xs)%list with ((done ++ [x]) ++ xs)%list
      by (rewrite <- app_assoc; reflexivity).
    apply (IH _ s1); [now apply (Hstep done x s)|assumption].
Qed.

Lemma last_under_snoc name k done x :
  last_under name k (done ++ [x]) =
  match payload_key name x with
  | Some k' => if pykey_eqb k k' then Some x else last_under name k done
  | None => last_under name k done
  end.
Proof. unfold last_under. now rewrite fold_left_app. Qed.

Lemma room_keys_snoc done x :
  room_keys (done ++ [x]) =
  match payload_key "id" x with
  | Some k => add_key k (room_keys done)
  | None => room_keys done
  end.
Proof. unfold room_keys. now rewrite fold_left_app. Qed.

Lemma last_under_key name k payloads payload :
  last_under name k payloads = Some payload -> payload_key name payload = Some k.
Proof.
  induction payloads as [|x payloads IH] using rev_ind.
  - discriminate.
  - rewrite last_under_snoc. destruct (payload_key name x) as [k'|] eqn:E; [|exact IH].
    destruct (pykey_eqb_spec k k') as [->|_]; [|exact IH].
    intros H. now inversion H; subst.
Qed.

Lemma payload_key_truthy name payload k :
  payload_key name payload = Some k -> truthy (json_of_key k) = true.
Proof.
  unfold payload_key. destruct (py_get payload name) as [v| |]; try discriminate.
  destruct (truthy v) eqn:Hv; [|discriminate].
  destruct (key_of v) as [k'| |] eqn:Hk; try discriminate.
  intros H. inversion H; subst. now rewrite (json_of_key_of _ _ Hk).
Qed.

Lemma map_room_devices_effect room_info room_devices_map map' :
  map_room_devices room_info room_devices_map = Ok map' ->
  map' = match payload_key "roomId" room_info with
         | Some k => Dict.set k (field_or room_info "devices" (JList [])) room_devices_map
         | None => room_devices_map
         end.
Proof.
  unfold map_room_devices, payload_key.
  destruct (py_get room_info "roomId") as [room_id| |] eqn:Hid; cbn [obind]; try discriminate.
  destruct (truthy room_id); [|intros H; now inversion H].
  destruct (py_get_or room_info "devices" _) as [listed| |] eqn:Hl; cbn [obind];
    try discriminate.
  destruct (key_of room_id) as [k| |]; cbn [obind]; try discriminate.
  intros H. inversion H. f_equal.
  destruct room_info; try discriminate. cbn in Hl. now inversion Hl.
Qed.

(** The map of lines 189-192 holds, for every room id, what the topology
    lists for it. *)
Lemma topology_listed room_infos room_devices_map :
  for_each room_infos map_room_devices [] = Ok room_devices_map ->
  forall k, listed_for room_devices_map k = py_iter (listed_in room_infos k).
Proof.
  intros H k. unfold listed_for. f_equal. revert k.
  refine (for_each_prefix
            (fun done m => forall k,
                 match Dict.get k m with Some l => l | None => JList [] end
                 = listed_in done k)
            map_room_devices room_infos _ [] [] room_devices_map _ H).
  - intros done x m m' IH Hx k. apply map_room_devices_effect in Hx. subst m'.
    unfold listed_in. rewrite last_under_snoc.
    destruct (payload_key "roomId" x) as [k'|]; [|apply IH].
    rewrite get_set. destruct (pykey_eqb k k'); [reflexivity|apply IH].
  - reflexivity.
Qed.

Lemma process_room_built room_devices_map room_data data data' :
  process_room room_devices_map room_data data = Ok data' ->
  match payload_key "id" room_data with
  | None => data' = data
  | Some rk =>
      exists room listed devs index',
        build_room room_data (json_of_key rk) = Ok room /\
        listed_for room_devices_map rk = Ok listed /\
        Forall2 (fun device_data d =>
                   build_device device_data (TadoXRoom.room_id room) (TadoXRoom.name room)
                   = Ok d) listed devs /\
        for_each devs index_device (TadoXData.devices data) = Ok index' /\
        data' = TadoXData.mk (TadoXData.home_id data) (TadoXData.home_name data)
                  (TadoXData.presence data)
                  (Dict.set rk (extend room devs) (TadoXData.rooms data))
                  index' (TadoXData.other_devices data)
  end.
Proof.
  unfold process_room, payload_key.
  destruct (py_get room_data "id") as [room_id| |]; cbn [obind]; try discriminate.
  destruct (truthy room_id) eqn:Htruthy; cbn [negb].
  2:{ intros H. now inversion H. }
  destruct (build_room room_data room_id) as [room| |] eqn:Hroom; cbn [obind];
    try discriminate.
  destruct (key_of room_id) as [rk| |] eqn:Hkey; cbn [obind]; try discriminate.
  destruct (py_iter _) as [listed| |] eqn:Hlisted; cbn [obind]; try discriminate.
  destruct (for_each listed add_room_device _) as [[room' index']| |] eqn:Hloop;
    cbn [obind]; try discriminate.
  intros H. inversion H; subst; clear H.
  apply add_room_devices in Hloop. destruct Hloop as (devs & Hall & -> & Hindex).
  exists room, listed, devs, index'. rewrite (json_of_key_of _ _ Hkey).
  repeat split; assumption || reflexivity.
Qed.

Lemma extend_snoc room devs d :
  extend room (devs ++ [d]) = TadoXRoom.append d (extend room devs).
Proof. unfold extend. now rewrite fold_left_app. Qed.

Lemma built_from_fields room_data k devs r :
  built_from room_data k devs r ->
  TadoXRoom.room_id r = json_of_key k /\ TadoXRoom.devices r = devs.
Proof.
  intros (fresh & Hfresh & ->). destruct (build_room_fresh _ _ _ Hfresh) as [Hid Hdevs].
  destruct (extend_fields fresh devs) as (-> & _ & ->). now rewrite Hid, Hdevs.
Qed.
Lemma from_topology_same room_infos k r r' devs :
  TadoXRoom.room_id r' = TadoXRoom.room_id r -> TadoXRoom.name r' = TadoXRoom.name r ->
  from_topology room_infos k r devs -> from_topology room_infos k r' devs.
Proof. intros Hid Hname (listed & Hl & Hall). exists listed. now rewrite Hid, Hname. Qed.

(** The rooms, once built: one per key of the room states, in the order
    first seen, each built from the last state under its key and holding the
    devices the topology lists for it. *)
Lemma build_rooms_settled home_id home_name presence rooms_data rooms_devices_data data
      states room_infos :
  build_rooms home_id home_name presence rooms_data rooms_devices_data = Ok data ->
  py_iter rooms_data = Ok states ->
  topology_rooms rooms_devices_data = Ok room_infos ->
  rooms_settled states room_infos data /\ TadoXData.other_devices data = [].
Proof.
  unfold build_rooms, topology_rooms. intros H Hstates Hinfos.
  destruct (py_get_or rooms_devices_data "rooms" _) as [rooms_info| |]; cbn [obind] in *;
    try discriminate.
  rewrite Hinfos in H. cbn [obind] in H.
  destruct (for_each room_infos map_room_devices []) as [room_devices_map| |] eqn:Hmap;
    cbn [obind] in H; try discriminate.
  rewrite Hstates in H. cbn [obind] in H.
  pose proof (topology_listed _ _ Hmap) as Hlisted.
  refine (for_each_prefix
            (fun done d => rooms_settled done room_infos d /\ TadoXData.other_devices d = [])
            (process_room room_devices_map) states _ [] _ data _ H).
  - intros done x d d' [[Hkeys Htruthy Horigin Hnamed] Hothers] Hx.
    apply process_room_built in Hx.
    destruct (payload_key "id" x) as [rk|] eqn:Hrk.
    2:{ subst d'. split; [|assumption]. split; trivial.
        { now rewrite room_keys_snoc, Hrk. }
        intros k r Hr. destruct (Horigin k r Hr) as (rd & devs & Hlast & Hbuilt & Htop).
        exists rd, devs. rewrite last_under_snoc, Hrk. auto. }
    destruct Hx as (room & listed & devs & index' & Hroom & Hl & Hall & _ & ->).
    cbn [TadoXData.rooms TadoXData.other_devices]. split; [|assumption].
    destruct (build_room_fresh _ _ _ Hroom) as [Hid Hfresh].
    destruct (extend_fields room devs) as (Eid & Ename & Edevs).
    split; cbn [TadoXData.rooms TadoXData.other_devices].
    + now rewrite keys_set, Hkeys, room_keys_snoc, Hrk.
    + intros k r. rewrite get_set. destruct (pykey_eqb_spec k rk) as [->|Hne].
      * intros _. exact (payload_key_truthy _ _ _ Hrk).
      * apply Htruthy.
    + intros k r. rewrite get_set. destruct (pykey_eqb_spec k rk) as [->|Hne].
      * intros Hr. inversion Hr; subst r; clear Hr.
        exists x, devs. rewrite last_under_snoc, Hrk, pykey_eqb_refl, Hothers.
        cbn [filter]. rewrite app_nil_r. repeat split.
        -- now exists room.
        -- exists listed. rewrite <- Hlisted. split; [assumption|]. now rewrite Eid, Ename.
      * intros Hr. destruct (Horigin k r Hr) as (rd & devs0 & Hlast & Hbuilt & Htop).
        exists rd, devs0. rewrite last_under_snoc, Hrk.
        destruct (pykey_eqb_spec k rk) as [|_]; [contradiction|]. auto.
    + intros k r dev. rewrite get_set. destruct (pykey_eqb_spec k rk) as [->|Hne].
      * intros Hr Hd. inversion Hr; subst r; clear Hr.
        rewrite Edevs, Hfresh in Hd. cbn [app] in Hd.
        destruct (Forall2_in_r _ _ _ _ Hall Hd) as (dd & _ & Hbuild).
        destruct (build_device_fields _ _ _ _ Hbuild) as (-> & -> & _).
        now rewrite Eid, Ename.
      * apply Hnamed.
  - split; [|reflexivity]. split; cbn.
    + reflexivity.
    + intros k r Hr. discriminate.
    + intros k r Hr. discriminate.
    + intros k r dev Hr. discriminate.
Qed.
Lemma associate_named room_with_most_devices raw device_type rooms rid rname k r :
  associate room_with_most_devices raw device_type rooms = Ok (rid, rname) ->
  room_named rid rooms = Ok (Some (k, r)) ->
  rname = TadoXRoom.name r.
Proof.
  unfold associate.
  destruct (room_named raw rooms) as [[[k' r']|]| |] eqn:E; cbn [obind]; try discriminate.
  - intros H Hn. inversion H; subst. rewrite E in Hn. now inversion Hn.
  - destruct (_ && _).
    + destruct (room_at room_with_most_devices rooms) as [r'| |] eqn:Hat; cbn [obind];
        try discriminate.
      intros H Hn. inversion H; subst.
      apply room_named_some in Hn. destruct Hn as (_ & Hk & Hget).
      unfold room_at in Hat. rewrite Hk in Hat. cbn [obind] in Hat. rewrite Hget in Hat.
      now inversion Hat.
    + intros H Hn. inversion H; subst. rewrite E in Hn. discriminate.
Qed.

Lemma filter_snoc {A} (f : A -> bool) l x :
  filter f (l ++ [x]) = (filter f l ++ if f x then [x] else [])%list.
Proof. rewrite filter_app. cbn [filter]. now destruct (f x). Qed.

Lemma process_other_device_settled states room_infos room_with_most_devices device_data
      data data' :
  rooms_settled states room_infos data ->
  process_other_device room_with_most_devices device_data data = Ok data' ->
  rooms_settled states room_infos data'.
Proof.
  intros [Hkeys Htruthy Horigin Hnamed] H.
  apply process_other_device_effect in H.
  destruct H as (device & kd & raw & device_type & _ & _ & Hassoc & _ & _ & Hothers & H).
  destruct H as [(k0 & r0 & Hhome & Hrooms)|(Hnone & Hrooms)].
  - pose proof (associate_named _ _ _ _ _ _ _ _ Hassoc Hhome) as Hname.
    apply room_named_some in Hhome. destruct Hhome as (_ & Hk0 & Hr0).
    assert (Hown : names_room k0 device = true)
      by (unfold names_room; rewrite Hk0; apply pykey_eqb_refl).
    assert (Hid : TadoXDevice.room_id device = TadoXRoom.room_id r0).
    { destruct (Horigin _ _ Hr0) as (rd & devs & _ & Hbuilt & _).
      destruct (built_from_fields _ _ _ _ Hbuilt) as [Hrid _].
      apply (key_of_inj _ _ k0); [assumption|]. rewrite Hrid. apply key_of_json_of_key. }
    split; rewrite ?Hrooms, ?Hothers.
    + now rewrite (keys_set_present _ _ _ _ _ Hr0).
    + intros k r. rewrite get_set. destruct (pykey_eqb_spec k k0) as [->|Hne].
      * intros _. exact (Htruthy _ _ Hr0).
      * apply Htruthy.
    + intros k r. rewrite get_set. destruct (pykey_eqb_spec k k0) as [->|Hne].
      * intros Hr. inversion Hr; subst r; clear Hr.
        destruct (Horigin _ _ Hr0) as (rd & devs & Hlast & (fresh & Hfresh & Hext) & Htop).
        exists rd, devs. rewrite filter_snoc, Hown. split; [exact Hlast|split].
        -- exists fresh. split; [assumption|].
           now rewrite app_assoc, extend_snoc, <- Hext.
        -- now apply (from_topology_same _ _ r0).
      * intros Hr. destruct (Horigin _ _ Hr) as (rd & devs & Hlast & Hbuilt & Htop).
        exists rd, devs. rewrite filter_snoc.
        assert (Hother : names_room k device = false).
        { unfold names_room. rewrite Hk0. destruct (pykey_eqb_spec k0 k); congruence. }
        rewrite Hother, app_nil_r. auto.
    + intros k r dev. rewrite get_set. destruct (pykey_eqb_spec k k0) as [->|Hne].
      * intros Hr Hd. inversion Hr; subst r; clear Hr. cbn in Hd |- *.
        apply in_app_or in Hd. destruct Hd as [Hd|[<-|[]]].
        -- exact (Hnamed _ _ _ Hr0 Hd).
        -- now split.
      * apply Hnamed.
  - split; rewrite ?Hrooms, ?Hothers; trivial.
    intros k r Hr. destruct (Horigin _ _ Hr) as (rd & devs & Hlast & Hbuilt & Htop).
    exists rd, devs. rewrite filter_snoc.
    assert (Hother : names_room k device = false).
    { unfold names_room. destruct (key_of (TadoXDevice.room_id device)) as [k'| |] eqn:Hk';
        trivial.
      destruct (pykey_eqb_spec k' k) as [->|]; trivial.
      rewrite (room_named_none _ _ _ Htruthy Hnone Hk') in Hr. discriminate. }
    rewrite Hother, app_nil_r. auto.
Qed.

Lemma attach_other_devices_settled states room_infos rooms_devices_data built data :
  rooms_settled states room_infos built ->
  attach_other_devices rooms_devices_data built = Ok data ->
  rooms_settled states room_infos data.
Proof.
  unfold attach_other_devices. intros Hbuilt H.
  destruct (other_device_payloads rooms_devices_data) as [others| |]; cbn [obind] in H;
    try discriminate.
  refine (for_each_invariant (rooms_settled states room_infos) _ others _ built data Hbuilt H).
  intros x d d' Hd Hx. exact (process_other_device_settled _ _ _ _ _ _ Hd Hx).
Qed.

Lemma normalize_reads home_id home_name presence rooms_data rooms_devices_data data :
  normalize home_id home_name presence rooms_data rooms_devices_data = Ok data ->
  exists states room_infos,
    py_iter rooms_data = Ok states /\ topology_rooms rooms_devices_data = Ok room_infos.
Proof.
  unfold normalize, build_rooms, topology_rooms. intros H.
  apply obind_inv_ok in H. destruct H as (built & H & _).
  destruct (py_get_or rooms_devices_data "rooms" _) as [rooms_info| |]; cbn [obind] in *;
    try discriminate.
  destruct (py_iter rooms_info) as [room_infos| |]; cbn [obind] in *; try discriminate.
  destruct (for_each room_infos map_room_devices []) as [room_devices_map| |];
    cbn [obind] in *; try discriminate.
  destruct (py_iter rooms_data) as [states| |]; cbn [obind] in *; try discriminate.
  now exists states, room_infos.
Qed.

Lemma normalize_settled home_id home_name presence rooms_data rooms_devices_data data
      states room_infos :
  normalize home_id home_name presence rooms_data rooms_devices_data = Ok data ->
  py_iter rooms_data = Ok states ->
  topology_rooms rooms_devices_data = Ok room_infos ->
  rooms_settled states room_infos data.
Proof.
  unfold normalize. intros H Hstates Hinfos.
  apply obind_inv_ok in H. destruct H as (built & Hbuilt & H).
  destruct (build_rooms_settled _ _ _ _ _ _ _ _ Hbuilt Hstates Hinfos) as [Hsettled _].
  exact (attach_other_devices_settled _ _ _ _ _ Hsettled H).
Qed.

(** X11.  The rooms of a snapshot are the room states that carry a truthy
    id: one room per id, in the order the ids are first seen, each under the
    key of its id and built from the last state that carries it.  A state
    whose id is missing, null or 0 gives no room. *)
Theorem snapshot_rooms home_id home_name presence rooms_data rooms_devices_data data
        states :
  normalize home_id home_name presence rooms_data rooms_devices_data = Ok data ->
  py_iter rooms_data = Ok states ->
  map fst (TadoXData.rooms data) = room_keys states /\
  (forall k r,
      Dict.get k (TadoXData.rooms data) = Some r ->
      truthy (json_of_key k) = true /\
      TadoXRoom.room_id r = json_of_key k /\
      exists room_data devs,
        last_under "id" k states = Some room_data /\
        built_from room_data k devs r).
Proof.
  intros H Hstates.
  destruct (normalize_reads _ _ _ _ _ _ H) as (states' & room_infos & Hstates' & Hinfos).
  rewrite Hstates in Hstates'. inversion Hstates'; subst states'; clear Hstates'.
  destruct (normalize_settled _ _ _ _ _ _ _ _ H Hstates Hinfos)
    as [Hkeys Htruthy Horigin _].
  split; [assumption|]. intros k r Hr.
  destruct (Horigin _ _ Hr) as (rd & devs & Hlast & Hbuilt & _).
  split; [exact (Htruthy _ _ Hr)|].
  split; [exact (proj1 (built_from_fields _ _ _ _ Hbuilt))|].
  now exists rd, (devs ++ filter (names_room k) (TadoXData.other_devices data))%list.
Qed.

(** X12.  In a snapshot every device listed under a room carries that
    room's id and that room's name, be it a device the topology lists for the
    room or an other-device attached to it. *)
Theorem room_devices_carry_room home_id home_name presence rooms_data rooms_devices_data
        data :
  normalize home_id home_name presence rooms_data rooms_devices_data = Ok data ->
  forall k r d,
    Dict.get k (TadoXData.rooms data) = Some r -> In d (TadoXRoom.devices r) ->
    TadoXDevice.room_id d = TadoXRoom.room_id r /\
    TadoXDevice.room_name d = TadoXRoom.name r.
Proof.
  intros H.
  destruct (normalize_reads _ _ _ _ _ _ H) as (states & room_infos & Hstates & Hinfos).
  exact (settled_named (normalize_settled _ _ _ _ _ _ _ _ H Hstates Hinfos)).
Qed.

(** X13.  The devices list of a room of the snapshot is made of the devices
    built from the payloads the topology lists for the room's id, in the
    topology's order, followed by the other devices that carry the room's
    id, in the order of [other_devices].  A room the topology does not list
    has no device of the first kind. *)
Theorem room_devices_origin home_id home_name presence rooms_data rooms_devices_data data
        room_infos :
  normalize home_id home_name presence rooms_data rooms_devices_data = Ok data ->
  topology_rooms rooms_devices_data = Ok room_infos ->
  forall k r,
    Dict.get k (TadoXData.rooms data) = Some r ->
    exists devs,
      TadoXRoom.devices r
      = (devs ++ filter (names_room k) (TadoXData.other_devices data))%list /\
      from_topology room_infos k r devs /\
      (last_under "roomId" k room_infos = None -> devs = []).
Proof.
  intros H Hinfos k r Hr.
  destruct (normalize_reads _ _ _ _ _ _ H) as (states & room_infos' & Hstates & Hinfos').
  rewrite Hinfos in Hinfos'. inversion Hinfos'; subst room_infos'; clear Hinfos'.
  destruct (settled_origin (normalize_settled _ _ _ _ _ _ _ _ H Hstates Hinfos) k Hr)
    as (rd & devs & _ & Hbuilt & Htop).
  exists devs. split; [exact (proj2 (built_from_fields _ _ _ _ Hbuilt))|].
  split; [assumption|].
  intros Hnone. destruct Htop as (listed & Hlisted & Hall).
  unfold listed_in in Hlisted. rewrite Hnone in Hlisted. cbn in Hlisted.
  inversion Hlisted; subst. now inversion Hall.
Qed.
Lemma attach_others_indexed rooms_devices_data built data :
  TadoXData.other_devices built = [] ->
  attach_other_devices rooms_devices_data built = Ok data ->
  others_indexed data.
Proof.
  unfold attach_other_devices. intros Hnone H.
  destruct (other_device_payloads rooms_devices_data) as [others| |]; cbn [obind] in H;
    try discriminate.
  refine (for_each_invariant others_indexed _ others _ built data _ H).
  - intros x d d' Hd Hx. apply process_other_device_effect in Hx.
    destruct Hx as (device & kd & _ & _ & _ & _ & _ & Hkd & Hdevices & Hothers & _).
    intros dev Hdev. rewrite Hothers in Hdev. rewrite Hdevices.
    apply in_app_or in Hdev. destruct Hdev as [Hdev|[<-|[]]].
    + destruct (Hd dev Hdev) as (k & d0 & Hk & Hget).
      destruct (get_set_keeps kd k device _ _ Hget) as (d1 & Hd1). now exists k, d1.
    + exists kd, device. split; [assumption|apply get_set_same].
  - intros dev Hdev. rewrite Hnone in Hdev. destruct Hdev.
Qed.

(** X14.  The keys of the flat index of a snapshot are exactly the serial
    numbers of the devices the snapshot lists, under a room or among the
    other devices: nothing else is indexed, and nothing listed is left out. *)
Theorem flat_index_keys home_id home_name presence rooms_data rooms_devices_data data :
  normalize home_id home_name presence rooms_data rooms_devices_data = Ok data ->
  forall k,
    Dict.mem k (TadoXData.devices data) = true <->
    exists d, in_snapshot data d /\ key_of (TadoXDevice.serial_number d) = Ok k.
Proof.
  unfold normalize. intros H k.
  apply obind_inv_ok in H. destruct H as (built & Hbuilt & H).
  destruct (build_rooms_consistent _ _ _ _ _ _ Hbuilt) as [Hc Hnone].
  pose proof (build_rooms_keys _ _ _ _ _ _ Hbuilt) as Hnd.
  pose proof (attach_others_indexed _ _ _ Hnone H) as Hothers.
  destruct (attach_other_devices_inv _ _ _ Hc Hnd Hnone H) as ([HK HP _ HS _ _] & _).
  unfold Dict.mem. split.
  - destruct (Dict.get k (TadoXData.devices data)) as [d|] eqn:Hget; [|discriminate].
    intros _. exists d. split; [exact (HS _ _ Hget)|exact (HK _ _ Hget)].
  - intros (d & [Hd|Hd] & Hk).
    + destruct (HP d Hd) as (k' & d' & Hk' & Hget).
      rewrite Hk in Hk'. inversion Hk'; subst k'. now rewrite Hget.
    + destruct (Hothers d Hd) as (k' & d' & Hk' & Hget).
      rewrite Hk in Hk'. inversion Hk'; subst k'. now rewrite Hget.
Qed.
(** *** Well-formed payloads never make the normaliser raise *)

Lemma build_room_returns room_data room_id shown :
  room_state_shape room_data = true ->
  py_str room_id = Ok shown ->
  exists room, build_room room_data room_id = Ok room.
Proof.
  unfold room_state_shape. cbv zeta. intros Hshape Hshown.
  repeat (apply andb_prop in Hshape; destruct Hshape as [Hshape ?]).
  destruct room_data as [| | | | | |kv]; try discriminate. clear Hshape.
  pose proof get_if_truthy as Hif.
  unfold build_room, py_get, field in *. rewrite Hshown.
  repeat first
    [ progress cbn [obind]
    | progress change (py_get_or (JDict kv) ?k ?d) with (Ok (field_or (JDict kv) k d))
    | rewrite get_optional by assumption
    | rewrite Hif by assumption ].
  eexists. reflexivity.
Qed.

Lemma id_shape_key v : id_shape v = true -> exists k, key_of v = Ok k.
Proof. destruct v; try discriminate; intros _; eexists; reflexivity. Qed.

Lemma id_shape_str v : id_shape v = true -> exists shown, py_str v = Ok shown.
Proof. destruct v; try discriminate; intros _; eexists; reflexivity. Qed.

Lemma get_of_object v k default :
  is_object v = true -> py_get_or v k default = Ok (field_or v k default).
Proof. destruct v; try discriminate. reflexivity. Qed.

Lemma build_device_returns device_data room_id room_name :
  device_shape device_data = true ->
  exists d,
    build_device device_data room_id room_name = Ok d /\
    exists k, key_of (TadoXDevice.serial_number d) = Ok k.
Proof.
  unfold device_shape. intros H.
  apply andb_prop in H. destruct H as [H Hserial]. apply andb_prop in H.
  destruct H as [Hobj Hconn].
  unfold build_device, py_get. rewrite !(get_of_object _ _ _ Hobj). cbn [obind].
  rewrite (get_optional _ _ _ Hconn). cbn [obind].
  eexists. split; [reflexivity|]. cbn. exact (id_shape_key _ Hserial).
Qed.

(** A loop whose every turn returns, returns. *)
Lemma for_each_returns {A S} (P : S -> Prop) (body : A -> S -> outcome S) xs :
  (forall x s, In x xs -> P s -> exists s', body x s = Ok s' /\ P s') ->
  forall s, P s -> exists s', for_each xs body s = Ok s' /\ P s'.
Proof.
  induction xs as [|x xs IH]; intros Hstep s Hs; cbn [for_each].
  - now exists s.
  - destruct (Hstep x s (or_introl eq_refl) Hs) as (s1 & -> & Hs1). cbn [obind].
    apply IH; [|assumption]. intros x0 s0 Hin. apply Hstep. now right.
Qed.

Lemma add_room_devices_return listed room index :
  forallb device_shape listed = true ->
  exists filled, for_each listed add_room_device (room, index) = Ok filled.
Proof.
  intros Hshape.
  destruct (for_each_returns
              (fun acc => TadoXRoom.room_id (fst acc) = TadoXRoom.room_id room /\
                          TadoXRoom.name (fst acc) = TadoXRoom.name room)
              add_room_device listed) with (s := (room, index)) as (filled & H & _).
  - intros x [r i] Hin [Hid Hname]. cbn [fst] in *.
    rewrite forallb_forall in Hshape.
    destruct (build_device_returns x (TadoXRoom.room_id r) (TadoXRoom.name r) (Hshape x Hin))
      as (d & Hd & k & Hk).
    unfold add_room_device, index_device. cbn [fst snd]. rewrite Hd. cbn [obind].
    rewrite Hk. cbn [obind]. eexists. split; [reflexivity|]. now cbn.
  - now split.
  - now exists filled.
Qed.

Lemma last_under_in name k payloads payload :
  last_under name k payloads = Some payload -> In payload payloads.
Proof.
  induction payloads as [|x payloads IH] using rev_ind.
  - discriminate.
  - rewrite last_under_snoc. intros H. apply in_or_app.
    destruct (payload_key name x) as [k'|]; [|left; now apply IH].
    destruct (pykey_eqb k k'); [|left; now apply IH].
    inversion H. right. now left.
Qed.

Lemma listed_in_shape room_infos k :
  forallb room_info_shape room_infos = true ->
  exists listed, listed_in room_infos k = JList listed /\ forallb device_shape listed = true.
Proof.
  intros Hshape. unfold listed_in.
  destruct (last_under "roomId" k room_infos) as [room_info|] eqn:E;
    [|now exists []].
  apply last_under_in in E. rewrite forallb_forall in Hshape.
  specialize (Hshape _ E). unfold room_info_shape in Hshape.
  apply andb_prop in Hshape. destruct Hshape as [_ Hdevices].
  destruct (field_or room_info "devices" (JList [])) as [| | | | |listed|]; try discriminate.
  now exists listed.
Qed.

Lemma topology_map_returns room_infos :
  forallb room_info_shape room_infos = true ->
  exists room_devices_map, for_each room_infos map_room_devices [] = Ok room_devices_map.
Proof.
  intros Hshape.
  destruct (for_each_returns (fun _ => True) map_room_devices room_infos)
    with (s := @nil (pykey * json)) as (m & H & _); [|trivial|now exists m].
  intros x m Hin _. rewrite forallb_forall in Hshape. specialize (Hshape x Hin).
  unfold room_info_shape in Hshape.
  apply andb_prop in Hshape. destruct Hshape as [Hshape _].
  apply andb_prop in Hshape. destruct Hshape as [Hobj Hid].
  unfold map_room_devices, py_get. rewrite !(get_of_object _ _ _ Hobj). cbn [obind].
  destruct (truthy _); [|now eexists].
  destruct (id_shape_key _ Hid) as (k & Hk). unfold field in Hk. rewrite Hk. cbn [obind].
  now eexists.
Qed.

Lemma process_room_returns room_infos room_devices_map room_data data :
  forallb room_info_shape room_infos = true ->
  for_each room_infos map_room_devices [] = Ok room_devices_map ->
  room_state_shape room_data = true ->
  id_shape (field room_data "id") = true ->
  exists data', process_room room_devices_map room_data data = Ok data'.
Proof.
  intros Hinfos Hmap Hshape Hid.
  assert (Hobj : is_object room_data = true).
  { unfold room_state_shape in Hshape. cbv zeta in Hshape.
    repeat (apply andb_prop in Hshape; destruct Hshape as [Hshape _]). assumption. }
  unfold process_room, py_get. rewrite (get_of_object _ _ _ Hobj). cbn [obind].
  fold (field room_data "id").
  destruct (truthy (field room_data "id")); cbn [negb]; [|now eexists].
  destruct (id_shape_str _ Hid) as (shown & Hshown).
  destruct (build_room_returns _ _ _ Hshape Hshown) as (room & ->). cbn [obind].
  destruct (id_shape_key _ Hid) as (k & ->). cbn [obind].
  pose proof (topology_listed _ _ Hmap k) as Hlisted. unfold listed_for in Hlisted.
  rewrite Hlisted. destruct (listed_in_shape _ k Hinfos) as (listed & -> & Hdevices).
  cbn [py_iter obind].
  destruct (add_room_devices_return listed room (TadoXData.devices data) Hdevices)
    as (filled & ->).
  cbn [obind]. now eexists.
Qed.

Lemma build_rooms_returns home_id home_name presence rooms_data rooms_devices_data :
  well_formed rooms_data rooms_devices_data = true ->
  exists built,
    build_rooms home_id home_name presence rooms_data rooms_devices_data = Ok built.
Proof.
  unfold well_formed. intros H.
  apply andb_prop in H. destruct H as [H _].
  apply andb_prop in H. destruct H as [H Hinfos].
  apply andb_prop in H. destruct H as [Hstates Hobj].
  destruct rooms_data as [| | | | |states|]; try discriminate.
  unfold build_rooms. rewrite (get_of_object _ _ _ Hobj). cbn [obind].
  destruct (field_or rooms_devices_data "rooms" (JList [])) as [| | | | |room_infos|];
    try discriminate.
  cbn [py_iter obind].
  destruct (topology_map_returns _ Hinfos) as (room_devices_map & Hmap).
  rewrite Hmap. cbn [obind].
  destruct (for_each_returns (fun _ => True) (process_room room_devices_map) states)
    with (s := TadoXData.mk home_id home_name presence [] [] [])
    as (built & Hbuilt & _); [|trivial|now exists built].
  intros x d Hin _. rewrite forallb_forall in Hstates. specialize (Hstates x Hin).
  apply andb_prop in Hstates. destruct Hstates as [Hshape Hid].
  destruct (process_room_returns _ _ x d Hinfos Hmap Hshape Hid) as (d' & Hd').
  now exists d'.
Qed.
Lemma room_named_returns v rooms :
  (exists k, key_of v = Ok k) -> exists named, room_named v rooms = Ok named.
Proof.
  intros (k & Hk). unfold room_named. destruct (truthy v); [|now eexists].
  rewrite Hk. cbn [obind]. now eexists.
Qed.

Lemma process_other_device_returns room_with_most_devices device_data data :
  other_device_shape device_data = true ->
  fallback_known room_with_most_devices data ->
  exists data',
    process_other_device room_with_most_devices device_data data = Ok data' /\
    fallback_known room_with_most_devices data'.
Proof.
  unfold other_device_shape, device_shape. intros H Hknown.
  apply andb_prop in H. destruct H as [H Hroom]. apply andb_prop in H.
  destruct H as [H Hserial]. apply andb_prop in H. destruct H as [Hobj Hconn].
  assert (Hassoc : exists rid rname,
             associate room_with_most_devices (field device_data "roomId")
               (field_or device_data "type" (JStr "")) (TadoXData.rooms data)
             = Ok (rid, rname) /\ exists k, key_of rid = Ok k).
  { unfold associate.
    destruct (room_named_returns (field device_data "roomId") (TadoXData.rooms data)
                (id_shape_key _ Hroom)) as (named & ->).
    cbn [obind]. destruct named as [[k r]|].
    - eexists _, _. split; [reflexivity|exact (id_shape_key _ Hroom)].
    - destruct (eq_str _ "TR04"); cbn [andb].
      + destruct (truthy room_with_most_devices) eqn:Hmost.
        * destruct (Hknown Hmost) as (k & r & Hk & Hr).
          unfold room_at. rewrite Hk. cbn [obind]. rewrite Hr. cbn [obind].
          eexists _, _. split; [reflexivity|now exists k].
        * eexists _, _. split; [reflexivity|exact (id_shape_key _ Hroom)].
      + eexists _, _. split; [reflexivity|exact (id_shape_key _ Hroom)]. }
  destruct Hassoc as (rid & rname & Hassoc & Hrid).
  destruct (room_named_returns rid (TadoXData.rooms data) Hrid) as (home & Hhome).
  destruct (id_shape_key _ Hserial) as (kd & Hkd).
  unfold process_other_device, py_get. rewrite !(get_of_object _ _ _ Hobj). cbn [obind].
  fold (field device_data "roomId"). rewrite Hassoc. cbn [obind fst snd].
  rewrite (get_optional _ _ _ Hconn). cbn [obind]. rewrite Hhome. cbn [obind].
  unfold index_device. cbn [TadoXDevice.serial_number]. rewrite Hkd. cbn [obind].
  eexists. split; [reflexivity|].
  intros Hmost. destruct (Hknown Hmost) as (k & r & Hk & Hr).
  cbn [TadoXData.rooms]. destruct home as [[k0 r0]|]; [|now exists k, r].
  destruct (get_set_keeps k0 k (TadoXRoom.append
              {| TadoXDevice.serial_number := field_or device_data "serialNumber" (JStr "");
                 TadoXDevice.device_type := field_or device_data "type" (JStr "");
                 TadoXDevice.firmware_version :=
                   field_or device_data "firmwareVersion" (JStr "");
                 TadoXDevice.connection_state :=
                   field_or (field device_data "connection") "state" (JStr "DISCONNECTED");
                 TadoXDevice.battery_state := JNull;
                 TadoXDevice.temperature_measured := JNull;
                 TadoXDevice.temperature_offset := JFloat 0;
                 TadoXDevice.mounting_state := JNull;
                 TadoXDevice.child_lock_enabled := JBool false;
                 TadoXDevice.room_id := rid;
                 TadoXDevice.room_name := rname |} r0) _ _ Hr) as (r' & Hr').
  now exists k, r'.
Qed.

Lemma most_devices_known built :
  NoDup (map fst (TadoXData.rooms built)) ->
  fallback_known (fst (most_devices (TadoXData.rooms built))) built.
Proof.
  intros Hnd. unfold fallback_known. rewrite most_devices_densest. cbn [fst].
  destruct (densest (TadoXData.rooms built)) as [[k r]|] eqn:E; [|discriminate].
  intros _. exists k, r. cbn [fst]. split; [apply key_of_json_of_key|].
  apply in_get_nodup; [assumption|]. now apply densest_in.
Qed.

(** X15.  Normalisation never raises on well-formed payloads: a list of
    room states whose optional sub-objects are missing, null or objects, and
    a topology object whose rooms list device objects and whose other
    devices are objects, ids and serial numbers being null, integers or
    strings.  Rooms without devices, devices without a room and thermostats
    with no room to fall back on are all within that shape. *)
Theorem normalize_returns home_id home_name presence rooms_data rooms_devices_data :
  well_formed rooms_data rooms_devices_data = true ->
  exists data,
    normalize home_id home_name presence rooms_data rooms_devices_data = Ok data.
Proof.
  intros Hshape.
  destruct (build_rooms_returns home_id home_name presence _ _ Hshape) as (built & Hbuilt).
  unfold normalize. rewrite Hbuilt. cbn [obind].
  pose proof (build_rooms_keys _ _ _ _ _ _ Hbuilt) as Hnd.
  unfold well_formed in Hshape. apply andb_prop in Hshape. destruct Hshape as [Hshape Hothers].
  apply andb_prop in Hshape. destruct Hshape as [Hshape _].
  apply andb_prop in Hshape. destruct Hshape as [_ Hobj].
  unfold attach_other_devices, other_device_payloads, py_get.
  rewrite (get_of_object _ _ _ Hobj). cbn [obind].
  fold (field rooms_devices_data "otherDevices").
  destruct (py_or (field rooms_devices_data "otherDevices") (JList []))
    as [| | | | |others|]; try discriminate.
  cbn [py_iter obind].
  destruct (for_each_returns
              (fallback_known (fst (most_devices (TadoXData.rooms built))))
              (process_other_device (fst (most_devices (TadoXData.rooms built)))) others)
    with (s := built) as (data & Hdata & _).
  - intros x d Hin Hd. rewrite forallb_forall in Hothers.
    exact (process_other_device_returns _ _ _ (Hothers x Hin) Hd).
  - now apply most_devices_known.
  - now exists data.
Qed.
Lemma room_named_kept built rooms raw k r :
  same_rooms built rooms ->
  room_named raw built = Ok (Some (k, r)) ->
  exists r0,
    room_named raw rooms = Ok (Some (k, r0)) /\ TadoXRoom.name r0 = TadoXRoom.name r.
Proof.
  intros Hsame H. apply room_named_some in H. destruct H as (Htruthy & Hk & Hr).
  specialize (Hsame k). rewrite Hr in Hsame.
  destruct (Dict.get k rooms) as [r0|] eqn:Hr0; [|discriminate].
  exists r0. inversion Hsame. split; [|reflexivity].
  unfold room_named. rewrite Htruthy, Hk. cbn [obind]. now rewrite Hr0.
Qed.

Lemma attached_step built room_with_most_devices device_data data data' :
  other_phase built data ->
  process_other_device room_with_most_devices device_data data = Ok data' ->
  exists device,
    TadoXData.other_devices data' = (TadoXData.other_devices data ++ [device])%list /\
    attached built data' device_data device.
Proof.
  intros [_ Hsame] H. apply process_other_device_effect in H.
  destruct H as (device & kd & raw & device_type & Hraw & _ & Hassoc & _ & _ & Hothers
                 & Hrooms).
  exists device. split; [assumption|].
  intros raw' k r Hraw' Hnamed. assert (raw' = raw) by congruence. subst raw'.
  destruct (room_named_kept _ _ _ _ _ Hsame Hnamed) as (r0 & Hnamed0 & Hname).
  unfold associate in Hassoc. rewrite Hnamed0 in Hassoc. cbn [obind] in Hassoc.
  inversion Hassoc as [[Hid Hrn]]. rewrite Hname. repeat split; trivial.
  rewrite <- Hid in Hrooms. rewrite Hnamed0 in Hrooms.
  destruct Hrooms as [(k' & r' & Heq & Hrooms)|[Heq _]]; [|discriminate].
  inversion Heq; subst k' r'. rewrite Hrooms, get_set_same.
  eexists. split; [reflexivity|]. cbn. apply in_or_app. right. now left.
Qed.

Lemma attached_stable built room_with_most_devices device_data data data' x0 b0 :
  process_other_device room_with_most_devices device_data data = Ok data' ->
  attached built data x0 b0 -> attached built data' x0 b0.
Proof.
  intros H Hold raw k r Hraw Hnamed.
  destruct (Hold raw k r Hraw Hnamed) as (Hid & Hname & r' & Hr' & Hin).
  repeat split; trivial.
  apply process_other_device_effect in H.
  destruct H as (device & _ & _ & _ & _ & _ & _ & _ & _ & _ & Hrooms).
  destruct Hrooms as [(k0 & r0 & Hnamed0 & Hrooms)|[_ Hrooms]]; rewrite Hrooms.
  - apply room_named_some in Hnamed0. destruct Hnamed0 as (_ & _ & Hr0).
    rewrite get_set. destruct (pykey_eqb_spec k k0) as [->|_]; [|eauto].
    eexists. split; [reflexivity|]. cbn. apply in_or_app. left. congruence.
  - eauto.
Qed.

(** X26.  Every other-device payload whose [roomId] names one of the rooms
    built from the room states becomes a device that keeps that room id,
    carries that room's name and is appended to that room's devices list,
    whatever its type. *)
Theorem other_device_joins_named_room home_id home_name presence rooms_data
        rooms_devices_data built data :
  build_rooms home_id home_name presence rooms_data rooms_devices_data = Ok built ->
  attach_other_devices rooms_devices_data built = Ok data ->
  exists others,
    other_device_payloads rooms_devices_data = Ok others /\
    Forall2 (attached (TadoXData.rooms built) data) others (TadoXData.other_devices data).
Proof.
  intros Hbuilt H.
  destruct (build_rooms_consistent _ _ _ _ _ _ Hbuilt) as [Hc Hnone].
  unfold attach_other_devices in H. cbv zeta in H.
  destruct (other_device_payloads rooms_devices_data) as [others| |]; cbn [obind] in H;
    try discriminate.
  destruct (for_each_collect_stable (other_phase (TadoXData.rooms built))
              TadoXData.other_devices (attached (TadoXData.rooms built))
              (process_other_device (fst (most_devices (TadoXData.rooms built)))) others)
    with (s := built) (s' := data) as (_ & devices & Hout & Hall); trivial.
  - intros x s s' Hs Hx. split.
    + now apply (process_other_device_phase _ _ _ _ _ Hs Hx).
    + exact (attached_step _ _ _ _ _ Hs Hx).
  - intros x s s' x0 b0 _ Hx. exact (attached_stable _ _ _ _ _ _ _ Hx).
  - split; [assumption|]. intros k. reflexivity.
  - exists others. rewrite Hnone in Hout. cbn in Hout. rewrite Hout. now split.
Qed.

(** ** The poll cycle: geofencing, failures and offset sync *)

Section Cycle.
Variable C : Const.
Variable float_of_str : string -> option float.
Variable hass : Hass.

Lemma try_exception_inv_raise {A} (m : M A) (k : exn -> M A) s e s' :
  try_except m (except_Exception k) s = (Raise e, s') ->
  exists e0 s1, m s = (Raise e0, s1) /\ k e0 s1 = (Raise e, s').
Proof.
  unfold try_except, except_Exception.
  destruct (m s) as [[a|e0|w] s1]; try discriminate. now exists e0, s1.
Qed.

Lemma presence_or_none_returns home_state s :
  home_state = JNull \/ is_object home_state = true ->
  presence_or_none home_state s = (Ok (field home_state "presence"), s).
Proof.
  intros [->|H]; [reflexivity|]. destruct home_state; try discriminate.
  unfold presence_or_none. destruct kv; reflexivity.
Qed.

Lemma get_home_state_object s hs s' :
  get_home_state C s = (Ok hs, s') -> is_object hs = true.
Proof.
  unfold get_home_state. intros H. peel H. peel H. inversion H.
  apply dict_or_empty_object.
Qed.

(** X16.  The geofencing check never raises, whether it is handed the home
    state or fetches it itself: whatever goes wrong while it reads the
    mobile devices or switches the presence is caught, and the presence of
    the home state it had is returned instead. *)
Theorem geofencing_never_raises home_state (s : St) e (s' : St) :
  home_state = JNull \/ is_object home_state = true ->
  async_geofencing_check C home_state s <> (Raise e, s').
Proof.
  intros Hshape H. unfold async_geofencing_check in H.
  destruct (is_none home_state) eqn:Hnone.
  - apply bind_inv_raise in H. destruct H as [H|(fetched & s1 & Hfetch & H)].
    + apply try_exception_inv_raise in H. destruct H as (e0 & s0 & _ & H). discriminate.
    + destruct fetched as [hs|]; [|discriminate].
      apply try_exception_inv_raise in H. destruct H as (e0 & s0 & _ & H).
      assert (Hobj : is_object hs = true).
      { apply try_inv_ok in Hfetch. destruct Hfetch as [Hf|(e1 & s2 & c & _ & Hc & Hf)].
        - peel Hf. inversion Hf; subst. exact (get_home_state_object _ _ _ E).
        - inversion Hc; subst. discriminate. }
      rewrite (presence_or_none_returns hs s0 (or_intror Hobj)) in H. discriminate.
  - apply try_exception_inv_raise in H. destruct H as (e0 & s0 & _ & H).
    rewrite (presence_or_none_returns home_state s0 Hshape) in H. discriminate.
Qed.

End Cycle.
Section Cycle2.
Variable C : Const.

Lemma note_device_home_effect device devices_home :
  mobile_device_shape device = true ->
  note_device_home device devices_home
  = Ok (if at_home device then devices_home ++ [field device "name"] else devices_home)%list.
Proof.
  unfold mobile_device_shape, at_home. intros H.
  apply andb_prop in H. destruct H as [H Hlocation]. apply andb_prop in H.
  destruct H as [Hobj Hsettings].
  unfold note_device_home, py_get. rewrite !(get_of_object _ _ _ Hobj). cbn [obind].
  rewrite (get_of_object _ _ _ Hsettings). cbn [obind].
  fold (field device "location").
  destruct (truthy (field_or (field_or device "settings" empty_dict) "geoTrackingEnabled"
                      (JBool false))); cbn [andb]; [|reflexivity].
  destruct (truthy (field device "location")) eqn:Hloc; cbn [andb]; [|reflexivity].
  unfold optional_object in Hlocation. rewrite Hloc in Hlocation. cbn [negb orb] in Hlocation.
  rewrite (get_of_object _ _ _ Hlocation). cbn [obind].
  fold (field (field device "location") "atHome").
  destruct (truthy (field (field device "location") "atHome")); reflexivity.
Qed.

Lemma devices_home_noted devices devices_home :
  forallb mobile_device_shape devices = true ->
  for_each devices note_device_home devices_home
  = Ok (devices_home ++ map (fun d => field d "name") (filter at_home devices))%list.
Proof.
  revert devices_home. induction devices as [|d devices IH]; intros devices_home Hshape;
    cbn [for_each forallb filter map] in *.
  - now rewrite app_nil_r.
  - apply andb_prop in Hshape. destruct Hshape as [Hd Hrest].
    rewrite (note_device_home_effect _ _ Hd). cbn [obind]. rewrite (IH _ Hrest).
    destruct (at_home d); [|reflexivity]. cbn [map]. now rewrite <- app_assoc.
Qed.

Lemma filter_nonempty {A} (f : A -> bool) l :
  match filter f l with [] => false | _ => true end = existsb f l.
Proof.
  induction l as [|x l IH]; [reflexivity|]. cbn [filter existsb].
  destruct (f x); [reflexivity|exact IH].
Qed.

(** X17.  Handed the home state, and with well-formed mobile devices
    fetched, the geofencing check puts the home in HOME mode when a tracked
    device is at home and the presence is AWAY, in AWAY mode when none is and
    the presence is HOME, and sends nothing more otherwise.  Whether the
    switch succeeds or raises, it returns the presence the home state had
    before the switch. *)
Theorem geofencing_switches_presence home_state devices (s s1 : St) :
  is_object home_state = true ->
  get_mobile_devices C s = (Ok (JList devices), s1) ->
  forallb mobile_device_shape devices = true ->
  let presence := field home_state "presence" in
  match presence_switch presence (existsb at_home devices) with
  | None => async_geofencing_check C home_state s = (Ok presence, s1)
  | Some target =>
      forall r s2,
        set_presence C target s1 = (r, s2) ->
        async_geofencing_check C home_state s
        = (match r with Beyond why => Beyond why | _ => Ok presence end, s2)
  end.
Proof.
  intros Hobj Hfetch Hshape. cbv zeta.
  assert (Hnone : is_none home_state = false) by (destruct home_state; try discriminate; reflexivity).
  unfold async_geofencing_check. rewrite Hnone.
  assert (Hbody : geofencing_body C home_state s
                  = bind (match filter at_home devices with
                          | [] => if eq_str (field home_state "presence") "HOME"
                                  then set_presence C "AWAY" else ret tt
                          | _ :: _ => if eq_str (field home_state "presence") "AWAY"
                                      then set_presence C "HOME" else ret tt
                          end)
                         (fun _ => ret (field home_state "presence")) s1).
  { unfold geofencing_body.
    rewrite (bind_ok (lift (py_get home_state "presence")) _ s (field home_state "presence") s)
      by (unfold lift, py_get; now rewrite (get_of_object _ _ _ Hobj)).
    rewrite (bind_ok _ _ _ _ _ Hfetch).
    rewrite (bind_ok (lift (py_iter (JList devices))) _ s1 devices s1 eq_refl).
    rewrite (bind_ok (lift (for_each devices note_device_home [])) _ s1
               (map (fun d => field d "name") (filter at_home devices)) s1)
      by (unfold lift; now rewrite (devices_home_noted _ [] Hshape)).
    now destruct (filter at_home devices). }
  unfold try_except. rewrite Hbody. clear Hbody.
  unfold presence_switch. rewrite <- (filter_nonempty at_home devices).
  pose proof (presence_or_none_returns home_state) as Hhandler.
  destruct (filter at_home devices) as [|d ds].
  - destruct (eq_str (field home_state "presence") "HOME").
    + intros r s2 Hset. unfold bind at 1. rewrite Hset.
      destruct r as [[]|e|w]; [reflexivity| |reflexivity].
      unfold except_Exception. apply Hhandler. now right.
    + reflexivity.
  - destruct (eq_str (field home_state "presence") "AWAY").
    + intros r s2 Hset. unfold bind at 1. rewrite Hset.
      destruct r as [[]|e|w]; [reflexivity| |reflexivity].
      unfold except_Exception. apply Hhandler. now right.
    + reflexivity.
Qed.

End Cycle2.
Section Cycle3.
Variable C : Const.
Variable float_of_str : string -> option float.
Variable hass : Hass.

(** X18.  An exception leaves [_async_update_data] exactly when one is raised
    inside it, by a fetch, by the normaliser or by the offset sync, and what
    leaves is [UpdateFailed] worded after the one raised: "Authentication
    error: ..." with the message of a [TadoXAuthError], "API error: ..." with
    that of a [TadoXApiError], and "Unexpected error: ..." with the text of
    anything else, a malformed payload included.  So it is for the first
    fetch, that of the home state. *)
Theorem update_raises_update_failed self (s : St) :
  (forall e s',
      _async_update_data C float_of_str hass self s = (Raise e, s') ->
      exists inner,
        update_cycle C float_of_str hass self s = (Raise inner, s') /\
        e = UpdateFailed (wording inner))
  /\
  (forall inner s',
      update_cycle C float_of_str hass self s = (Raise inner, s') ->
      _async_update_data C float_of_str hass self s
      = (Raise (UpdateFailed (wording inner)), s'))
  /\
  (forall inner s',
      get_home_state C s = (Raise inner, s') ->
      _async_update_data C float_of_str hass self s
      = (Raise (UpdateFailed (wording inner)), s')).
Proof.
  assert (Hwrap : forall inner s',
             update_cycle C float_of_str hass self s = (Raise inner, s') ->
             _async_update_data C float_of_str hass self s
             = (Raise (UpdateFailed (wording inner)), s')).
  { intros inner s' H. unfold _async_update_data.
    rewrite (try_raise _ _ _ _ _ H). unfold except_Exception, update_failed, raise.
    now destruct inner. }
  split; [|split].
  - intros e s' H. unfold _async_update_data in H.
    apply try_exception_inv_raise in H. destruct H as (inner & s1 & Hinner & H).
    exists inner. unfold update_failed, raise in H. inversion H; subst s1.
    split; [exact Hinner|]. now destruct inner.
  - exact Hwrap.
  - intros inner s' H. apply Hwrap. unfold update_cycle.
    now rewrite (bind_raise _ _ _ _ _ H).
Qed.

Lemma process_room_header room_devices_map room_data data data' :
  process_room room_devices_map room_data data = Ok data' -> header data' = header data.
Proof.
  intros H. apply process_room_effect in H.
  destruct H as [->|(room_id & room & rk & listed & devs & index' & _ & _ & _ & _ & _ & _ & _ & ->)];
    reflexivity.
Qed.

Lemma process_other_device_header room_with_most_devices device_data data data' :
  process_other_device room_with_most_devices device_data data = Ok data' ->
  header data' = header data.
Proof.
  unfold process_other_device. intros H.
  repeat (apply obind_inv_ok in H; destruct H as (? & _ & H)).
  now inversion H.
Qed.

Lemma normalize_header home_id home_name presence rooms_data rooms_devices_data data :
  normalize home_id home_name presence rooms_data rooms_devices_data = Ok data ->
  header data = (home_id, home_name, presence).
Proof.
  unfold normalize. intros H. apply obind_inv_ok in H. destruct H as (built & Hbuilt & H).
  assert (Hb : header built = (home_id, home_name, presence)).
  { unfold build_rooms in Hbuilt.
    repeat (apply obind_inv_ok in Hbuilt; destruct Hbuilt as (? & _ & Hbuilt)).
    refine (for_each_invariant (fun d => header d = (home_id, home_name, presence))
              _ _ _ (TadoXData.mk home_id home_name presence [] [] []) built eq_refl Hbuilt).
    intros item d d' Hd Hx. now rewrite (process_room_header _ _ _ _ Hx). }
  unfold attach_other_devices in H.
  apply obind_inv_ok in H. destruct H as (others & _ & H).
  refine (for_each_invariant (fun d => header d = (home_id, home_name, presence))
            _ _ _ _ data Hb H).
  intros item d d' Hd Hx. now rewrite (process_other_device_header _ _ _ _ Hx).
Qed.

(** X19.  With auto-offset-sync off, the snapshot a poll cycle returns is the
    normalisation of the room states and the topology it fetched, in that
    order, after the home state.  It carries the coordinator's home id and
    home name and the presence the home state had when the cycle began: a
    switch the geofencing check makes in between does not show in it. *)
Theorem update_returns_normalized self (s : St) data (s' : St) :
  auto_offset_sync self = false ->
  _async_update_data C float_of_str hass self s = (Ok data, s') ->
  exists home_state s1 rooms_data s2 rooms_devices_data,
    get_home_state C s = (Ok home_state, s1) /\
    get_rooms C (if geofencing_enabled self
                 then snd (async_geofencing_check C home_state s1) else s1)
    = (Ok rooms_data, s2) /\
    get_rooms_and_devices C s2 = (Ok rooms_devices_data, s') /\
    normalize (home_id self) (home_name self) (field home_state "presence")
      rooms_data rooms_devices_data = Ok data /\
    header data = (home_id self, home_name self, field home_state "presence").
Proof.
  intros Hsync H. unfold _async_update_data, update_cycle in H. rewrite Hsync in H.
  apply try_inv_ok in H. destruct H as [H|(e & s0 & c & _ & Hc & H)].
  2:{ inversion Hc; subst. discriminate. }
  peel H. rename a into home_state, s0 into s1, E into Hstate.
  pose proof (get_home_state_object _ _ _ _ Hstate) as Hobj.
  peel H. apply lift_inv_ok in E. destruct E as [E ->].
  unfold py_get in E. rewrite (get_of_object _ _ _ Hobj) in E. inversion E; subst a; clear E.
  peel H. peel H. peel H. peel H. peel H. peel H.
  apply lift_inv_ok in E2. destruct E2 as [Hnorm ->].
  inversion E3; subst a3 s5; clear E3. cbv [ret] in E4, H.
  inversion E4; inversion H; subst; clear E4 H.
  exists home_state, s1, a0, s2, a1.
  assert (Hs0 : s0 = if geofencing_enabled self
                     then snd (async_geofencing_check C home_state s1) else s1).
  { destruct (geofencing_enabled self).
    - peel E. inversion E; subst. now rewrite E2.
    - now inversion E. }
  rewrite <- Hs0. repeat split; trivial.
  exact (normalize_header _ _ _ _ _ _ Hnorm).
Qed.

End Cycle3.
Section Cycle4.
Variable C : Const.
Variable float_of_str : string -> option float.
Variable hass : Hass.

(** One turn of the loop over the mappings either leaves the queue as it
    was or queues a clamped offset under the serial of a device of the
    snapshot. *)
Lemma sync_mapping_effect hysteresis data room_config queue queue' :
  sync_mapping C float_of_str hass hysteresis data room_config queue = Ok queue' ->
  queue' = queue \/
  exists serial device c,
    Dict.get (KStr serial) (TadoXData.devices data) = Some device /\
    queue' = Dict.set (KStr serial) (PyFloat.max2 (-3) (PyFloat.min2 3 c)) queue.
Proof.
  assert (Hskip : Ok queue = Ok queue' ->
                  queue' = queue \/
                  exists serial device c,
                    Dict.get (KStr serial) (TadoXData.devices data) = Some device /\
                    queue' = Dict.set (KStr serial) (PyFloat.max2 (-3) (PyFloat.min2 3 c))
                               queue)
    by (intros H; inversion H; now left).
  unfold sync_mapping. cbv zeta.
  destruct (assoc "offset_entity" room_config) as [offset_entity_id|]; [|exact Hskip].
  destruct (assoc "temperature_sensor" room_config) as [sensor_id|]; [|exact Hskip].
  destruct (_ || _); [exact Hskip|].
  destruct (entity_registry hass offset_entity_id) as [entity|]; [|exact Hskip].
  destruct (falsy_str _); [exact Hskip|].
  destruct (device_registry hass _) as [device|]; [|exact Hskip].
  destruct (find_serial C _) as [[serial|]| |]; cbn [obind]; try discriminate;
    [|exact Hskip].
  destruct (String.eqb serial ""); [exact Hskip|].
  destruct (Dict.get (KStr serial) (TadoXData.devices data)) as [device_data|] eqn:Hdevice;
    [|exact Hskip].
  destruct (is_none _); [exact Hskip|].
  destruct (states hass sensor_id) as [state|]; [|exact Hskip].
  destruct (_ || _); [exact Hskip|].
  destruct (float_of_str state) as [room_temp|]; [|exact Hskip].
  unfold desired_offset, queue_if_needed.
  destruct (PyFloat.sub room_temp _) as [difference| |]; cbn [obind]; try discriminate.
  destruct (PyFloat.sub _ _) as [delta| |]; cbn [obind]; try discriminate.
  destruct (hysteresis <? _)%float; [|exact Hskip].
  intros H. inversion H. right. now exists serial, device_data, (PyFloat.round1 difference).
Qed.

(** X20.  Whatever the readings, every offset the sync loop queues lies
    within [-3.0, 3.0] and is queued under the serial number of a device of
    the snapshot.  Once the loop has run, the controller never raises: a
    failure of the batch write is caught; and with nothing queued it sends
    nothing at all. *)
Theorem auto_sync_is_bounded self data queue (s : St) :
  for_each (room_configs self)
    (sync_mapping C float_of_str hass (offset_hysteresis self) data) [] = Ok queue ->
  (forall k offset,
      Dict.get k queue = Some offset ->
      within (-3) 3 offset = true /\
      exists serial device,
        k = KStr serial /\ Dict.get k (TadoXData.devices data) = Some device)
  /\
  (forall e s', _auto_sync_temperature_offsets C float_of_str hass self data s
                <> (Raise e, s'))
  /\
  (queue = [] ->
   _auto_sync_temperature_offsets C float_of_str hass self data s = (Ok tt, s)).
Proof.
  intros Hloop. split; [|split].
  - refine (for_each_invariant
              (fun q => forall k offset,
                   Dict.get k q = Some offset ->
                   within (-3) 3 offset = true /\
                   exists serial device,
                     k = KStr serial /\ Dict.get k (TadoXData.devices data) = Some device)
              _ _ _ [] queue _ Hloop).
    + intros room_config q q' Hq Hstep k offset Hget.
      apply sync_mapping_effect in Hstep.
      destruct Hstep as [->|(serial & device & c & Hdevice & ->)]; [now apply Hq|].
      apply get_set_some in Hget. destruct Hget as [[-> ->]|[_ Hget]]; [|now apply Hq].
      split; [|now exists serial, device].
      destruct (clamp_cases c) as ((Hlo & Hhi) & _). unfold within. now rewrite Hlo, Hhi.
    + intros k offset Hget. discriminate.
  - intros e s'. unfold _auto_sync_temperature_offsets, bind at 1, lift. rewrite Hloop.
    destruct queue; [discriminate|].
    intros H. apply try_exception_inv_raise in H. destruct H as (e0 & s0 & _ & H).
    discriminate.
  - intros ->. unfold _auto_sync_temperature_offsets, bind, lift. now rewrite Hloop.
Qed.

End Cycle4.
Section Cycle5.
Variable C : Const.
Variable float_of_str : string -> option float.
Variable hass : Hass.

Lemma nan_sub x y : is_nan x = true -> is_nan (x - y) = true.
Proof.
  unfold is_nan. rewrite sub_spec. destruct (Prim2SF x); try discriminate. intros _.
  destruct (Prim2SF y) as [[]|[]| |[]]; reflexivity.
Qed.

Lemma nan_clamped x : is_nan x = true -> PyFloat.max2 (-3) (PyFloat.min2 3 (PyFloat.round1 x)) = 3%float.
Proof.
  unfold is_nan. intros H.
  assert (Hround : PyFloat.round1 x = x).
  { unfold PyFloat.round1. destruct (Prim2SF x); try discriminate. reflexivity. }
  rewrite Hround. unfold PyFloat.min2.
  assert (Hlt : (x <? 3)%float = false).
  { rewrite ltb_spec. destruct (Prim2SF x); try discriminate. reflexivity. }
  rewrite Hlt. reflexivity.
Qed.

(** X21.  A reference reading that is not a number is not skipped: the
    rounded difference is not a number either, the clamp turns it into 3.0,
    and 3.0 is queued for the device unless the current offset is within the
    hysteresis of it. *)
Theorem nan_reading_saturates hysteresis data room_config queue serial
        reference measured current :
  available C float_of_str hass data room_config serial reference measured current ->
  is_nan reference = true ->
  sync_mapping C float_of_str hass hysteresis data room_config queue
  = Ok (if (hysteresis <? PrimFloat.abs (3 - current))%float
        then Dict.set (KStr serial) 3%float queue
        else queue).
Proof.
  intros (offset_entity_id & sensor_id & entity & registered & device & device_data & state
          & Hoe & Hoe' & Hts & Hts' & Hent & Hdid & Hdid' & Hdev & Hserial & Hserial'
          & Hdata & Hmeasured & Hcurrent & Hstate & Hunknown & Hunavailable & Hfloat) Hnan.
  apply String.eqb_neq in Hoe', Hts', Hdid', Hserial', Hunknown, Hunavailable.
  unfold sync_mapping. rewrite Hoe, Hts, Hoe', Hts'. cbn [orb].
  rewrite Hent. unfold falsy_str. rewrite Hdid, Hdid', Hdev, Hserial. cbn [obind].
  rewrite Hserial', Hdata, (operand_not_none _ _ Hmeasured), Hstate, Hunknown, Hunavailable.
  cbn [orb]. rewrite Hfloat.
  unfold desired_offset, queue_if_needed.
  rewrite (sub_operand _ _ _ Hmeasured). cbn [obind].
  rewrite (nan_clamped _ (nan_sub reference measured Hnan)).
  rewrite (sub_operand _ _ _ Hcurrent). cbn [obind].
  destruct (hysteresis <? _)%float; reflexivity.
Qed.

End Cycle5.

(** ** The switch platform *)

(** X23.  Turning a boost-mode switch or a child-lock switch on or off
    always raises [AttributeError]: the switches call [set_room_boost] and
    [set_device_child_lock], and the client has no method of either name
    (its boost method is [set_boost_mode]).  Nothing is sent and no refresh
    is requested, whatever those methods and the refresh would have done. *)
Theorem switch_toggles_raise (call : string -> list json -> M unit)
        (async_request_refresh : M unit) room_id serial_number (s : St) :
  let missing name :=
    PyError "AttributeError" ("'TadoXApi' object has no attribute '" +++ name +++ "'") in
  refuses (boost_async_turn_on call async_request_refresh room_id)
    (missing "set_room_boost") s /\
  refuses (boost_async_turn_off call async_request_refresh room_id)
    (missing "set_room_boost") s /\
  refuses (child_lock_async_turn_on call async_request_refresh serial_number)
    (missing "set_device_child_lock") s /\
  refuses (child_lock_async_turn_off call async_request_refresh serial_number)
    (missing "set_device_child_lock") s.
Proof. repeat split. Qed.

Lemma index_devices_nodup devs index index' :
  for_each devs index_device index = Ok index' ->
  NoDup (map fst index) -> NoDup (map fst index').
Proof.
  intros H Hnd.
  refine (for_each_invariant (fun i => NoDup (map fst i)) index_device devs _ index index'
            Hnd H).
  intros d i i' Hi Hd. apply index_device_inv in Hd. destruct Hd as (k & _ & ->).
  now apply set_keys_nodup.
Qed.

Lemma normalize_index_nodup home_id home_name presence rooms_data rooms_devices_data data :
  normalize home_id home_name presence rooms_data rooms_devices_data = Ok data ->
  NoDup (map fst (TadoXData.devices data)).
Proof.
  unfold normalize. intros H. apply obind_inv_ok in H. destruct H as (built & Hbuilt & H).
  assert (Hb : NoDup (map fst (TadoXData.devices built))).
  { unfold build_rooms in Hbuilt.
    repeat (apply obind_inv_ok in Hbuilt; destruct Hbuilt as (? & _ & Hbuilt)).
    refine (for_each_invariant (fun d => NoDup (map fst (TadoXData.devices d)))
              _ _ _ (TadoXData.mk home_id home_name presence [] [] []) built _ Hbuilt).
    - intros item d d' Hd Hx. apply process_room_effect in Hx.
      destruct Hx as [->|(room_id & room & rk & listed & devs & index' & _ & _ & _ & _ & _
                          & _ & Hindex & ->)]; [assumption|].
      exact (index_devices_nodup _ _ _ Hindex Hd).
    - constructor. }
  unfold attach_other_devices in H.
  apply obind_inv_ok in H. destruct H as (others & _ & H).
  refine (for_each_invariant (fun d => NoDup (map fst (TadoXData.devices d)))
            _ _ _ built data Hb H).
  intros item d d' Hd Hx. apply process_other_device_effect in Hx.
  destruct Hx as (device & kd & _ & _ & _ & _ & _ & _ & -> & _).
  now apply set_keys_nodup.
Qed.

Lemma in_get_some {V} (d : Dict.t V) k v :
  In (k, v) d -> exists v', Dict.get k d = Some v'.
Proof.
  induction d as [|[k0 v0] d IH]; [intros []|].
  intros [H|H]; cbn [Dict.get].
  - inversion H; subst. rewrite pykey_eqb_refl. now exists v.
  - destruct (pykey_eqb k k0); [now exists v0|now apply IH].
Qed.

(** X24.  Every switch [async_setup_entry] creates from a snapshot finds
    what it was created for in that snapshot: a boost-mode switch its room,
    and a child-lock switch the very device whose serial number it was given,
    a valve or a thermostat, because the flat index holds each device under
    its own serial number. *)
Theorem switches_resolve home_id home_name presence rooms_data rooms_devices_data data :
  normalize home_id home_name presence rooms_data rooms_devices_data = Ok data ->
  forall entity,
    In entity (switch_entities data) ->
    match entity with
    | TadoXBoostModeSwitch room_id =>
        exists room, boost_room data room_id = Ok (Some room)
    | TadoXChildLockSwitch serial_number =>
        exists device,
          child_lock_device data serial_number = Ok (Some device) /\
          TadoXDevice.serial_number device = serial_number /\
          has_child_lock device = true
    end.
Proof.
  intros H entity Hin.
  pose proof (normalize_index_nodup _ _ _ _ _ _ H) as Hnd.
  assert (Hkeyed : keyed data).
  { unfold normalize in H. apply obind_inv_ok in H. destruct H as (built & Hbuilt & H).
    destruct (build_rooms_consistent _ _ _ _ _ _ Hbuilt) as [Hc Hnone].
    pose proof (build_rooms_keys _ _ _ _ _ _ Hbuilt) as Hrooms.
    now destruct (attach_other_devices_inv _ _ _ Hc Hrooms Hnone H) as ([HK _ _ _ _ _] & _). }
  unfold switch_entities in Hin. apply in_app_or in Hin. destruct Hin as [Hin|Hin].
  - apply in_map_iff in Hin. destruct Hin as ([k r] & <- & Hin). cbn [fst].
    destruct (in_get_some _ _ _ Hin) as (room & Hroom). exists room.
    unfold boost_room. rewrite key_of_json_of_key. cbn [obind]. now rewrite Hroom.
  - apply in_map_iff in Hin. destruct Hin as (device & <- & Hin).
    apply filter_In in Hin. destruct Hin as [Hin Htype].
    apply in_map_iff in Hin. destruct Hin as ([k d] & Hd & Hin). cbn [snd] in Hd. subst d.
    pose proof (in_get_nodup _ _ _ Hnd Hin) as Hget.
    exists device. unfold child_lock_device. rewrite (Hkeyed _ _ Hget). cbn [obind].
    now rewrite Hget.
Qed.

(** * The theorems at work on the scenarios *)

Module Witness.
Import Scenario.

(** With no refresh token held, a 401 leads to no retry: the log holds the
  one request and the one refresh, and what comes out is the refresh's
  [TadoXAuthError]. *)
Lemma unauthorized_without_refresh_token_not_retried :
  let r := _request C0 "GET" "https://hops.example/homes/1/rooms" None
             without_refresh_token in
  fst r = Raise (TadoXAuthError "No refresh token available") /\
  refreshes (events (world (snd r))) = 1%nat /\
  requests_to "https://hops.example/homes/1/rooms" (events (world (snd r))) = 1%nat.
Proof. vm_compute. repeat split. Qed.

Lemma request_unauthorized_witness :
  let r := _request C0 "GET" "https://hops.example/homes/1/rooms" None rejected_twice in
  fst r = Raise (TadoXApiError "API error: 401 - denied") /\
  refreshes (events (world (snd r))) = 1%nat /\
  requests_to "https://hops.example/homes/1/rooms" (events (world (snd r))) = 2%nat.
Proof.
  pose (url := "https://hops.example/homes/1/rooms").
  pose (request := {| rq_method := "GET"; rq_url := url;
                      rq_headers := [("Authorization", "Bearer old");
                                     ("Content-Type", "application/json")];
                      rq_data := []; rq_json := None |}).
  pose (retry := {| rq_method := "GET"; rq_url := url;
                    rq_headers := [("Authorization", "Bearer new");
                                   ("Content-Type", "application/json")];
                    rq_data := []; rq_json := None |}).
  pose (denied := {| status := 401; content_length := None; text := Ok "denied";
                     body_json := Raise (ClientError "unexpected mimetype") |}).
  destruct (@request_unauthorized C0 "GET" url None rejected_twice rejected_twice
              request denied 1000 eq_refl eq_refl eq_refl eq_refl) as (_ & _ & H).
  destruct (H true (snd (refresh_access_token C0 (sent request 1000 rejected_twice)))
              retry eq_refl eq_refl) as (Hlog & Hraise & _).
  cbv zeta. fold url. rewrite Hlog.
  rewrite (Hraise denied 1000 "denied" eq_refl ltac:(discriminate) ltac:(discriminate)
             eq_refl).
  repeat split.
Defined.

(** A request on a token that is about to expire, answered 401: the token
  check refreshes before the request is sent and the 401 makes the client
  refresh again, twice in the one call. *)
Lemma unauthorized_on_due_token_refreshes_twice :
  let r := _request C0 "GET" "https://hops.example/homes/1/rooms" None
             (expiring_in 30 always_401) in
  fst r = Raise (TadoXApiError "API error: 401 - denied") /\
  refreshes (events (world (snd r))) = 2%nat /\
  requests_to "https://hops.example/homes/1/rooms" (events (world (snd r))) = 2%nat.
Proof. vm_compute. repeat split. Qed.

(** C8, where the code departs from it.  The request is answered 401, the
  refresh succeeds, and the retry is answered 204 with zero content
  length: [_request] raises [TadoXApiError] instead of returning [None];
  the same 204 given to the first request returns [None]. *)
Theorem retry_no_content_raises :
  fst (_request C0 "DELETE" "https://hops.example/homes/1/rooms/7/manualControl" None
         expired_session)
  = Raise (TadoXApiError "API error: 204 - ")
  /\
  fst (_request C0 "DELETE" "https://hops.example/homes/1/rooms/7/manualControl" None
         (client (JStr "new") (JStr "r1") no_content))
  = Ok JNull.
Proof. vm_compute. split; reflexivity. Qed.


Lemma poll_for_token_witness :
  let s := client JNull (JStr "held before") pending_then_issued in
  let s' := snd (poll_for_token C0 5 "device-code" 5 300 s) in
  _refresh_token (api s') = JNull /\
  _token_expiry (api s')
  = Some (Naive (1700000000 * second + 2000 + 5 * second + 3600 * second + 600 * second)).
Proof.
  cbv zeta.
  destruct (@poll_for_token_stores C0 5 "device-code" 5 300
              (client JNull (JStr "held before") pending_then_issued)
              (snd (poll_for_token C0 5 "device-code" 5 300
                      (client JNull (JStr "held before") pending_then_issued)))
              eq_refl)
    as (response & took & kv & ttl & before & Hlog & Hsrv & _ & Hjson & Httl & Hrt & Hexp).
  vm_compute in Hlog. inversion Hlog; subst before; clear Hlog.
  vm_compute in Hsrv. inversion Hsrv; subst response took; clear Hsrv.
  vm_compute in Hjson. inversion Hjson; subst kv; clear Hjson.
  vm_compute in Httl. inversion Httl; subst ttl; clear Httl.
  rewrite Hrt, Hexp. split; reflexivity.
Defined.

Lemma build_room_absent_safe_witness :
  exists room,
    build_room room_without_sensors (JInt 7) = Ok room /\
    TadoXRoom.current_temperature room = JNull /\
    TadoXRoom.humidity room = JNull /\
    TadoXRoom.target_temperature room = JFloat 21.
Proof.
  destruct (@build_room_absent_safe room_without_sensors (JInt 7) "7" eq_refl eq_refl)
    as (room & Hroom & Hsensor & _).
  exists room. destruct (Hsensor eq_refl) as [Htemp Hhum].
  repeat split; try assumption.
  vm_compute in Hroom. inversion Hroom. reflexivity.
Defined.

Lemma living_mapping_available reading reference measured current :
  reading <> "" -> reading <> "unknown" -> reading <> "unavailable" ->
  read_float reading = Some reference ->
  available C0 read_float (sync_hass reading) (snapshot_with (valve measured current))
    living_mapping "VA0001" reference measured current.
Proof.
  intros _ Hunknown Hunavailable Hread.
  exists "number.living_offset", "sensor.living_temperature",
    {| device_id := Some "device-1" |}, "device-1",
    {| identifiers := [["tado_x"; "VA0001"]]; id := "device-1" |},
    (valve measured current), reading.
  repeat split; try reflexivity; try discriminate; assumption.
Defined.

(** Reference 30.0 against a measured 20.0: the rounded difference 10.0 is
  clamped to 3.0, which is queued because it is further than the hysteresis
  from the current offset. *)
Lemma sync_mapping_queues_witness :
  sync_mapping C0 read_float (sync_hass "30.0") 0.5 (snapshot_with (valve 20 0))
    living_mapping []
  = Ok [(KStr "VA0001", 3%float)].
Proof.
  destruct (@sync_mapping_queues C0 read_float (sync_hass "30.0") 0.5
              (snapshot_with (valve 20 0)) living_mapping [] "VA0001" 30 20 0
              (@living_mapping_available "30.0" 30 20 0
                 ltac:(discriminate) ltac:(discriminate) ltac:(discriminate) eq_refl))
    as (_ & _ & _ & _ & Hqueue).
  rewrite Hqueue. reflexivity.
Defined.

(** Reference 21.3, measured 19.8, current offset 1.0: the desired offset is
  1.5, queued under a hysteresis of 0.3 and not under one of 0.6. *)
Example sync_mapping_deadband :
  sync_mapping C0 read_float (sync_hass "21.3") 0.3 (snapshot_with (valve 19.8 1))
    living_mapping [] = Ok [(KStr "VA0001", 1.5%float)]
  /\
  sync_mapping C0 read_float (sync_hass "21.3") 0.6 (snapshot_with (valve 19.8 1))
    living_mapping [] = Ok [].
Proof. split; vm_compute; reflexivity. Qed.

(** C1, where the code departs from it.  In a poll cycle whose fetches all
    succeed, with auto-offset-sync enabled and one room mapping configured,
    [_async_update_data] raises [UpdateFailed] and sends no offset write; the
    same cycle with auto-offset-sync disabled returns the snapshot. *)
Theorem update_with_auto_sync_fails :
  let enabled := _async_update_data C0 read_float (sync_hass "30.0")
                   (home_coordinator true) home_client in
  let disabled := _async_update_data C0 read_float (sync_hass "30.0")
                    (home_coordinator false) home_client in
  fst enabled
  = Raise (UpdateFailed
      "Unexpected error: 'TadoXDataUpdateCoordinator' object has no attribute 'offset_mappings'")
  /\
  requests_to "https://hops.example/homes/1/roomsAndDevices/devices/VA0001"
    (events (world (snd enabled))) = 0%nat
  /\
  fst disabled = Ok home_snapshot.
Proof. vm_compute. repeat split. Qed.


Lemma home_snapshot_normalized :
  normalize (JInt 1) (JStr "Home") (JStr "HOME") room_states_payload topology_payload
  = Ok home_snapshot.
Proof. vm_compute. reflexivity. Qed.



(** The thermostat that reports no room joins the living room, room 7, whose
    three devices outnumber the hall's one, although the hall comes first. *)
Lemma thermostat_joins_densest_room_witness :
  exists thermostat rest,
    TadoXData.other_devices home_snapshot = thermostat :: rest /\
    TadoXDevice.room_id thermostat = JInt 7 /\
    TadoXDevice.room_name thermostat = JStr "Living room".
Proof.
  destruct (thermostat_joins_densest_room (JInt 1) (JStr "Home") (JStr "HOME")
              room_states_payload topology_payload home_built home_snapshot
              eq_refl eq_refl) as (others & Hothers & Hall).
  vm_compute in Hothers. inversion Hothers; subst others; clear Hothers.
  inversion Hall as [|payload thermostat payloads rest Hfirst _]; subst.
  eexists; eexists. split; [reflexivity|].
  destruct (Hfirst JNull (JStr "TR04") eq_refl eq_refl eq_refl) as (Hid & Hname & _).
  split; assumption.
Defined.

(** ** The client *)

Lemma home_id_required_witness :
  get_home_state C0 homeless = (Raise (TadoXApiError "Home ID not set"), homeless).
Proof. exact (proj1 (home_id_required C0 homeless eq_refl)). Defined.

Lemma client_errors_never_escape_witness :
  fst (_request C0 "GET" "https://my.example/me" None offline)
  = Raise (TadoXApiError "Network error: connection reset") /\
  is_client_error (TadoXApiError "Network error: connection reset") = false.
Proof.
  split; [reflexivity|].
  apply (client_errors_never_escape C0 offline _
           (snd (_request C0 "GET" "https://my.example/me" None offline))).
  right; right; left. exists "GET", "https://my.example/me", None. reflexivity.
Defined.

Lemma ensure_valid_token_refreshes_when_due_witness :
  ensure_valid_token C0 (expiring_in 61 hourly_token) = (Ok tt, expiring_in 61 hourly_token) /\
  refreshes (events (world (snd (ensure_valid_token C0 (expiring_in 60 hourly_token))))) = 1%nat.
Proof.
  assert (Hrange : forall n, 0 <= n <= 100 ->
             threshold_in_range (Aware ((1700000000 + n) * second) 0)).
  { intros n Hn. unfold threshold_in_range, min_wall, max_wall, second. cbn [wall_of]. lia. }
  split.
  - exact (proj1 (proj2 (proj2 (ensure_valid_token_refreshes_when_due C0
                                  (expiring_in 61 hourly_token)) eq_refl)
                    _ eq_refl (Hrange 61 ltac:(lia))) eq_refl).
  - exact (proj2 (proj2 (proj2 (proj2 (proj2 (ensure_valid_token_refreshes_when_due C0
                                               (expiring_in 60 hourly_token)) eq_refl)
                                 _ eq_refl (Hrange 60 ltac:(lia))) eq_refl))).
Defined.

(** A token refreshed for an hour is found valid by the next check. *)
Lemma refreshed_token_is_checked_witness :
  let s' := snd (refresh_access_token C0 (client (JStr "old") (JStr "r1") hourly_token)) in
  ensure_valid_token C0 s' = (Ok tt, s').
Proof.
  cbv zeta.
  destruct (refreshed_token_is_checked C0 (client (JStr "old") (JStr "r1") hourly_token) true
              (snd (refresh_access_token C0 (client (JStr "old") (JStr "r1") hourly_token)))
              eq_refl eq_refl)
    as (ttl & Hexpiry & Hfresh & _).
  { unfold clock_ahead, min_wall, second. vm_compute. discriminate. }
  apply Hfresh.
  assert (Hstored : _token_expiry
                      (api (snd (refresh_access_token C0
                                   (client (JStr "old") (JStr "r1") hourly_token))))
                    = Some (Aware 1700003600001000 0)) by (vm_compute; reflexivity).
  assert (Hclock : utc_now
                     (world (snd (refresh_access_token C0
                                    (client (JStr "old") (JStr "r1") hourly_token))))
                   = 1700000000001000) by (vm_compute; reflexivity).
  rewrite Hstored, Hclock in Hexpiry.
  apply (f_equal (fun o => match o with Some d => wall_of d | None => 0 end)) in Hexpiry.
  cbv beta iota delta [wall_of] in Hexpiry. unfold second in Hexpiry. lia.
Defined.

(** A token issued by the device flow with the default lifetime, likewise. *)
Lemma polled_token_is_checked_witness :
  let s' := snd (poll_for_token C0 5 "device-code" 5 300
                   (client JNull JNull pending_then_issued)) in
  ensure_valid_token C0 s' = (Ok tt, s').
Proof.
  cbv zeta.
  destruct (polled_token_is_checked C0 5 "device-code" 5 300
              (client JNull JNull pending_then_issued)
              (snd (poll_for_token C0 5 "device-code" 5 300
                      (client JNull JNull pending_then_issued)))
              eq_refl eq_refl)
    as (ttl & Hexpiry & Hfresh & _).
  { unfold clock_ahead, min_wall, second. vm_compute. discriminate. }
  apply Hfresh.
  assert (Hstored : _token_expiry
                      (api (snd (poll_for_token C0 5 "device-code" 5 300
                                   (client JNull JNull pending_then_issued))))
                    = Some (Naive 1700004205002000)) by (vm_compute; reflexivity).
  assert (Hclock : utc_now
                     (world (snd (poll_for_token C0 5 "device-code" 5 300
                                    (client JNull JNull pending_then_issued))))
                   = 1700000005002000) by (vm_compute; reflexivity).
  assert (Hoffset : utc_offset
                      (world (snd (poll_for_token C0 5 "device-code" 5 300
                                     (client JNull JNull pending_then_issued))))
                    = 3600000000) by (vm_compute; reflexivity).
  rewrite Hstored, Hclock, Hoffset in Hexpiry.
  apply (f_equal (fun o => match o with Some d => wall_of d | None => 0 end)) in Hexpiry.
  cbv beta iota delta [wall_of] in Hexpiry. unfold second in Hexpiry. lia.
Defined.

Lemma request_answered_witness :
  _request C0 "GET" "https://hops.example/homes/1/rooms" None home_client
  = (Ok room_states_payload,
     sent {| rq_method := "GET"; rq_url := "https://hops.example/homes/1/rooms";
             rq_headers := [("Authorization", "Bearer token");
                            ("Content-Type", "application/json")];
             rq_data := []; rq_json := None |} 1000 home_client).
Proof.
  destruct (request_answered C0 "GET" "https://hops.example/homes/1/rooms" None
              home_client home_client _ _ 1000 eq_refl eq_refl eq_refl)
    as (Hstate & _ & _ & Hbody & _).
  { cbn. discriminate. }
  rewrite (surjective_pairing (_request C0 _ _ _ home_client)).
  rewrite Hstate, (Hbody room_states_payload eq_refl eq_refl eq_refl). reflexivity.
Defined.

Lemma getters_return_containers_witness :
  is_list (match fst (get_rooms C0 home_client) with Ok v => v | _ => JNull end) = true.
Proof.
  exact (proj1 (proj2 (proj2 (proj2
           (getters_return_containers C0 home_client room_states_payload
              (snd (get_rooms C0 home_client))))))
           eq_refl).
Defined.

Lemma start_device_auth_spec_witness :
  fst (start_device_auth C0 without_refresh_token)
  = Raise (TadoXAuthError "Unexpected error: Failed to start device auth: 401").
Proof.
  rewrite (proj2 (proj2 (start_device_auth_spec C0 without_refresh_token))
             _ 1000 "denied" eq_refl ltac:(cbn; discriminate) eq_refl).
  reflexivity.
Defined.

Lemma poll_for_token_timeout_edges_witness :
  poll_for_token C0 1 "device-code" 5 0 (client JNull JNull pending_then_issued)
  = (Ok false, client JNull JNull pending_then_issued).
Proof.
  apply (proj1 (poll_for_token_timeout_edges C0 0 "device-code" 5 0
                  (client JNull JNull pending_then_issued))).
  lia.
Defined.

(** ** The snapshot *)

(** Room 7 comes first although its last state comes last; the state
    without an id gives no room. *)
Lemma snapshot_rooms_witness :
  map fst (TadoXData.rooms repeated_snapshot) = [KInt 7; KInt 3].
Proof.
  exact (proj1 (snapshot_rooms (JInt 1) (JStr "Home") JNull repeated_states topology_payload
                  repeated_snapshot _ eq_refl eq_refl)).
Defined.

Lemma room_devices_carry_room_witness :
  Forall (fun d => TadoXDevice.room_id d = JInt 7 /\
                   TadoXDevice.room_name d = JStr "Living room")
         (TadoXRoom.devices living_room).
Proof.
  apply Forall_forall. intros d Hd.
  exact (room_devices_carry_room (JInt 1) (JStr "Home") (JStr "HOME") room_states_payload
           topology_payload home_snapshot eq_refl (KInt 7) living_room d eq_refl Hd).
Defined.

(** The living room holds its three valves, then the thermostat. *)
Lemma room_devices_origin_witness :
  exists devs,
    TadoXRoom.devices living_room
    = (devs ++ filter (names_room (KInt 7)) (TadoXData.other_devices home_snapshot))%list /\
    List.length devs = 3%nat.
Proof.
  destruct (room_devices_origin (JInt 1) (JStr "Home") (JStr "HOME") room_states_payload
              topology_payload home_snapshot _ eq_refl eq_refl (KInt 7) living_room eq_refl)
    as (devs & Hdevices & (listed & Hlisted & Hall) & _).
  exists devs. split; [exact Hdevices|].
  vm_compute in Hlisted. inversion Hlisted; subst listed.
  now rewrite <- (Forall2_length Hall).
Defined.

Lemma flat_index_keys_witness :
  exists d,
    in_snapshot home_snapshot d /\ TadoXDevice.serial_number d = JStr "IB0001".
Proof.
  destruct (proj1 (flat_index_keys (JInt 1) (JStr "Home") (JStr "HOME") room_states_payload
                     topology_payload home_snapshot eq_refl (KStr "IB0001")) eq_refl)
    as (d & Hd & Hk).
  exists d. split; [assumption|]. now apply (key_of_inj _ _ (KStr "IB0001")).
Defined.

Lemma normalize_returns_witness :
  exists data,
    normalize (JInt 1) (JStr "Home") JNull repeated_states topology_payload = Ok data.
Proof. exact (normalize_returns _ _ _ repeated_states topology_payload eq_refl). Defined.

(** ** The poll cycle and the switches *)

(** With the network down the check still returns the presence it was
    handed. *)
Lemma geofencing_never_raises_witness :
  fst (async_geofencing_check C0 home_state_payload offline) = Ok (JStr "HOME") /\
  forall e s', async_geofencing_check C0 home_state_payload offline <> (Raise e, s').
Proof.
  split; [reflexivity|]. intros e s'.
  apply (geofencing_never_raises C0 home_state_payload offline e s'). now right.
Defined.

(** The phone is at home and the home is AWAY: the home is switched to HOME,
    and the check returns AWAY. *)
Lemma geofencing_switches_presence_witness :
  let s1 := snd (get_mobile_devices C0 geo_client) in
  async_geofencing_check C0 away_state geo_client
  = (Ok (JStr "AWAY"), snd (set_presence C0 "HOME" s1)).
Proof.
  cbv zeta.
  pose proof (geofencing_switches_presence C0 away_state phones geo_client
                (snd (get_mobile_devices C0 geo_client)) eq_refl eq_refl eq_refl) as H.
  cbv zeta in H.
  exact (H (Ok tt) (snd (set_presence C0 "HOME" (snd (get_mobile_devices C0 geo_client))))
           eq_refl).
Defined.

(** A coordinator whose client was never given a home: the first fetch
    raises [TadoXApiError], and the update words it as an API error. *)
Lemma update_raises_update_failed_witness :
  _async_update_data C0 read_float (sync_hass "30.0") (home_coordinator false) homeless
  = (Raise (UpdateFailed "API error: Home ID not set"), homeless).
Proof.
  exact (proj2 (proj2 (update_raises_update_failed C0 read_float (sync_hass "30.0")
                         (home_coordinator false) homeless))
           (TadoXApiError "Home ID not set") homeless eq_refl).
Defined.

Lemma update_returns_normalized_witness :
  header home_snapshot = (JInt 1, JStr "Home", JStr "HOME").
Proof.
  destruct (update_returns_normalized C0 read_float (sync_hass "30.0")
              (home_coordinator false) home_client home_snapshot
              (snd (_async_update_data C0 read_float (sync_hass "30.0")
                      (home_coordinator false) home_client))
              eq_refl eq_refl)
    as (home_state & s1 & rooms_data & s2 & rooms_devices_data & _ & _ & _ & _ & _).
  reflexivity.
Defined.

Lemma auto_sync_is_bounded_witness :
  within (-3) 3 3 = true /\
  exists serial device,
    KStr "VA0001" = KStr serial /\
    Dict.get (KStr "VA0001") (TadoXData.devices (snapshot_with (valve 20 0))) = Some device.
Proof.
  exact (proj1 (auto_sync_is_bounded C0 read_float (sync_hass "30.0") (home_coordinator true)
                  (snapshot_with (valve 20 0)) [(KStr "VA0001", 3%float)] home_client
                  eq_refl)
           (KStr "VA0001") 3%float eq_refl).
Defined.

Lemma nan_mapping_available :
  available C0 read_nan (sync_hass "nan") (snapshot_with (valve 20 0))
    living_mapping "VA0001" nan 20 0.
Proof.
  exists "number.living_offset", "sensor.living_temperature",
    {| device_id := Some "device-1" |}, "device-1",
    {| identifiers := [["tado_x"; "VA0001"]]; id := "device-1" |},
    (valve 20 0), "nan".
  repeat split; try reflexivity; discriminate.
Defined.

(** A sensor whose state reads "nan" has 3.0 queued for the valve. *)
Lemma nan_reading_saturates_witness :
  sync_mapping C0 read_nan (sync_hass "nan") 0.5 (snapshot_with (valve 20 0))
    living_mapping []
  = Ok [(KStr "VA0001", 3%float)].
Proof.
  rewrite (nan_reading_saturates C0 read_nan (sync_hass "nan") 0.5
             (snapshot_with (valve 20 0)) living_mapping [] "VA0001" nan 20 0
             nan_mapping_available eq_refl).
  reflexivity.
Defined.

Lemma batch_of_one_is_single_write_witness :
  fst (set_multiple_device_temperature_offsets C0 [(KStr "VA0002", 1.5%float)] home_client)
  = Ok [(KStr "VA0002", "error: API error: 500 - device unreachable")].
Proof.
  rewrite (batch_of_one_is_single_write C0 "VA0002" 1.5 home_client eq_refl).
  reflexivity.
Defined.

(** The home gets two boost switches and five child-lock switches: four
    valves and the thermostat, not the bridge. *)
Lemma switches_resolve_witness :
  List.length (switch_entities home_snapshot) = 7%nat /\
  exists device,
    child_lock_device home_snapshot (JStr "TR0001") = Ok (Some device) /\
    TadoXDevice.serial_number device = JStr "TR0001" /\
    has_child_lock device = true.
Proof.
  split; [reflexivity|].
  apply (switches_resolve (JInt 1) (JStr "Home") (JStr "HOME") room_states_payload
           topology_payload home_snapshot eq_refl (TadoXChildLockSwitch (JStr "TR0001"))).
  vm_compute. tauto.
Defined.


(** One pending answer, one sleep, then the poll that is answered 200. *)
Lemma poll_for_token_is_paced_witness :
  exists polls,
    paced 5 (device_code_request C0 "device-code") polls /\
    events (world (snd (poll_for_token C0 5 "device-code" 5 300
                          (client JNull JNull pending_then_issued))))
    = ([Sent (device_code_request C0 "device-code")] ++ polls ++ [])%list.
Proof.
  exact (poll_for_token_is_paced C0 5 "device-code" 5 300
           (client JNull JNull pending_then_issued) true
           (snd (poll_for_token C0 5 "device-code" 5 300
                   (client JNull JNull pending_then_issued)))
           eq_refl).
Defined.

(** The sensor that reports room 3 is put in the hall. *)
Lemma other_device_joins_named_room_witness :
  exists sensor rest,
    TadoXData.other_devices sensor_snapshot = sensor :: rest /\
    TadoXDevice.room_id sensor = JInt 3 /\
    TadoXDevice.room_name sensor = JStr "Hall".
Proof.
  destruct (other_device_joins_named_room (JInt 1) (JStr "Home") (JStr "HOME")
              room_states_payload sensor_topology sensor_built sensor_snapshot
              eq_refl eq_refl) as (others & Hothers & Hall).
  vm_compute in Hothers. inversion Hothers; subst others; clear Hothers.
  inversion Hall as [|payload sensor payloads rest Hfirst _]; subst.
  eexists; eexists. split; [reflexivity|].
  destruct (Hfirst (JInt 3) (KInt 3)
              (match Dict.get (KInt 3) (TadoXData.rooms sensor_built) with
               | Some r => r
               | None => living_room
               end) eq_refl eq_refl) as (Hid & Hname & _).
  split; assumption.
Defined.

(** Two writes on a token with 30 seconds left: two refreshes are entered and
    two token requests sent with the refresh token held, before anything
    else. *)
Lemma batch_refreshes_once_per_write_witness :
  exists later,
    events (world (snd (set_multiple_device_temperature_offsets C0 two_offsets due_client)))
    = (later ++ refreshes_started C0 (JStr "r1") 2 ++ [])%list.
Proof.
  assert (Hrange : threshold_in_range (Aware ((1700000000 + 30) * second) 0)).
  { unfold threshold_in_range, min_wall, max_wall, second. cbn [wall_of]. lia. }
  exact (batch_refreshes_once_per_write C0 two_offsets due_client
           (Aware ((1700000000 + 30) * second) 0) "1"
           eq_refl eq_refl eq_refl eq_refl eq_refl Hrange eq_refl).
Defined.

End Witness.
